(** * AI business agent backend: authorization, entity store and analytics

    A shallow embedding of the deterministic parts of the backend:

    - [services/auth_service.py]   the role check [check_permissions];
    - [crm/router.py], [erp/router.py], [support/router.py],
      [workflows/router.py], [sales/router.py], [marketing/router.py]
      the get-by-id and partial-update handlers;
    - [app/services/ai_service.py] the forecast and the recommendation
      heuristics, with [app/api/endpoints/erp.py] calling them.

    Conventions of the embedding.

    - A handler that can raise returns a [Py.result]; the exception is data.
    - ORM instances are attribute dictionaries ([gmap string value]):
      [setattr] with a field name computed at run time is map insertion.
    - The clock ([datetime.utcnow()]) and the text-generation service are
      explicit arguments.
    - The analytics are evaluated twice.  Over the reals and the rationals
      (Python floats as [Q] with [ZeroDivisionError] written out, numpy
      [float64] columns as [Float64.float64]: NaN, the two infinities, or an
      exact real) they give the laws the formulas obey when no operation
      rounds and the outcomes that rest on NaN, on the infinities and on the
      order of the steps.  In binary64 ([Binary64.binary64], the standard
      library's specification of IEEE 754 arithmetic) they give the values
      the program returns and the outcome of its comparisons. *)

From Stdlib Require Import ZArith List String Bool QArith Reals Lra Lia.
From Stdlib Require Lqa.
From Stdlib Require SpecFloat.
From stdpp Require Import gmap strings.
Import ListNotations.

Open Scope string_scope.
Open Scope list_scope.
Open Scope Z_scope.

(** ** Exceptions and results *)

Module Py.

Inductive exception : Type :=
| IndexError
| ZeroDivisionError
| KeyError (key : string)
| HTTPException (status_code : Z) (detail : string).

Inductive result (A : Type) : Type :=
| Ok (a : A)
| Raise (e : exception).

Arguments Ok {A} a.
Arguments Raise {A} e.

Definition bind {A B : Type} (m : result A) (k : A -> result B) : result B :=
  match m with
  | Ok a => k a
  | Raise e => Raise e
  end.

Definition is_ok {A : Type} (m : result A) : bool :=
  match m with Ok _ => true | Raise _ => false end.

End Py.

Notation "'let*' x ':=' m 'in' k" := (Py.bind m (fun x => k))
  (at level 10, x name, m at level 100, k at level 200).

(** ** [datetime]

    Python's naive [datetime]: the proleptic Gregorian calendar, ordered and
    subtracted through the day ordinal ([datetime.toordinal]). *)

Module Datetime.

Record datetime : Type := mk_datetime {
  year : Z; month : Z; day : Z;
  hour : Z; minute : Z; second : Z; microsecond : Z
}.

Definition is_leap (y : Z) : bool :=
  ((y mod 4 =? 0) && negb (y mod 100 =? 0)) || (y mod 400 =? 0).

Definition days_before_year (y : Z) : Z :=
  let y1 := y - 1 in y1 * 365 + y1 / 4 - y1 / 100 + y1 / 400.

Definition days_in_month (y m : Z) : Z :=
  if m =? 2 then (if is_leap y then 29 else 28)
  else if (m =? 4) || (m =? 6) || (m =? 9) || (m =? 11) then 30
  else 31.

Definition days_before_month (y m : Z) : Z :=
  fold_left (fun acc k => acc + days_in_month y k)
            (map Z.of_nat (seq 1 (Z.to_nat (m - 1)))) 0.

Definition toordinal (d : datetime) : Z :=
  days_before_year (year d) + days_before_month (year d) (month d) + day d.

Definition us_per_day : Z := 86400 * 1000000.

(** Microseconds since the start of day 0 of the ordinal count. *)
Definition to_microseconds (d : datetime) : Z :=
  toordinal d * us_per_day
  + ((hour d * 60 + minute d) * 60 + second d) * 1000000 + microsecond d.

(** [(a - b).days]: a [timedelta] is normalised with a non-negative
    remainder, so the day count is the floor. *)
Definition sub_days (a b : datetime) : Z :=
  (to_microseconds a - to_microseconds b) / us_per_day.

(** [a < b] *)
Definition ltb (a b : datetime) : bool :=
  to_microseconds a <? to_microseconds b.

(** [Series.dt.to_period('M')]: the calendar month, ordered by time. *)
Definition to_period_M (d : datetime) : Z := year d * 12 + (month d - 1).

End Datetime.

(** ** Identity and permission check ([services/auth_service.py]) *)

Module Auth.

(** [database/models.py], class [User]: the columns the handlers read. *)
Record User : Type := mk_User {
  id : Z;
  email : string;
  is_active : bool;
  is_superuser : bool;
  role : string
}.

(** [AuthService.check_permissions] *)
Definition check_permissions (user : User) (required_role : string) : bool :=
  String.eqb (role user) required_role || is_superuser user.

End Auth.

(** ** Entity store access: get by id and partial update *)

Module Store.

Import Py.

(** Column values of the relational rows and of the stored documents. *)
Inductive value : Type :=
| VNone
| VBool (b : bool)
| VInt (z : Z)
| VFloat (q : Q)
| VStr (s : string)
| VDateTime (d : Datetime.datetime).

(** [==] between two values of one column. *)
Definition value_eqb (a b : value) : bool :=
  match a, b with
  | VNone, VNone => true
  | VBool x, VBool y => Bool.eqb x y
  | VInt x, VInt y => Z.eqb x y
  | VFloat x, VFloat y => Qeq_bool x y
  | VStr x, VStr y => String.eqb x y
  | VDateTime x, VDateTime y =>
      Z.eqb (Datetime.to_microseconds x) (Datetime.to_microseconds y)
  | _, _ => false
  end.

(** An ORM instance or a document: its attributes by name. *)
Definition setattr (o : gmap string value) (field : string) (v : value)
  : gmap string value := <[field := v]> o.

(** [getattr(o, field, None)]; a mapped column that holds NULL reads [None]
    as well. *)
Definition getattr (o : gmap string value) (field : string) : value :=
  default VNone (o !! field).

(** The tables of the relational session. *)
Record Session : Type := mk_Session {
  leads : list (gmap string value);
  customers : list (gmap string value);
  tasks : list (gmap string value);
  support_tickets : list (gmap string value);
  workflows : list (gmap string value)
}.

Definition has_key (key : string) (k : value) (o : gmap string value) : bool :=
  match o !! key with
  | Some v => value_eqb v k
  | None => false
  end.

(** [db.query(T).filter(T.id == k).first()] *)
Definition query_filter_id_first (table : list (gmap string value)) (k : Z)
  : option (gmap string value) :=
  head (List.filter (has_key "id" (VInt k)) table).

(** [collection.find_one({"_id": k})] *)
Definition find_one (collection : list (gmap string value)) (k : string)
  : option (gmap string value) :=
  head (List.filter (has_key "_id" (VStr k)) collection).

(** *** Get by id *)

(** [crm/router.py], [get_lead] *)
Definition get_lead (lead_id : Z) (current_user : Auth.User) (db : Session)
  : result (gmap string value) :=
  match query_filter_id_first (leads db) lead_id with
  | None => Raise (HTTPException 404 "Lead not found")
  | Some lead => Ok lead
  end.

(** [crm/router.py], [get_customer] *)
Definition get_customer (customer_id : Z) (current_user : Auth.User)
  (db : Session) : result (gmap string value) :=
  match query_filter_id_first (customers db) customer_id with
  | None => Raise (HTTPException 404 "Customer not found")
  | Some customer => Ok customer
  end.

(** [erp/router.py], [get_task] *)
Definition get_task (task_id : Z) (current_user : Auth.User) (db : Session)
  : result (gmap string value) :=
  match query_filter_id_first (tasks db) task_id with
  | None => Raise (HTTPException 404 "Task not found")
  | Some task => Ok task
  end.

(** [support/router.py], [get_ticket] *)
Definition get_ticket (ticket_id : Z) (current_user : Auth.User)
  (db : Session) : result (gmap string value) :=
  match query_filter_id_first (support_tickets db) ticket_id with
  | None => Raise (HTTPException 404 "Ticket not found")
  | Some ticket => Ok ticket
  end.

(** [workflows/router.py], [get_workflow] *)
Definition get_workflow (workflow_id : Z) (current_user : Auth.User)
  (db : Session) : result (gmap string value) :=
  match query_filter_id_first (workflows db) workflow_id with
  | None => Raise (HTTPException 404 "Workflow not found")
  | Some workflow => Ok workflow
  end.

(** [sales/router.py], [get_pipeline] *)
Definition get_pipeline (pipeline_id : string) (current_user : Auth.User)
  (content_generation : list (gmap string value))
  : result (gmap string value) :=
  match find_one content_generation pipeline_id with
  | None => Raise (HTTPException 404 "Pipeline not found")
  | Some pipeline => Ok pipeline
  end.

(** [sales/router.py], [get_proposal] *)
Definition get_proposal (proposal_id : string) (current_user : Auth.User)
  (content_generation : list (gmap string value))
  : result (gmap string value) :=
  match find_one content_generation proposal_id with
  | None => Raise (HTTPException 404 "Proposal not found")
  | Some proposal => Ok proposal
  end.

(** [marketing/router.py], [get_content] *)
Definition get_content (content_id : string) (current_user : Auth.User)
  (content_generation : list (gmap string value))
  : result (gmap string value) :=
  match find_one content_generation content_id with
  | None => Raise (HTTPException 404 "Content not found")
  | Some content => Ok content
  end.

(** The entity kinds served by [GET /{kind}/{id}], with the identifier of
    the request: an integer key for rows, a string key for documents. *)
Inductive get_request : Type :=
| GetLead (lead_id : Z)
| GetCustomer (customer_id : Z)
| GetTask (task_id : Z)
| GetTicket (ticket_id : Z)
| GetWorkflow (workflow_id : Z)
| GetPipeline (pipeline_id : string)
| GetProposal (proposal_id : string)
| GetContent (content_id : string).

(** Routing of a get request to its handler. *)
Definition handle_get (rq : get_request) (current_user : Auth.User)
  (db : Session) (content_generation : list (gmap string value))
  : result (gmap string value) :=
  match rq with
  | GetLead k => get_lead k current_user db
  | GetCustomer k => get_customer k current_user db
  | GetTask k => get_task k current_user db
  | GetTicket k => get_ticket k current_user db
  | GetWorkflow k => get_workflow k current_user db
  | GetPipeline k => get_pipeline k current_user content_generation
  | GetProposal k => get_proposal k current_user content_generation
  | GetContent k => get_content k current_user content_generation
  end.

(** The records a request can resolve to: same table, same key. *)
Definition resolves (rq : get_request) (db : Session)
  (content_generation : list (gmap string value)) (o : gmap string value)
  : Prop :=
  match rq with
  | GetLead k => In o (leads db) /\ has_key "id" (VInt k) o = true
  | GetCustomer k => In o (customers db) /\ has_key "id" (VInt k) o = true
  | GetTask k => In o (tasks db) /\ has_key "id" (VInt k) o = true
  | GetTicket k => In o (support_tickets db) /\ has_key "id" (VInt k) o = true
  | GetWorkflow k => In o (workflows db) /\ has_key "id" (VInt k) o = true
  | GetPipeline k | GetProposal k | GetContent k =>
      In o content_generation /\ has_key "_id" (VStr k) o = true
  end.

Definition not_found_detail (rq : get_request) : string :=
  match rq with
  | GetLead _ => "Lead not found"
  | GetCustomer _ => "Customer not found"
  | GetTask _ => "Task not found"
  | GetTicket _ => "Ticket not found"
  | GetWorkflow _ => "Workflow not found"
  | GetPipeline _ => "Pipeline not found"
  | GetProposal _ => "Proposal not found"
  | GetContent _ => "Content not found"
  end.

(** *** Partial update *)

(** A field of an update model is [None] when the request did not set it
    and [Some v] when it did; [v] itself may be null. *)
Definition item {A : Type} (conv : A -> value) (field : string)
  (x : option (option A)) : list (string * value) :=
  match x with
  | None => []
  | Some None => [(field, VNone)]
  | Some (Some v) => [(field, conv v)]
  end.

(** [crm/router.py], class [LeadUpdate] *)
Record LeadUpdate : Type := mk_LeadUpdate {
  lu_name : option (option string);
  lu_company : option (option string);
  lu_phone : option (option string);
  lu_status : option (option string);
  lu_source : option (option string)
}.

(** [lead_update.dict(exclude_unset=True).items()], in declaration order *)
Definition LeadUpdate_dict (u : LeadUpdate) : list (string * value) :=
  item VStr "name" (lu_name u) ++ item VStr "company" (lu_company u)
  ++ item VStr "phone" (lu_phone u) ++ item VStr "status" (lu_status u)
  ++ item VStr "source" (lu_source u).

(** [erp/router.py], class [TaskUpdate] *)
Record TaskUpdate : Type := mk_TaskUpdate {
  tu_title : option (option string);
  tu_description : option (option string);
  tu_status : option (option string);
  tu_priority : option (option string);
  tu_due_date : option (option Datetime.datetime)
}.

(** [task_update.dict(exclude_unset=True).items()] *)
Definition TaskUpdate_dict (u : TaskUpdate) : list (string * value) :=
  item VStr "title" (tu_title u) ++ item VStr "description" (tu_description u)
  ++ item VStr "status" (tu_status u) ++ item VStr "priority" (tu_priority u)
  ++ item VDateTime "due_date" (tu_due_date u).

(** [for field, value in items: setattr(o, field, value)] *)
Definition setattr_items (o : gmap string value)
  (items : list (string * value)) : gmap string value :=
  fold_left (fun acc fv => setattr acc (fst fv) (snd fv)) items o.

(** [field in d] for a dict given by its items *)
Definition dict_contains (d : list (string * value)) (field : string) : bool :=
  existsb (fun fv => String.eqb (fst fv) field) d.

(** [db.commit(); db.refresh(o)]: the flush writes the assigned columns
    whose value differs from the loaded one; when it writes any, the column
    declared [onupdate=datetime.utcnow] is stamped. *)
Definition commit_refresh (utcnow : Datetime.datetime)
  (assigned : list string) (loaded o : gmap string value)
  : gmap string value :=
  if existsb (fun f => negb (value_eqb (getattr loaded f) (getattr o f)))
             assigned
  then setattr o "updated_at" (VDateTime utcnow)
  else o.

(** The row with primary key [k] after the commit. *)
Fixpoint store_row (table : list (gmap string value)) (k : Z)
  (o : gmap string value) : list (gmap string value) :=
  match table with
  | [] => []
  | r :: rest =>
      if has_key "id" (VInt k) r then o :: rest
      else r :: store_row rest k o
  end.

(** [crm/router.py], [update_lead].  [generate_lead_score] is the call to
    the text-generation service; it may raise.  The handler returns the
    session after the commit and the refreshed row. *)
Definition update_lead
  (generate_lead_score : list (string * value) -> result Q)
  (utcnow : Datetime.datetime)
  (lead_id : Z) (lead_update : LeadUpdate) (current_user : Auth.User)
  (db : Session) : result (Session * gmap string value) :=
  if negb (Auth.check_permissions current_user "sales")
  then Raise (HTTPException 403 "Not enough permissions")
  else
    match query_filter_id_first (leads db) lead_id with
    | None => Raise (HTTPException 404 "Lead not found")
    | Some db_lead =>
        let items := LeadUpdate_dict lead_update in
        let db_lead1 := setattr_items db_lead items in
        let* rescored :=
          (if existsb (dict_contains items) ["company"; "industry"]
           then
             let lead_data :=
               [("email", getattr db_lead1 "email");
                ("name", getattr db_lead1 "name");
                ("company", getattr db_lead1 "company");
                ("industry", getattr db_lead1 "industry")] in
             let* score := generate_lead_score lead_data in
             Ok (setattr db_lead1 "score" (VFloat score), ["score"])
           else Ok (db_lead1, [])) in
        let row :=
          commit_refresh utcnow (map fst items ++ snd rescored)
                         db_lead (fst rescored) in
        Ok (mk_Session (store_row (leads db) lead_id row) (customers db)
                       (tasks db) (support_tickets db) (workflows db),
            row)
    end.

(** [erp/router.py], [update_task] *)
Definition update_task (utcnow : Datetime.datetime)
  (task_id : Z) (task_update : TaskUpdate) (current_user : Auth.User)
  (db : Session) : result (Session * gmap string value) :=
  if negb (Auth.check_permissions current_user "manager")
  then Raise (HTTPException 403 "Not enough permissions")
  else
    match query_filter_id_first (tasks db) task_id with
    | None => Raise (HTTPException 404 "Task not found")
    | Some db_task =>
        let items := TaskUpdate_dict task_update in
        let db_task1 := setattr_items db_task items in
        let row := commit_refresh utcnow (map fst items) db_task db_task1 in
        Ok (mk_Session (leads db) (customers db)
                       (store_row (tasks db) task_id row)
                       (support_tickets db) (workflows db),
            row)
    end.

(** The partial updates served by [PUT /{kind}/{id}]. *)
Inductive put_request : Type :=
| PutLead (lead_id : Z) (lead_update : LeadUpdate)
| PutTask (task_id : Z) (task_update : TaskUpdate).

(** Routing of an update to its handler. *)
Definition handle_put
  (generate_lead_score : list (string * value) -> result Q)
  (utcnow : Datetime.datetime) (rq : put_request)
  (current_user : Auth.User) (db : Session)
  : result (Session * gmap string value) :=
  match rq with
  | PutLead k u => update_lead generate_lead_score utcnow k u current_user db
  | PutTask k u => update_task utcnow k u current_user db
  end.

(** The fields the payload of an update sets, with their values. *)
Definition payload_items (rq : put_request) : list (string * value) :=
  match rq with
  | PutLead _ u => LeadUpdate_dict u
  | PutTask _ u => TaskUpdate_dict u
  end.

(** The row an update loads. *)
Definition loaded_row (rq : put_request) (db : Session)
  : option (gmap string value) :=
  match rq with
  | PutLead k _ => query_filter_id_first (leads db) k
  | PutTask k _ => query_filter_id_first (tasks db) k
  end.

(** Whether the handler asks the scoring service for a new score. *)
Definition rescores (rq : put_request) : bool :=
  match rq with
  | PutLead _ u => existsb (dict_contains (LeadUpdate_dict u))
                           ["company"; "industry"]
  | PutTask _ _ => false
  end.

End Store.

(** ** ERP models ([app/models/erp.py]) *)

Module Erp.

Inductive UserRole : Type :=
| ADMIN | FINANCE_MANAGER | HR_MANAGER | OPERATIONS_MANAGER.

Inductive TransactionType : Type := INCOME | EXPENSE.

Inductive TransactionCategory : Type :=
| SALARIES | RENT | MARKETING | INVENTORY | UTILITIES | OTHER.

(** The value of the string enumeration. *)
Definition category_value (c : TransactionCategory) : string :=
  match c with
  | SALARIES => "salaries" | RENT => "rent" | MARKETING => "marketing"
  | INVENTORY => "inventory" | UTILITIES => "utilities" | OTHER => "other"
  end.

Definition category_eqb (a b : TransactionCategory) : bool :=
  String.eqb (category_value a) (category_value b).

Definition type_eqb (a b : TransactionType) : bool :=
  match a, b with
  | INCOME, INCOME | EXPENSE, EXPENSE => true
  | _, _ => false
  end.

Record User : Type := mk_User {
  user_id : Z;
  role : UserRole;
  user_is_active : bool
}.

Record Transaction : Type := mk_Transaction {
  transaction_id : Z;
  amount : Q;
  type : TransactionType;
  category : TransactionCategory;
  date : Datetime.datetime
}.

Record Employee : Type := mk_Employee {
  employee_id : Z;
  hire_date : Datetime.datetime;
  employee_is_active : bool
}.

Record Invoice : Type := mk_Invoice {
  invoice_id : Z;
  invoice_amount : Q;
  due_date : Datetime.datetime;
  status : string
}.

(** The tables read by [app/api/endpoints/erp.py]. *)
Record Session : Type := mk_Session {
  transactions : list Transaction;
  employees : list Employee;
  invoices : list Invoice
}.

End Erp.

(** ** [float64] without rounding

    NaN, an infinity with its sign, or a finite value. Division by zero and
    invalid operations follow IEEE 754 as numpy applies it (a warning, no
    exception); zero has no sign. *)

Module Float64.

Local Open Scope R_scope.

Inductive float64 : Type :=
| NaN
| Inf (negative : bool)
| Fin (x : R).

Definition negative_sign (x : R) : bool :=
  if Rlt_dec x 0 then true else false.

Definition add (a b : float64) : float64 :=
  match a, b with
  | NaN, _ | _, NaN => NaN
  | Fin x, Fin y => Fin (x + y)
  | Inf s, Fin _ | Fin _, Inf s => Inf s
  | Inf s, Inf t => if Bool.eqb s t then Inf s else NaN
  end.

Definition sub (a b : float64) : float64 :=
  match a, b with
  | NaN, _ | _, NaN => NaN
  | Fin x, Fin y => Fin (x - y)
  | Inf s, Fin _ => Inf s
  | Fin _, Inf t => Inf (negb t)
  | Inf s, Inf t => if Bool.eqb s t then NaN else Inf s
  end.

Definition mul (a b : float64) : float64 :=
  match a, b with
  | NaN, _ | _, NaN => NaN
  | Fin x, Fin y => Fin (x * y)
  | Inf s, Fin y | Fin y, Inf s =>
      if Req_dec_T y 0 then NaN else Inf (xorb s (negative_sign y))
  | Inf s, Inf t => Inf (xorb s t)
  end.

Definition div (a b : float64) : float64 :=
  match a, b with
  | NaN, _ | _, NaN => NaN
  | Fin x, Fin y =>
      if Req_dec_T y 0
      then (if Req_dec_T x 0 then NaN else Inf (negative_sign x))
      else Fin (x / y)
  | Fin _, Inf _ => Fin 0
  | Inf s, Fin y => Inf (xorb s (negative_sign y))
  | Inf _, Inf _ => NaN
  end.

Definition sqrt (a : float64) : float64 :=
  match a with
  | NaN => NaN
  | Inf true => NaN
  | Inf false => Inf false
  | Fin x => if Rlt_dec x 0 then NaN else Fin (R_sqrt.sqrt x)
  end.

(** [a > b]; false as soon as one side is NaN. *)
Definition gtb (a b : float64) : bool :=
  match a, b with
  | NaN, _ | _, NaN => false
  | Fin x, Fin y => if Rlt_dec y x then true else false
  | Inf s, Fin _ => negb s
  | Fin _, Inf t => t
  | Inf s, Inf t => negb s && t
  end.

(** [a < b] *)
Definition ltb (a b : float64) : bool := gtb b a.

Definition isnan (a : float64) : bool :=
  match a with NaN => true | _ => false end.

(** Python's [max(0, x)]: the first argument is kept unless [x > 0]. *)
Definition max0 (x : float64) : float64 :=
  if gtb x (Fin 0) then x else Fin 0.

End Float64.

(** ** [float64] as IEEE 754 binary64

    The values and the operations of the standard library's specification
    of floating-point arithmetic, at precision 53 and maximal exponent 1024:
    every operation rounds to the nearest value, ties to even, as the
    interpreter and numpy do; zeros are signed; division by zero and invalid
    operations give an infinity or NaN, as numpy applies them. *)

Module Binary64.

Definition prec : Z := 53.

Definition emax : Z := 1024.

Definition binary64 : Type := SpecFloat.spec_float.

Definition NaN : binary64 := SpecFloat.S754_nan.

(** [float(z)] *)
Definition of_Z (z : Z) : binary64 :=
  SpecFloat.binary_normalize prec emax z 0 false.

Definition zero : binary64 := of_Z 0.

Definition one : binary64 := of_Z 1.

Definition add : binary64 -> binary64 -> binary64 :=
  SpecFloat.SFadd prec emax.

Definition sub : binary64 -> binary64 -> binary64 :=
  SpecFloat.SFsub prec emax.

Definition mul : binary64 -> binary64 -> binary64 :=
  SpecFloat.SFmul prec emax.

Definition div : binary64 -> binary64 -> binary64 :=
  SpecFloat.SFdiv prec emax.

Definition sqrt : binary64 -> binary64 := SpecFloat.SFsqrt prec emax.

(** The value of the decimal literal [q], such as [0.1]: the float nearest
    to it, obtained as the quotient of two integers that are floats,
    rounded once. *)
Definition of_Q (q : Q) : binary64 :=
  div (of_Z (Qnum q)) (of_Z (Zpos (Qden q))).

(** [a > b]; false as soon as one side is NaN. *)
Definition gtb (a b : binary64) : bool := SpecFloat.SFltb b a.

(** [a < b] *)
Definition ltb (a b : binary64) : bool := SpecFloat.SFltb a b.

(** [a == b]; the two zeros are equal, NaN is equal to nothing. *)
Definition eqb (a b : binary64) : bool := SpecFloat.SFeqb a b.

Definition isnan (a : binary64) : bool :=
  match a with SpecFloat.S754_nan => true | _ => false end.

(** Python's [max(0, x)]: the first argument is kept unless [x > 0]. *)
Definition max0 (x : binary64) : binary64 :=
  if gtb x zero then x else zero.

End Binary64.

(** ** The pandas operations the forecast calls *)

Module Pandas.

Import Py Float64.
Local Open Scope R_scope.

(** [s.iloc[-1]] *)
Definition iloc_last {A : Type} (s : list A) : result A :=
  match rev s with
  | [] => Raise IndexError
  | x :: _ => Ok x
  end.

(** The values [skipna=True] keeps. *)
Definition notna (s : list float64) : list float64 :=
  List.filter (fun x => negb (isnan x)) s.

Definition sum (s : list float64) : float64 := fold_left add s (Fin 0).

(** [Series.mean()] *)
Definition mean (s : list float64) : float64 :=
  let values := notna s in
  match values with
  | [] => NaN
  | _ => div (sum values) (Fin (INR (length values)))
  end.

(** [Series.var()], [ddof=1] *)
Definition var (s : list float64) : float64 :=
  let values := notna s in
  let count := length values in
  if (count <=? 1)%nat then NaN
  else
    let avg := div (sum values) (Fin (INR count)) in
    let sqr := map (fun x => mul (sub avg x) (sub avg x)) values in
    div (sum sqr) (Fin (INR count - 1)).

(** [Series.std()], [ddof=1] *)
Definition std (s : list float64) : float64 := sqrt (var s).

Fixpoint pct_change_from (previous : R) (s : list R) : list float64 :=
  match s with
  | [] => []
  | x :: rest =>
      sub (div (Fin x) (Fin previous)) (Fin 1) :: pct_change_from x rest
  end.

(** [Series.pct_change()] on a column of finite values:
    [s / s.shift(1) - 1], NaN in the first position. *)
Definition pct_change (s : list R) : list float64 :=
  match s with
  | [] => []
  | x :: rest => NaN :: pct_change_from x rest
  end.

(** [Series.rolling(window).std()]: NaN until the window is full, then the
    sample standard deviation of the last [window] values. *)
Definition rolling_std (window : nat) (s : list R) : list float64 :=
  map (fun i =>
         if (S i <? window)%nat then NaN
         else std (map Fin (firstn window (skipn (S i - window) s))))
      (seq 0 (length s)).

Fixpoint groupby_insert (key : Z) (a : R) (groups : list (Z * R))
  : list (Z * R) :=
  match groups with
  | [] => [(key, a)]
  | (k, total) :: rest =>
      if (key <? k)%Z then (key, a) :: groups
      else if (key =? k)%Z then (k, total + a) :: rest
      else (k, total) :: groupby_insert key a rest
  end.

(** [df.groupby(key).agg({'amount': 'sum'}).reset_index()]: one row per
    key, keys ascending. *)
Definition groupby_sum (rows : list (Z * R)) : list (Z * R) :=
  fold_left (fun groups r => groupby_insert (fst r) (snd r) groups) rows [].

End Pandas.

(** ** Deterministic analytics ([app/services/ai_service.py]) *)

Module AIService.

Import Py Float64 Pandas.

(** *** Forecast *)

(** A row of the frame built by [analyze_financial_data]. *)
Record df_row : Type := mk_df_row {
  df_date : Datetime.datetime;
  df_amount : R;
  df_type : Erp.TransactionType;
  df_category : Erp.TransactionCategory
}.

(** A row of [monthly_data] once the [growth_rate] column is assigned. *)
Record monthly_row : Type := mk_monthly_row {
  period : Z;
  amount : R;
  growth_rate : float64
}.

(** [schemas/erp.py], class [FinancialForecast], and the dictionary
    [_generate_forecast] returns. *)
Record FinancialForecast : Type := mk_FinancialForecast {
  predicted_revenue : float64;
  predicted_expenses : float64;
  confidence_score : float64;
  factors : list string
}.

(** [monthly_data] of [_generate_forecast]: the monthly totals with their
    growth rates. *)
Definition monthly_frame (df : list df_row) : list monthly_row :=
  let monthly_data :=
    groupby_sum
      (map (fun r => (Datetime.to_period_M (df_date r), df_amount r)) df) in
  map (fun pr => mk_monthly_row (fst (fst pr)) (snd (fst pr)) (snd pr))
      (combine monthly_data (pct_change (map snd monthly_data))).

(** [AIService._identify_forecast_factors] *)
Definition _identify_forecast_factors (monthly_data : list monthly_row)
  : result (list string) :=
  let factors : list string := [] in
  let trend := mean (pct_change (map amount monthly_data)) in
  let factors : list string :=
    if gtb trend (Fin 0.1)
    then (factors ++ ["Strong upward trend in revenue"])%list
    else if ltb trend (Fin (-0.1))
         then (factors ++ ["Declining revenue trend"])%list
         else factors in
  let* factors :=
    (if (12 <=? length monthly_data)%nat
     then
       let seasonal_pattern := rolling_std 12 (map amount monthly_data) in
       let* last_std := iloc_last seasonal_pattern in
       if gtb last_std
              (mul (mean (map Fin (map amount monthly_data))) (Fin 0.2))
       then Ok (factors ++ ["Significant seasonal variations"])%list
       else Ok factors
     else Ok factors) in
  let volatility := std (pct_change (map amount monthly_data)) in
  if gtb volatility (Fin 0.2)
  then Ok (factors ++ ["High revenue volatility"])%list
  else Ok factors.

(** [AIService._generate_forecast].  A frame built from no record has no
    column, and selecting ['date'] raises. *)
Definition _generate_forecast (df : list df_row) : result FinancialForecast :=
  match df with
  | [] => Raise (KeyError "date")
  | _ =>
      let monthly_data := monthly_frame df in
      let* last_month := iloc_last monthly_data in
      let forecast_revenue :=
        mul (Fin (amount last_month)) (add (Fin 1) (growth_rate last_month)) in
      let forecast_expenses := mul (Fin (amount last_month)) (Fin 0.8) in
      let volatility := std (map growth_rate monthly_data) in
      let confidence := max0 (sub (Fin 1) volatility) in
      let* factors := _identify_forecast_factors monthly_data in
      Ok (mk_FinancialForecast forecast_revenue forecast_expenses confidence
                               factors)
  end.

(** [AIService.analyze_financial_data]: a frame built from no record has
    no column, and selecting ['type'] raises. The two totals the method
    computes before the forecast are not used. *)
Definition analyze_financial_data (transactions : list Erp.Transaction)
  : result FinancialForecast :=
  let df :=
    map (fun t => mk_df_row (Erp.date t) (Q2R (Erp.amount t)) (Erp.type t)
                            (Erp.category t)) transactions in
  match df with
  | [] => Raise (KeyError "type")
  | _ => _generate_forecast df
  end.

(** *** Recommendations *)

(** An f-string, kept as its literal text and its formatted fields; the
    share of a category is a rational in the analysis over the rationals and
    a float in the analysis in binary64. *)
Inductive fstring_part : Type :=
| Text (s : string)
| Field_category (c : Erp.TransactionCategory)
| Field_percent1 (q : Q)
| Field_percent1_binary64 (x : Binary64.binary64)
| Field_int (n : Z).

(** [schemas/erp.py], class [AIRecommendation] *)
Record AIRecommendation : Type := mk_AIRecommendation {
  rec_type : string;
  message : list fstring_part;
  impact : string;
  priority : string;
  action_items : list (list fstring_part)
}.

(** [d.get(k, default)] on an insertion-ordered dict *)
Definition dict_get (d : list (Erp.TransactionCategory * Q))
  (k : Erp.TransactionCategory) (default : Q) : Q :=
  match List.find (fun kv => Erp.category_eqb (fst kv) k) d with
  | Some kv => snd kv
  | None => default
  end.

(** [d[k] = v]: an existing key keeps its position, a new key goes last. *)
Fixpoint dict_set (d : list (Erp.TransactionCategory * Q))
  (k : Erp.TransactionCategory) (v : Q)
  : list (Erp.TransactionCategory * Q) :=
  match d with
  | [] => [(k, v)]
  | (k', v') :: rest =>
      if Erp.category_eqb k' k then (k', v) :: rest
      else (k', v') :: dict_set rest k v
  end.

Definition expense_recommendation (category : Erp.TransactionCategory)
  (percentage : Q) : AIRecommendation :=
  mk_AIRecommendation
    "expense_optimization"
    [Text "High spending in "; Field_category category;
     Text " category ("; Field_percent1 percentage;
     Text " of total expenses)"]
    "medium"
    "high"
    [[Text "Review "; Field_category category;
      Text " expenses for potential cost reduction"];
     [Text "Consider negotiating better rates with vendors"];
     [Text "Implement budget controls for this category"]].

(** The first loop of [_analyze_expenses]. *)
Definition category_totals (expenses : list Erp.Transaction)
  : list (Erp.TransactionCategory * Q) :=
  fold_left
    (fun totals expense =>
       dict_set totals (Erp.category expense)
                (dict_get totals (Erp.category expense) 0
                 + Erp.amount expense)%Q)
    expenses [].

(** The second loop of [_analyze_expenses]. *)
Fixpoint high_spending (total_expenses : Q)
  (items : list (Erp.TransactionCategory * Q))
  (recommendations : list AIRecommendation)
  : result (list AIRecommendation) :=
  match items with
  | [] => Ok recommendations
  | (category, amount) :: rest =>
      if Qeq_bool total_expenses 0 then Raise ZeroDivisionError
      else
        let percentage := (amount / total_expenses)%Q in
        high_spending total_expenses rest
          (if negb (Qle_bool percentage 0.3)
           then (recommendations
                 ++ [expense_recommendation category percentage])%list
           else recommendations)
  end.

(** [AIService._analyze_expenses] *)
Definition _analyze_expenses (transactions : list Erp.Transaction)
  : result (list AIRecommendation) :=
  let recommendations : list AIRecommendation := [] in
  let expenses :=
    List.filter (fun t => Erp.type_eqb (Erp.type t) Erp.EXPENSE)
                transactions in
  let totals := category_totals expenses in
  let total_expenses := fold_left Qplus (map snd totals) 0%Q in
  high_spending total_expenses totals recommendations.

Definition retention_recommendation : AIRecommendation :=
  mk_AIRecommendation
    "employee_retention"
    [Text "Low average employee tenure detected"]
    "high"
    "medium"
    [[Text "Review compensation and benefits package"];
     [Text "Implement employee engagement programs"];
     [Text "Conduct exit interviews to identify issues"]].

(** [AIService._analyze_employee_retention]; [now] is
    [datetime.utcnow()]. *)
Definition _analyze_employee_retention (now : Datetime.datetime)
  (employees : list Erp.Employee) : result (list AIRecommendation) :=
  let recommendations : list AIRecommendation := [] in
  let tenures :=
    map (fun emp => Datetime.sub_days now (Erp.hire_date emp)) employees in
  if (length tenures =? 0)%nat then Raise ZeroDivisionError
  else
    let avg_tenure :=
      (inject_Z (fold_left Z.add tenures 0%Z)
       / inject_Z (Z.of_nat (length tenures)))%Q in
    if negb (Qle_bool 365 avg_tenure)
    then Ok (recommendations ++ [retention_recommendation])%list
    else Ok recommendations.

Definition invoice_recommendation (n : nat) : AIRecommendation :=
  mk_AIRecommendation
    "invoice_processing"
    [Field_int (Z.of_nat n); Text " overdue invoices detected"]
    "medium"
    "high"
    [[Text "Review and process overdue invoices"];
     [Text "Implement automated payment reminders"];
     [Text "Consider early payment discounts"]].

(** [AIService._analyze_invoices] *)
Definition _analyze_invoices (now : Datetime.datetime)
  (invoices : list Erp.Invoice) : result (list AIRecommendation) :=
  let recommendations : list AIRecommendation := [] in
  let overdue_invoices :=
    List.filter
      (fun inv => Datetime.ltb (Erp.due_date inv) now
                  && negb (String.eqb (Erp.status inv) "paid"))
      invoices in
  match overdue_invoices with
  | [] => Ok recommendations
  | _ => Ok (recommendations
             ++ [invoice_recommendation (length overdue_invoices)])%list
  end.

(** [AIService.generate_recommendations] *)
Definition generate_recommendations (now : Datetime.datetime)
  (transactions : list Erp.Transaction) (employees : list Erp.Employee)
  (invoices : list Erp.Invoice) : result (list AIRecommendation) :=
  let recommendations : list AIRecommendation := [] in
  let* expense_recommendations := _analyze_expenses transactions in
  let recommendations := (recommendations ++ expense_recommendations)%list in
  let* retention_recommendations :=
    _analyze_employee_retention now employees in
  let recommendations :=
    (recommendations ++ retention_recommendations)%list in
  let* invoice_recommendations := _analyze_invoices now invoices in
  Ok (recommendations ++ invoice_recommendations)%list.

End AIService.

(** ** The dashboard endpoint ([app/api/endpoints/erp.py]) *)

Module ErpEndpoints.

Import Py.

(** [get_ai_recommendations]; [now] is the clock read by the service. *)
Definition get_ai_recommendations (now : Datetime.datetime)
  (current_user : Erp.User) (db : Erp.Session)
  : result (list AIService.AIRecommendation) :=
  let data :=
    match Erp.role current_user with
    | Erp.ADMIN =>
        (Erp.transactions db, Erp.employees db, Erp.invoices db)
    | Erp.FINANCE_MANAGER =>
        (List.filter
           (fun t => Erp.type_eqb (Erp.type t) Erp.INCOME
                     || Erp.type_eqb (Erp.type t) Erp.EXPENSE)
           (Erp.transactions db),
         [], Erp.invoices db)
    | Erp.HR_MANAGER => ([], Erp.employees db, [])
    | _ => ([], [], Erp.invoices db)
    end in
  AIService.generate_recommendations now (fst (fst data)) (snd (fst data))
                                     (snd data).

End ErpEndpoints.

(** ** Terms in which the forecast is specified *)

Module ForecastTerms.

Import Float64 Pandas AIService.

(** The monthly series of a frame: the totals per calendar month, in
    chronological order. *)
Definition monthly_amounts (df : list df_row) : list R :=
  map snd
      (groupby_sum
         (map (fun r => (Datetime.to_period_M (df_date r), df_amount r)) df)).

(** The per-period growth rates of a frame, NaN for the first period. *)
Definition growth_rates (df : list df_row) : list float64 :=
  pct_change (monthly_amounts df).

(** The last [window] values of a series. *)
Definition last_window (window : nat) (s : list R) : list R :=
  skipn (length s - window) s.

Definition upward_trend (rates : list float64) : bool :=
  gtb (mean rates) (Fin 0.1).

Definition declining_trend (rates : list float64) : bool :=
  ltb (mean rates) (Fin (-0.1)).

Definition seasonal_variation (amounts : list R) : bool :=
  (12 <=? length amounts)%nat
  && gtb (std (map Fin (last_window 12 amounts)))
         (mul (mean (map Fin amounts)) (Fin 0.2)).

Definition high_volatility (rates : list float64) : bool :=
  gtb (std rates) (Fin 0.2).

(** The factor list the specification describes: trend, then seasonality,
    then volatility, each present only when its condition holds. *)
Definition expected_factors (amounts : list R) : list string :=
  ((if upward_trend (pct_change amounts)
    then ["Strong upward trend in revenue"]
    else if declining_trend (pct_change amounts)
         then ["Declining revenue trend"]
         else [])
   ++ (if seasonal_variation amounts
       then ["Significant seasonal variations"] else [])
   ++ (if high_volatility (pct_change amounts)
       then ["High revenue volatility"] else []))%list.

(** Every amount of a frame multiplied by [c]. *)
Definition scale_frame (c : R) (df : list df_row) : list df_row :=
  map (fun r => mk_df_row (df_date r) (c * df_amount r) (df_type r)
                          (df_category r)) df.

End ForecastTerms.

(** ** Terms in which the expense recommendation is specified *)

Module ExpenseTerms.

(** The expense transactions, in the order given. *)
Definition expenses_of (transactions : list Erp.Transaction)
  : list Erp.Transaction :=
  List.filter (fun t => Erp.type_eqb (Erp.type t) Erp.EXPENSE) transactions.

Definition sum_amounts (transactions : list Erp.Transaction) : Q :=
  fold_left Qplus (map Erp.amount transactions) 0%Q.

(** The total of all expenses. *)
Definition total_expense (transactions : list Erp.Transaction) : Q :=
  sum_amounts (expenses_of transactions).

(** The total of the expenses of one category. *)
Definition category_expense (c : Erp.TransactionCategory)
  (transactions : list Erp.Transaction) : Q :=
  sum_amounts
    (List.filter (fun t => Erp.category_eqb (Erp.category t) c)
                 (expenses_of transactions)).

(** The share of a category in the total of all expenses. *)
Definition expense_share (transactions : list Erp.Transaction)
  (c : Erp.TransactionCategory) : Q :=
  (category_expense c transactions / total_expense transactions)%Q.

(** The distinct elements of a list, each at its first occurrence. *)
Fixpoint first_occurrences (l : list Erp.TransactionCategory)
  : list Erp.TransactionCategory :=
  match l with
  | [] => []
  | c :: rest =>
      c :: List.filter (fun c' => negb (Erp.category_eqb c' c))
                       (first_occurrences rest)
  end.

(** The categories whose share exceeds 30%, in order of first occurrence
    among the expenses. *)
Definition high_spending_categories (transactions : list Erp.Transaction)
  : list Erp.TransactionCategory :=
  List.filter
    (fun c => negb (Qle_bool (expense_share transactions c) 0.3))
    (first_occurrences (map Erp.category (expenses_of transactions))).

End ExpenseTerms.

(** ** Sample data *)

Module Samples.

Import Py Store.

Definition sample_user : Auth.User :=
  Auth.mk_User 7 "ana@example.com" true false "sales".

Definition sample_manager : Auth.User :=
  Auth.mk_User 8 "max@example.com" true false "manager".

Definition new_year : Datetime.datetime :=
  Datetime.mk_datetime 2024 1 1 0 0 0 0.

Definition sample_now : Datetime.datetime :=
  Datetime.mk_datetime 2024 6 1 12 0 0 0.

Definition sample_lead : gmap string value :=
  <["id" := VInt 1]> (<["email" := VStr "lead@example.com"]>
  (<["name" := VStr "Lee"]> (<["company" := VStr "Initech"]>
  (<["status" := VStr "new"]> (<["score" := VFloat 10]>
  (<["updated_at" := VDateTime new_year]> ∅)))))).

Definition sample_task : gmap string value :=
  <["id" := VInt 4]> (<["title" := VStr "Audit"]>
  (<["status" := VStr "pending"]>
  (<["updated_at" := VDateTime new_year]> ∅))).

Definition sample_db : Session :=
  mk_Session [sample_lead] [] [sample_task] [] [].

(** A scoring service that answers 90 to every request. *)
Definition sample_score (lead_data : list (string * value)) : result Q :=
  Ok 90%Q.

(** A payload that sets [company] and sets [status] to null. *)
Definition sample_lead_update : LeadUpdate :=
  mk_LeadUpdate None (Some (Some "Acme")) None (Some None) None.

Definition sample_lead_updated : gmap string value :=
  <["company" := VStr "Acme"]> (<["status" := VNone]>
  (<["score" := VFloat 90]> (<["updated_at" := VDateTime sample_now]>
   sample_lead))).

(** A payload that sets [title] only. *)
Definition sample_task_update : TaskUpdate :=
  mk_TaskUpdate (Some (Some "Audit Q2")) None None None None.

Definition sample_task_updated : gmap string value :=
  <["title" := VStr "Audit Q2"]>
  (<["updated_at" := VDateTime sample_now]> sample_task).

(** One transaction, hence a series of one month. *)
Definition one_month : list AIService.df_row :=
  [AIService.mk_df_row (Datetime.mk_datetime 2024 1 15 0 0 0 0) 100
                       Erp.INCOME Erp.OTHER].

(** Three transactions over two months, with totals 100 and 110. *)
Definition two_months : list AIService.df_row :=
  [AIService.mk_df_row (Datetime.mk_datetime 2024 2 3 0 0 0 0) 110
                       Erp.INCOME Erp.OTHER;
   AIService.mk_df_row (Datetime.mk_datetime 2024 1 15 0 0 0 0) 60
                       Erp.INCOME Erp.OTHER;
   AIService.mk_df_row (Datetime.mk_datetime 2024 1 20 0 0 0 0) 40
                       Erp.EXPENSE Erp.RENT].

(** Three months growing by one half each month. *)
Definition three_months : list AIService.df_row :=
  [AIService.mk_df_row (Datetime.mk_datetime 2024 1 10 0 0 0 0) 100
                       Erp.INCOME Erp.OTHER;
   AIService.mk_df_row (Datetime.mk_datetime 2024 2 10 0 0 0 0) 150
                       Erp.INCOME Erp.OTHER;
   AIService.mk_df_row (Datetime.mk_datetime 2024 3 10 0 0 0 0) 225
                       Erp.INCOME Erp.OTHER].

(** Expenses of 3100 for rent, 6000 for salaries in two payments and 900
    for the rest, with one income that the analysis ignores. *)
Definition sample_transactions : list Erp.Transaction :=
  [Erp.mk_Transaction 1 3100 Erp.EXPENSE Erp.RENT new_year;
   Erp.mk_Transaction 2 4000 Erp.EXPENSE Erp.SALARIES new_year;
   Erp.mk_Transaction 3 20000 Erp.INCOME Erp.OTHER new_year;
   Erp.mk_Transaction 4 900 Erp.EXPENSE Erp.OTHER new_year;
   Erp.mk_Transaction 5 2000 Erp.EXPENSE Erp.SALARIES sample_now].

Definition sample_invoices : list Erp.Invoice :=
  [Erp.mk_Invoice 1 250 new_year "pending"].

Definition sample_erp_db : Erp.Session :=
  Erp.mk_Session sample_transactions
                 [Erp.mk_Employee 1 new_year true] sample_invoices.

(** Employees hired 400, 200 and 100 days before [sample_now]. *)
Definition recent_staff : list Erp.Employee :=
  [Erp.mk_Employee 1 (Datetime.mk_datetime 2023 4 28 12 0 0 0) true;
   Erp.mk_Employee 2 (Datetime.mk_datetime 2023 11 14 12 0 0 0) true;
   Erp.mk_Employee 3 (Datetime.mk_datetime 2024 2 22 12 0 0 0) true].

(** Employees all hired 400 days before [sample_now]. *)
Definition settled_staff : list Erp.Employee :=
  [Erp.mk_Employee 1 (Datetime.mk_datetime 2023 4 28 12 0 0 0) true;
   Erp.mk_Employee 2 (Datetime.mk_datetime 2023 4 28 12 0 0 0) true;
   Erp.mk_Employee 3 (Datetime.mk_datetime 2023 4 28 12 0 0 0) true].

(** Two unpaid invoices past their due date, one paid, one not yet due. *)
Definition mixed_invoices : list Erp.Invoice :=
  [Erp.mk_Invoice 1 250 new_year "pending";
   Erp.mk_Invoice 2 80 new_year "sent";
   Erp.mk_Invoice 3 120 new_year "paid";
   Erp.mk_Invoice 4 60 (Datetime.mk_datetime 2025 1 1 0 0 0 0) "pending"].

Definition finance_manager : Erp.User :=
  Erp.mk_User 3 Erp.FINANCE_MANAGER true.

Definition operations_manager : Erp.User :=
  Erp.mk_User 4 Erp.OPERATIONS_MANAGER true.

End Samples.

(** ** Terms in which the update handlers are specified *)

Module UpdateTerms.

Import Store.

(** The role an update requires. *)
Definition put_role (rq : put_request) : string :=
  match rq with
  | PutLead _ _ => "sales"
  | PutTask _ _ => "manager"
  end.

(** The key an update addresses. *)
Definition put_key (rq : put_request) : Z :=
  match rq with
  | PutLead k _ => k
  | PutTask k _ => k
  end.

Definition put_not_found (rq : put_request) : string :=
  match rq with
  | PutLead _ _ => "Lead not found"
  | PutTask _ _ => "Task not found"
  end.

(** The session after the commit of the row an update returns. *)
Definition put_store (rq : put_request) (db : Session)
  (row : gmap string value) : Session :=
  match rq with
  | PutLead k _ =>
      mk_Session (store_row (leads db) k row) (customers db) (tasks db)
                 (support_tickets db) (workflows db)
  | PutTask k _ =>
      mk_Session (leads db) (customers db) (store_row (tasks db) k row)
                 (support_tickets db) (workflows db)
  end.

End UpdateTerms.

(** ** Terms in which the partial update is specified *)

Module PartialUpdateTerms.

Import Store.

(** The columns an update assigns: those of the payload and, when the
    handler asks for a new score, [score]. *)
Definition assigned_columns (rq : put_request) : list string :=
  map fst (payload_items rq) ++ (if rescores rq then ["score"] else []).

(** Whether an assigned column of [row] holds another value than in the
    row loaded. *)
Definition net_change (rq : put_request) (loaded row : gmap string value)
  : bool :=
  existsb (fun f => negb (value_eqb (getattr loaded f) (getattr row f)))
          (assigned_columns rq).

(** What the scoring service is asked about a lead. *)
Definition scoring_input (row : gmap string value) : list (string * value) :=
  [("email", getattr row "email"); ("name", getattr row "name");
   ("company", getattr row "company"); ("industry", getattr row "industry")].

End PartialUpdateTerms.

(** ** Terms in which the retention analysis is specified *)

Module RetentionTerms.

(** The sum, over the employees, of the whole days since their hire. *)
Definition total_tenure (now : Datetime.datetime)
  (employees : list Erp.Employee) : Z :=
  fold_left Z.add
            (map (fun emp => Datetime.sub_days now (Erp.hire_date emp))
                 employees) 0.

End RetentionTerms.

(** ** More sample data *)

Module MoreSamples.

(** Three months, the second with a total of zero. *)
Definition gap_months : list AIService.df_row :=
  [AIService.mk_df_row (Datetime.mk_datetime 2024 1 10 0 0 0 0) 100
                       Erp.INCOME Erp.OTHER;
   AIService.mk_df_row (Datetime.mk_datetime 2024 2 10 0 0 0 0) 0
                       Erp.INCOME Erp.OTHER;
   AIService.mk_df_row (Datetime.mk_datetime 2024 3 10 0 0 0 0) 50
                       Erp.INCOME Erp.OTHER].

(** Four months with the same total. *)
Definition flat_months : list AIService.df_row :=
  [AIService.mk_df_row (Datetime.mk_datetime 2024 1 10 0 0 0 0) 200
                       Erp.INCOME Erp.OTHER;
   AIService.mk_df_row (Datetime.mk_datetime 2024 2 10 0 0 0 0) 200
                       Erp.INCOME Erp.OTHER;
   AIService.mk_df_row (Datetime.mk_datetime 2024 3 10 0 0 0 0) 200
                       Erp.INCOME Erp.OTHER;
   AIService.mk_df_row (Datetime.mk_datetime 2024 4 10 0 0 0 0) 200
                       Erp.INCOME Erp.OTHER].

(** The two-month sample as transactions, and the same months and amounts
    with other days, types and categories. *)
Definition booked : list Erp.Transaction :=
  [Erp.mk_Transaction 1 110 Erp.INCOME Erp.OTHER
                      (Datetime.mk_datetime 2024 2 3 0 0 0 0);
   Erp.mk_Transaction 2 60 Erp.INCOME Erp.OTHER
                      (Datetime.mk_datetime 2024 1 15 0 0 0 0)].

Definition rebooked : list Erp.Transaction :=
  [Erp.mk_Transaction 7 110 Erp.EXPENSE Erp.RENT
                      (Datetime.mk_datetime 2024 2 28 23 0 0 0);
   Erp.mk_Transaction 8 60 Erp.EXPENSE Erp.SALARIES
                      (Datetime.mk_datetime 2024 1 1 0 0 0 0)].

End MoreSamples.

(** ** More of the dashboard endpoints ([app/api/endpoints/erp.py]) *)

Module ErpDashboard.

Import Py.

Definition role_eqb (a b : Erp.UserRole) : bool :=
  match a, b with
  | Erp.ADMIN, Erp.ADMIN
  | Erp.FINANCE_MANAGER, Erp.FINANCE_MANAGER
  | Erp.HR_MANAGER, Erp.HR_MANAGER
  | Erp.OPERATIONS_MANAGER, Erp.OPERATIONS_MANAGER => true
  | _, _ => false
  end.

(** [d >= now - timedelta(days=n)] *)
Definition since_days (now : Datetime.datetime) (n : Z)
  (d : Datetime.datetime) : bool :=
  Datetime.to_microseconds now - n * Datetime.us_per_day
  <=? Datetime.to_microseconds d.

(** [get_financial_forecast]; [now] is the clock read by the query. *)
Definition get_financial_forecast (now : Datetime.datetime)
  (current_user : Erp.User) (db : Erp.Session)
  : result AIService.FinancialForecast :=
  if negb (existsb (role_eqb (Erp.role current_user))
                   [Erp.ADMIN; Erp.FINANCE_MANAGER])
  then Raise (HTTPException 403
                "Not authorized to access financial forecasts")
  else
    let transactions :=
      List.filter (fun t => since_days now 365 (Erp.date t))
                  (Erp.transactions db) in
    AIService.analyze_financial_data transactions.

(** [app/models/erp.py], class [Notification] *)
Record Notification : Type := mk_Notification {
  notification_id : Z;
  notification_type : string;
  notification_message : string;
  notification_priority : string;
  notification_status : string;
  notification_created_at : Datetime.datetime
}.

(** [schemas/erp.py], class [DashboardStats] *)
Record DashboardStats : Type := mk_DashboardStats {
  total_revenue : Q;
  total_expenses : Q;
  net_profit : Q;
  employee_count : nat;
  pending_invoices : nat;
  notifications : list Notification
}.

(** [sum(t.amount for t in transactions if t.type == kind)] *)
Definition sum_of_type (kind : Erp.TransactionType)
  (transactions : list Erp.Transaction) : Q :=
  fold_left Qplus
            (map Erp.amount
                 (List.filter (fun t => Erp.type_eqb (Erp.type t) kind)
                              transactions))
            0%Q.

(** [get_dashboard_stats]; [end_date] is the first reading of the clock,
    [now] the one made by the query for the pending invoices, and
    [notification_table] the notifications stored. *)
Definition get_dashboard_stats (end_date now : Datetime.datetime)
  (current_user : Erp.User) (db : Erp.Session)
  (notification_table : list Notification) : DashboardStats :=
  let between (d : Datetime.datetime) : bool :=
    since_days end_date 30 d
    && (Datetime.to_microseconds d <=? Datetime.to_microseconds end_date) in
  let transactions :=
    match Erp.role current_user with
    | Erp.ADMIN =>
        List.filter (fun t => between (Erp.date t)) (Erp.transactions db)
    | Erp.FINANCE_MANAGER =>
        List.filter
          (fun t => between (Erp.date t)
                    && (Erp.type_eqb (Erp.type t) Erp.INCOME
                        || Erp.type_eqb (Erp.type t) Erp.EXPENSE))
          (Erp.transactions db)
    | _ => []
    end in
  let total_revenue := sum_of_type Erp.INCOME transactions in
  let total_expenses := sum_of_type Erp.EXPENSE transactions in
  let net_profit := (total_revenue - total_expenses)%Q in
  let employee_count :=
    length (List.filter Erp.employee_is_active (Erp.employees db)) in
  let pending_invoices :=
    length
      (List.filter
         (fun inv => String.eqb (Erp.status inv) "pending"
                     && (Datetime.to_microseconds now
                         <=? Datetime.to_microseconds (Erp.due_date inv)))
         (Erp.invoices db)) in
  let notifications :=
    List.filter (fun n => since_days end_date 30 (notification_created_at n))
                notification_table in
  mk_DashboardStats total_revenue total_expenses net_profit employee_count
                    pending_invoices notifications.

End ErpDashboard.

(** ** Creating and deleting rows ([crm/router.py], [erp/router.py]) *)

Module StoreWrites.

Import Py Store.

(** An optional field of a creation model. *)
Definition optional {A : Type} (conv : A -> value) (x : option A) : value :=
  match x with
  | None => VNone
  | Some v => conv v
  end.

(** A column declared with [default=v]: the insert writes [v] when the
    attribute is unset or [None]. *)
Definition column_default (o : gmap string value) (fv : string * value)
  : gmap string value :=
  match getattr o (fst fv) with
  | VNone => setattr o (fst fv) (snd fv)
  | _ => o
  end.

(** [db.add(o); db.commit(); db.refresh(o)] for a new object.  The insert
    takes the primary key [new_id] from the sequence of the table, which
    hands out a key that no row of the table has, then applies the column
    defaults; [created_at] and [updated_at] are the two readings of the
    clock made for the columns of these names. *)
Definition add_commit_refresh (new_id : Z)
  (created_at updated_at : Datetime.datetime)
  (defaults : list (string * value)) (o : gmap string value)
  : gmap string value :=
  fold_left column_default
            ([("id", VInt new_id)] ++ defaults
             ++ [("created_at", VDateTime created_at);
                 ("updated_at", VDateTime updated_at)])
            o.

(** [crm/router.py], class [LeadCreate] *)
Record LeadCreate : Type := mk_LeadCreate {
  lc_email : string;
  lc_name : string;
  lc_company : string;
  lc_phone : option string;
  lc_source : option string
}.

(** [lead.dict()] *)
Definition LeadCreate_dict (lead : LeadCreate) : list (string * value) :=
  [("email", VStr (lc_email lead)); ("name", VStr (lc_name lead));
   ("company", VStr (lc_company lead));
   ("phone", optional VStr (lc_phone lead));
   ("source", optional VStr (lc_source lead))].

(** [crm/router.py], class [CustomerCreate] *)
Record CustomerCreate : Type := mk_CustomerCreate {
  cc_lead_id : Z;
  cc_company_name : string;
  cc_industry : string;
  cc_annual_revenue : Q;
  cc_customer_since : Datetime.datetime;
  cc_status : string
}.

(** [customer.dict()] *)
Definition CustomerCreate_dict (customer : CustomerCreate)
  : list (string * value) :=
  [("lead_id", VInt (cc_lead_id customer));
   ("company_name", VStr (cc_company_name customer));
   ("industry", VStr (cc_industry customer));
   ("annual_revenue", VFloat (cc_annual_revenue customer));
   ("customer_since", VDateTime (cc_customer_since customer));
   ("status", VStr (cc_status customer))].

(** [erp/router.py], class [TaskCreate] *)
Record TaskCreate : Type := mk_TaskCreate {
  tc_title : string;
  tc_description : string;
  tc_priority : string;
  tc_due_date : option Datetime.datetime
}.

(** The constructor of a mapped class, called with keyword arguments. *)
Definition construct (kwargs : list (string * value)) : gmap string value :=
  setattr_items ∅ kwargs.

(** The column defaults of [database/models.py]. *)
Definition Lead_defaults : list (string * value) :=
  [("status", VStr "new"); ("score", VFloat 0)].

Definition Customer_defaults : list (string * value) := [].

Definition Task_defaults : list (string * value) :=
  [("status", VStr "pending"); ("priority", VStr "medium")].

(** [crm/router.py], [create_lead] *)
Definition create_lead
  (generate_lead_score : list (string * value) -> result Q)
  (new_id : Z) (created_at updated_at : Datetime.datetime)
  (lead : LeadCreate) (current_user : Auth.User) (db : Session)
  : result (Session * gmap string value) :=
  if negb (Auth.check_permissions current_user "sales")
  then Raise (HTTPException 403 "Not enough permissions")
  else
    let lead_data := LeadCreate_dict lead in
    let* lead_score := generate_lead_score lead_data in
    let db_lead :=
      construct [("email", VStr (lc_email lead));
                 ("name", VStr (lc_name lead));
                 ("company", VStr (lc_company lead));
                 ("phone", optional VStr (lc_phone lead));
                 ("source", optional VStr (lc_source lead));
                 ("score", VFloat lead_score)] in
    let row :=
      add_commit_refresh new_id created_at updated_at Lead_defaults db_lead in
    Ok (mk_Session (leads db ++ [row]) (customers db) (tasks db)
                   (support_tickets db) (workflows db),
        row).

(** [crm/router.py], [create_customer] *)
Definition create_customer
  (new_id : Z) (created_at updated_at : Datetime.datetime)
  (customer : CustomerCreate) (current_user : Auth.User) (db : Session)
  : result (Session * gmap string value) :=
  if negb (Auth.check_permissions current_user "sales")
  then Raise (HTTPException 403 "Not enough permissions")
  else
    match query_filter_id_first (leads db) (cc_lead_id customer) with
    | None => Raise (HTTPException 404 "Lead not found")
    | Some lead =>
        let db_customer := construct (CustomerCreate_dict customer) in
        let row :=
          add_commit_refresh new_id created_at updated_at Customer_defaults
                             db_customer in
        Ok (mk_Session (leads db) (customers db ++ [row]) (tasks db)
                       (support_tickets db) (workflows db),
            row)
    end.

(** [erp/router.py], [create_task] *)
Definition create_task
  (new_id : Z) (created_at updated_at : Datetime.datetime)
  (task : TaskCreate) (current_user : Auth.User) (db : Session)
  : result (Session * gmap string value) :=
  if negb (Auth.check_permissions current_user "manager")
  then Raise (HTTPException 403 "Not enough permissions")
  else
    let db_task :=
      construct [("title", VStr (tc_title task));
                 ("description", VStr (tc_description task));
                 ("priority", VStr (tc_priority task));
                 ("due_date", optional VDateTime (tc_due_date task));
                 ("assigned_to", VInt (Auth.id current_user))] in
    let row :=
      add_commit_refresh new_id created_at updated_at Task_defaults db_task in
    Ok (mk_Session (leads db) (customers db) (tasks db ++ [row])
                   (support_tickets db) (workflows db),
        row).

(** [erp/router.py], [delete_task].  The commit emits
    [DELETE FROM tasks WHERE tasks.id = task_id]. *)
Definition delete_task (task_id : Z) (current_user : Auth.User)
  (db : Session) : result (Session * gmap string value) :=
  if negb (Auth.check_permissions current_user "manager")
  then Raise (HTTPException 403 "Not enough permissions")
  else
    match query_filter_id_first (tasks db) task_id with
    | None => Raise (HTTPException 404 "Task not found")
    | Some db_task =>
        Ok (mk_Session (leads db) (customers db)
                       (List.filter
                          (fun r => negb (has_key "id" (VInt task_id) r))
                          (tasks db))
                       (support_tickets db) (workflows db),
            {["message" := VStr "Task deleted successfully"]})
    end.

(** The creations served by [POST /{kind}/]. *)
Inductive post_request : Type :=
| PostLead (lead : LeadCreate)
| PostCustomer (customer : CustomerCreate)
| PostTask (task : TaskCreate).

(** Routing of a creation to its handler. *)
Definition handle_post
  (generate_lead_score : list (string * value) -> result Q)
  (new_id : Z) (created_at updated_at : Datetime.datetime)
  (rq : post_request) (current_user : Auth.User) (db : Session)
  : result (Session * gmap string value) :=
  match rq with
  | PostLead lead =>
      create_lead generate_lead_score new_id created_at updated_at lead
                  current_user db
  | PostCustomer customer =>
      create_customer new_id created_at updated_at customer current_user db
  | PostTask task =>
      create_task new_id created_at updated_at task current_user db
  end.

End StoreWrites.

(** ** Terms in which the creation handlers are specified *)

Module CreateTerms.

Import Store StoreWrites.

(** The role a creation requires. *)
Definition post_role (rq : post_request) : string :=
  match rq with
  | PostLead _ | PostCustomer _ => "sales"
  | PostTask _ => "manager"
  end.

(** The table a creation inserts into. *)
Definition post_table (rq : post_request) (db : Session)
  : list (gmap string value) :=
  match rq with
  | PostLead _ => leads db
  | PostCustomer _ => customers db
  | PostTask _ => tasks db
  end.

(** The get request that reads the row a creation stored under [k]. *)
Definition post_get (rq : post_request) (k : Z) : get_request :=
  match rq with
  | PostLead _ => GetLead k
  | PostCustomer _ => GetCustomer k
  | PostTask _ => GetTask k
  end.

(** The values the payload of a creation gives to the columns. *)
Definition post_items (rq : post_request) : list (string * value) :=
  match rq with
  | PostLead lead => LeadCreate_dict lead
  | PostCustomer customer => CustomerCreate_dict customer
  | PostTask task =>
      [("title", VStr (tc_title task));
       ("description", VStr (tc_description task));
       ("priority", VStr (tc_priority task));
       ("due_date", optional VDateTime (tc_due_date task))]
  end.

(** The session after the insert of [row]. *)
Definition post_store (rq : post_request) (db : Session)
  (row : gmap string value) : Session :=
  match rq with
  | PostLead _ =>
      mk_Session (leads db ++ [row]) (customers db) (tasks db)
                 (support_tickets db) (workflows db)
  | PostCustomer _ =>
      mk_Session (leads db) (customers db ++ [row]) (tasks db)
                 (support_tickets db) (workflows db)
  | PostTask _ =>
      mk_Session (leads db) (customers db) (tasks db ++ [row])
                 (support_tickets db) (workflows db)
  end.

(** What a permitted creation needs: an answer of the scoring service for
    a lead, the lead it names for a customer, nothing for a task. *)
Definition post_ready
  (generate_lead_score : list (string * value) -> Py.result Q)
  (rq : post_request) (db : Session) : bool :=
  match rq with
  | PostLead lead => Py.is_ok (generate_lead_score (LeadCreate_dict lead))
  | PostCustomer customer =>
      match query_filter_id_first (leads db) (cc_lead_id customer) with
      | Some _ => true
      | None => false
      end
  | PostTask _ => true
  end.

(** The columns a creation fills by itself. *)
Definition post_fixed
  (generate_lead_score : list (string * value) -> Py.result Q)
  (rq : post_request) (current_user : Auth.User) (row : gmap string value)
  : Prop :=
  match rq with
  | PostLead lead =>
      getattr row "status" = VStr "new"
      /\ exists score : Q,
           generate_lead_score (LeadCreate_dict lead) = Py.Ok score
           /\ getattr row "score" = VFloat score
  | PostCustomer _ => True
  | PostTask _ =>
      getattr row "status" = VStr "pending"
      /\ getattr row "assigned_to" = VInt (Auth.id current_user)
  end.

(** No row of the table has the key [k]. *)
Definition fresh (k : Z) (table : list (gmap string value)) : Prop :=
  List.filter (has_key "id" (VInt k)) table = [].

End CreateTerms.

(** ** Sample creations *)

Module WriteSamples.

Import Store StoreWrites Samples.

Definition sample_task_create : TaskCreate :=
  mk_TaskCreate "Inventory" "Count the stock" "high" None.

Definition sample_task_created : gmap string value :=
  <["id" := VInt 5]> (<["title" := VStr "Inventory"]>
  (<["description" := VStr "Count the stock"]>
  (<["status" := VStr "pending"]> (<["priority" := VStr "high"]>
  (<["assigned_to" := VInt 8]> (<["due_date" := VNone]>
  (<["created_at" := VDateTime sample_now]>
  (<["updated_at" := VDateTime sample_now]> ∅)))))))).

(** A customer for the lead 1 and one for a lead that does not exist. *)
Definition sample_customer_create : CustomerCreate :=
  mk_CustomerCreate 1 "Initech" "software" 5000 new_year "active".

Definition orphan_customer_create : CustomerCreate :=
  mk_CustomerCreate 2 "Initrode" "software" 5000 new_year "active".

End WriteSamples.

(** ** The session gate ([services/auth_service.py]) *)

Module AuthGate.

Import Py Store.

(** The exception [get_current_user] builds before it reads the token. *)
Definition credentials_exception : exception :=
  HTTPException 401 "Could not validate credentials".

(** [db.query(User).filter(User.email == email).first()] *)
Definition query_filter_email_first (users : list Auth.User) (email : value)
  : option Auth.User :=
  head (List.filter (fun u => value_eqb (VStr (Auth.email u)) email) users).

(** [AuthService.get_current_user].  [jwt_decode] is the decoding of a
    token with the key and the algorithm of the service: the claims of a
    token it accepts, [None] where it raises [JWTError]. *)
Definition get_current_user
  (jwt_decode : string -> option (gmap string value))
  (token : string) (users : list Auth.User) : result Auth.User :=
  match jwt_decode token with
  | None => Raise credentials_exception
  | Some payload =>
      match getattr payload "sub" with
      | VNone => Raise credentials_exception
      | email =>
          match query_filter_email_first users email with
          | None => Raise credentials_exception
          | Some user => Ok user
          end
      end
  end.

(** [AuthService.get_current_active_user], given the user its dependency
    resolved to. *)
Definition get_current_active_user (current_user : Auth.User)
  : result Auth.User :=
  if negb (Auth.is_active current_user)
  then Raise (HTTPException 400 "Inactive user")
  else Ok current_user.

(** The dependency [Depends(get_current_active_user)] of a handler: the
    token is resolved to a user, the user is checked. *)
Definition current_active_user
  (jwt_decode : string -> option (gmap string value))
  (token : string) (users : list Auth.User) : result Auth.User :=
  let* current_user := get_current_user jwt_decode token users in
  get_current_active_user current_user.

(** [user.is_active = b] *)
Definition set_is_active (user : Auth.User) (b : bool) : Auth.User :=
  Auth.mk_User (Auth.id user) (Auth.email user) b (Auth.is_superuser user)
               (Auth.role user).

(** [db.commit()] after the assignment: the column [is_active] of the row
    with the primary key of [user] is written. *)
Definition commit_is_active (users : list Auth.User) (user : Auth.User)
  : list Auth.User :=
  map (fun u => if Auth.id u =? Auth.id user
                then set_is_active u (Auth.is_active user)
                else u)
      users.

(** [AuthService.deactivate_user], for a [user] loaded from the table:
    the table after the commit and the user returned. *)
Definition deactivate_user (user : Auth.User) (users : list Auth.User)
  : list Auth.User * Auth.User :=
  let user := set_is_active user false in
  (commit_is_active users user, user).

(** [AuthService.activate_user] *)
Definition activate_user (user : Auth.User) (users : list Auth.User)
  : list Auth.User * Auth.User :=
  let user := set_is_active user true in
  (commit_is_active users user, user).

End AuthGate.

(** ** Sample accounts *)

Module AuthSamples.

Import Store Samples.

(** A decoder that accepts two tokens: one for [ana@example.com], one
    without a subject. *)
Definition sample_decode (token : string) : option (gmap string value) :=
  if String.eqb token "token-ana"
  then Some {["sub" := VStr "ana@example.com"]}
  else if String.eqb token "token-anonymous"
       then Some ∅
       else None.

Definition sample_users : list Auth.User := [sample_user; sample_manager].

End AuthSamples.

(** ** The workload endpoint ([erp/router.py]) *)

Module Workload.

Import Py Store.

(** The dictionary [workload_data] sent to the text-generation service:
    [tasks_by_priority] and [tasks_by_status] are its two inner
    dictionaries. *)
Record tasks_by_priority : Type := mk_tasks_by_priority {
  high : nat; medium : nat; low : nat
}.

Record tasks_by_status : Type := mk_tasks_by_status {
  pending : nat; in_progress : nat; completed : nat
}.

Record workload_data : Type := mk_workload_data {
  user_id : Z;
  total_tasks : nat;
  by_priority : tasks_by_priority;
  by_status : tasks_by_status
}.

(** [len([t for t in user_tasks if t.field == v])] *)
Definition count_where (field v : string)
  (user_tasks : list (gmap string value)) : nat :=
  length (List.filter (fun t => value_eqb (getattr t field) (VStr v))
                      user_tasks).

(** The data [get_workload_optimization] collects for the caller. *)
Definition collect_workload (current_user : Auth.User) (db : Session)
  : workload_data :=
  let user_tasks :=
    List.filter (has_key "assigned_to" (VInt (Auth.id current_user)))
                (tasks db) in
  mk_workload_data
    (Auth.id current_user)
    (length user_tasks)
    (mk_tasks_by_priority (count_where "priority" "high" user_tasks)
                          (count_where "priority" "medium" user_tasks)
                          (count_where "priority" "low" user_tasks))
    (mk_tasks_by_status (count_where "status" "pending" user_tasks)
                        (count_where "status" "in_progress" user_tasks)
                        (count_where "status" "completed" user_tasks)).

(** [erp/router.py], [get_workload_optimization];
    [generate_workflow_actions] is the call to the text-generation
    service. *)
Definition get_workload_optimization {A : Type}
  (generate_workflow_actions : workload_data -> result A)
  (current_user : Auth.User) (db : Session) : result A :=
  if negb (Auth.check_permissions current_user "manager")
  then Raise (HTTPException 403 "Not enough permissions")
  else generate_workflow_actions (collect_workload current_user db).

End Workload.

(** ** Terms of the statements about the workload *)

Module WorkloadTerms.

Import Store.

(** The task is assigned to the user. *)
Definition owned (current_user : Auth.User) (t : gmap string value) : bool :=
  has_key "assigned_to" (VInt (Auth.id current_user)) t.

(** The task is assigned to the user and its [field] is the string [v]. *)
Definition owned_with (current_user : Auth.User) (field v : string)
  (t : gmap string value) : bool :=
  owned current_user t && value_eqb (getattr t field) (VStr v).

(** The number of tasks of a table that satisfy [p]. *)
Fixpoint count_tasks (p : gmap string value -> bool)
  (table : list (gmap string value)) : nat :=
  match table with
  | [] => 0%nat
  | t :: rest => if p t then S (count_tasks p rest) else count_tasks p rest
  end.

(** A task of user 8 that is done, and a task of user 7. *)
Definition done_task : gmap string value :=
  <["id" := VInt 6]> (<["title" := VStr "Payroll"]>
  (<["status" := VStr "completed"]> (<["priority" := VStr "low"]>
  (<["assigned_to" := VInt 8]> ∅)))).

Definition foreign_task : gmap string value :=
  <["id" := VInt 7]> (<["title" := VStr "Calls"]>
  (<["status" := VStr "pending"]> (<["priority" := VStr "high"]>
  (<["assigned_to" := VInt 7]> ∅)))).

(** Two tasks of user 8 among four. *)
Definition busy_db : Session :=
  mk_Session [] []
             [WriteSamples.sample_task_created; Samples.sample_task;
              foreign_task; done_task]
             [] [].

(** The two tasks of user 8 alone. *)
Definition own_db : Session :=
  mk_Session [] [] [WriteSamples.sample_task_created; done_task] [] [].

End WorkloadTerms.

(** ** The analytics in binary64

    The modules above evaluate the analytics over the reals and the
    rationals: they give the laws the formulas obey when no operation
    rounds, and the outcomes that rest on NaN, on the infinities and on the
    order of the steps. The modules below evaluate the same functions in
    binary64, as the interpreter does: they give the values the program
    returns and the outcome of its comparisons. *)

(** ** The numpy and pandas operations, in binary64 *)

Module PandasBinary64.

Import Py Binary64.

Definition add_lanes (r block : list binary64) : list binary64 :=
  map (fun p => add (fst p) (snd p)) (combine r block).

(** The unrolled loop of numpy's pairwise summation: every full block of
    eight values is added to the eight accumulators [r]; the values left,
    fewer than eight, are returned with them. *)
Fixpoint add_blocks (fuel : nat) (r a : list binary64)
  : list binary64 * list binary64 :=
  match fuel with
  | O => (r, a)
  | S fuel =>
      if (8 <=? length a)%nat
      then add_blocks fuel (add_lanes r (firstn 8 a)) (skipn 8 a)
      else (r, a)
  end.

Definition unrolled_sum (a : list binary64) : binary64 :=
  let '(r, rest) := add_blocks (length a) (firstn 8 a) (skipn 8 a) in
  match r with
  | [r0; r1; r2; r3; r4; r5; r6; r7] =>
      fold_left add rest
                (add (add (add r0 r1) (add r2 r3))
                     (add (add r4 r5) (add r6 r7)))
  | _ => NaN
  end.

(** numpy's [pairwise_sum] over a contiguous array: fewer than 8 values are
    added from left to right, up to 128 values go through the unrolled loop,
    and a longer array is split in two. *)
Fixpoint pairwise_sum (fuel : nat) (a : list binary64) : binary64 :=
  let n := length a in
  if (n <? 8)%nat then fold_left add a zero
  else if (n <=? 128)%nat then unrolled_sum a
  else
    match fuel with
    | O => unrolled_sum a
    | S fuel =>
        let n2 := (n / 2 - (n / 2) mod 8)%nat in
        add (pairwise_sum fuel (firstn n2 a))
            (pairwise_sum fuel (skipn n2 a))
    end.

(** [ndarray.sum()]: the reduction starts from the identity of the
    addition. *)
Definition sum (a : list binary64) : binary64 :=
  add zero (pairwise_sum (length a) a).

(** The number of values [skipna=True] keeps. *)
Definition count (s : list binary64) : nat :=
  length (List.filter (fun x => negb (isnan x)) s).

(** The values with 0 in the place of NaN, as [nanops] sums them. *)
Definition fillna0 (s : list binary64) : list binary64 :=
  map (fun x => if isnan x then zero else x) s.

(** [Series.mean()] ([nanops.nanmean]) *)
Definition mean (s : list binary64) : binary64 :=
  if (count s =? 0)%nat then NaN
  else div (sum (fillna0 s)) (of_Z (Z.of_nat (count s))).

(** [Series.var()], [ddof=1] ([nanops.nanvar]) *)
Definition var (s : list binary64) : binary64 :=
  if (count s <=? 1)%nat then NaN
  else
    let avg := div (sum (fillna0 s)) (of_Z (Z.of_nat (count s))) in
    let sqr :=
      map (fun x => if isnan x then zero
                    else mul (sub avg x) (sub avg x)) s in
    div (sum sqr) (of_Z (Z.of_nat (count s) - 1)).

(** [Series.std()], [ddof=1] *)
Definition std (s : list binary64) : binary64 := sqrt (var s).

Fixpoint ffill_from (previous : binary64) (s : list binary64)
  : list binary64 :=
  match s with
  | [] => []
  | x :: rest =>
      let v := if isnan x then previous else x in
      v :: ffill_from v rest
  end.

(** [Series.ffill()] *)
Definition ffill (s : list binary64) : list binary64 := ffill_from NaN s.

Fixpoint pct_change_from (previous : binary64) (s : list binary64)
  : list binary64 :=
  match s with
  | [] => []
  | x :: rest => sub (div x previous) one :: pct_change_from x rest
  end.

(** [Series.pct_change()] with its default [fill_method='pad']:
    [data / data.shift(1) - 1] over the forward-filled values, NaN in the
    first position. *)
Definition pct_change (s : list binary64) : list binary64 :=
  match ffill s with
  | [] => []
  | x :: rest => NaN :: pct_change_from x rest
  end.

(** [Series.rolling(window).std()]: NaN until the window holds [window]
    values that are not NaN, then the sample standard deviation of the
    window. pandas updates this deviation from one window to the next; the
    rounding of that update is not modelled, the deviation of each window is
    computed as [std] computes it. *)
Definition rolling_std (window : nat) (s : list binary64) : list binary64 :=
  map (fun i =>
         if (S i <? window)%nat then NaN
         else
           let values := firstn window (skipn (S i - window) s) in
           if existsb isnan values then NaN else std values)
      (seq 0 (length s)).

(** One step of the compensated sum of [group_sum]: NaN is skipped. *)
Definition kahan_add (acc : binary64 * binary64) (val : binary64)
  : binary64 * binary64 :=
  if isnan val then acc
  else
    let sumx := fst acc in
    let y := sub val (snd acc) in
    let t := add sumx y in
    let compensation := sub (sub t sumx) y in
    (t, if isnan compensation then zero else compensation).

Fixpoint groupby_insert (key : Z) (a : binary64)
  (groups : list (Z * (binary64 * binary64)))
  : list (Z * (binary64 * binary64)) :=
  match groups with
  | [] => [(key, kahan_add (zero, zero) a)]
  | (k, acc) :: rest =>
      if (key <? k)%Z then (key, kahan_add (zero, zero) a) :: groups
      else if (key =? k)%Z then (k, kahan_add acc a) :: rest
      else (k, acc) :: groupby_insert key a rest
  end.

(** [df.groupby(key).agg({'amount': 'sum'}).reset_index()]: one row per
    key, keys ascending, each total a compensated sum in the order of the
    rows. *)
Definition groupby_sum (rows : list (Z * binary64)) : list (Z * binary64) :=
  map (fun g => (fst g, fst (snd g)))
      (fold_left (fun groups r => groupby_insert (fst r) (snd r) groups)
                 rows []).

End PandasBinary64.

(** ** Deterministic analytics ([app/services/ai_service.py]), in binary64 *)

Module ErpBinary64.

(** [models/erp.py], class [Transaction]: the [Float] column [amount] holds
    a binary64. *)
Record Transaction : Type := mk_Transaction {
  transaction_id : Z;
  amount : Binary64.binary64;
  type : Erp.TransactionType;
  category : Erp.TransactionCategory;
  date : Datetime.datetime
}.

End ErpBinary64.

Module AIServiceBinary64.

Import Py Binary64 PandasBinary64.

(** *** Forecast *)

(** A row of the frame built by [analyze_financial_data]. *)
Record df_row : Type := mk_df_row {
  df_date : Datetime.datetime;
  df_amount : binary64;
  df_type : Erp.TransactionType;
  df_category : Erp.TransactionCategory
}.

(** A row of [monthly_data] once the [growth_rate] column is assigned. *)
Record monthly_row : Type := mk_monthly_row {
  period : Z;
  amount : binary64;
  growth_rate : binary64
}.

(** [schemas/erp.py], class [FinancialForecast], and the dictionary
    [_generate_forecast] returns. *)
Record FinancialForecast : Type := mk_FinancialForecast {
  predicted_revenue : binary64;
  predicted_expenses : binary64;
  confidence_score : binary64;
  factors : list string
}.

(** [monthly_data] of [_generate_forecast]: the monthly totals with their
    growth rates. *)
Definition monthly_frame (df : list df_row) : list monthly_row :=
  let monthly_data :=
    groupby_sum
      (map (fun r => (Datetime.to_period_M (df_date r), df_amount r)) df) in
  map (fun pr => mk_monthly_row (fst (fst pr)) (snd (fst pr)) (snd pr))
      (combine monthly_data (pct_change (map snd monthly_data))).

(** [AIService._identify_forecast_factors] *)
Definition _identify_forecast_factors (monthly_data : list monthly_row)
  : result (list string) :=
  let factors : list string := [] in
  let trend := mean (pct_change (map amount monthly_data)) in
  let factors : list string :=
    if gtb trend (of_Q 0.1)
    then (factors ++ ["Strong upward trend in revenue"])%list
    else if ltb trend (of_Q (-0.1))
         then (factors ++ ["Declining revenue trend"])%list
         else factors in
  let* factors :=
    (if (12 <=? length monthly_data)%nat
     then
       let seasonal_pattern := rolling_std 12 (map amount monthly_data) in
       let* last_std := Pandas.iloc_last seasonal_pattern in
       if gtb last_std (mul (mean (map amount monthly_data)) (of_Q 0.2))
       then Ok (factors ++ ["Significant seasonal variations"])%list
       else Ok factors
     else Ok factors) in
  let volatility := std (pct_change (map amount monthly_data)) in
  if gtb volatility (of_Q 0.2)
  then Ok (factors ++ ["High revenue volatility"])%list
  else Ok factors.

(** [AIService._generate_forecast].  A frame built from no record has no
    column, and selecting ['date'] raises. *)
Definition _generate_forecast (df : list df_row) : result FinancialForecast :=
  match df with
  | [] => Raise (KeyError "date")
  | _ =>
      let monthly_data := monthly_frame df in
      let* last_month := Pandas.iloc_last monthly_data in
      let forecast_revenue :=
        mul (amount last_month) (add one (growth_rate last_month)) in
      let forecast_expenses := mul (amount last_month) (of_Q 0.8) in
      let volatility := std (map growth_rate monthly_data) in
      let confidence := max0 (sub one volatility) in
      let* factors := _identify_forecast_factors monthly_data in
      Ok (mk_FinancialForecast forecast_revenue forecast_expenses confidence
                               factors)
  end.

(** [AIService.analyze_financial_data]: a frame built from no record has
    no column, and selecting ['type'] raises. The two totals the method
    computes before the forecast are not used. *)
Definition analyze_financial_data
  (transactions : list ErpBinary64.Transaction) : result FinancialForecast :=
  let df :=
    map (fun t => mk_df_row (ErpBinary64.date t) (ErpBinary64.amount t)
                            (ErpBinary64.type t) (ErpBinary64.category t))
        transactions in
  match df with
  | [] => Raise (KeyError "type")
  | _ => _generate_forecast df
  end.

(** *** Expenses *)

(** [d.get(k, default)] on an insertion-ordered dict *)
Definition dict_get (d : list (Erp.TransactionCategory * binary64))
  (k : Erp.TransactionCategory) (default : binary64) : binary64 :=
  match List.find (fun kv => Erp.category_eqb (fst kv) k) d with
  | Some kv => snd kv
  | None => default
  end.

(** [d[k] = v]: an existing key keeps its position, a new key goes last. *)
Fixpoint dict_set (d : list (Erp.TransactionCategory * binary64))
  (k : Erp.TransactionCategory) (v : binary64)
  : list (Erp.TransactionCategory * binary64) :=
  match d with
  | [] => [(k, v)]
  | (k', v') :: rest =>
      if Erp.category_eqb k' k then (k', v) :: rest
      else (k', v') :: dict_set rest k v
  end.

Definition expense_recommendation (category : Erp.TransactionCategory)
  (percentage : binary64) : AIService.AIRecommendation :=
  AIService.mk_AIRecommendation
    "expense_optimization"
    [AIService.Text "High spending in "; AIService.Field_category category;
     AIService.Text " category (";
     AIService.Field_percent1_binary64 percentage;
     AIService.Text " of total expenses)"]
    "medium"
    "high"
    [[AIService.Text "Review "; AIService.Field_category category;
      AIService.Text " expenses for potential cost reduction"];
     [AIService.Text "Consider negotiating better rates with vendors"];
     [AIService.Text "Implement budget controls for this category"]].

(** The first loop of [_analyze_expenses]; the default [0] of [get] is an
    integer, converted for the addition. *)
Definition category_totals (expenses : list ErpBinary64.Transaction)
  : list (Erp.TransactionCategory * binary64) :=
  fold_left
    (fun totals expense =>
       dict_set totals (ErpBinary64.category expense)
                (add (dict_get totals (ErpBinary64.category expense) zero)
                     (ErpBinary64.amount expense)))
    expenses [].

(** The second loop of [_analyze_expenses]; a float division by zero
    raises. *)
Fixpoint high_spending (total_expenses : binary64)
  (items : list (Erp.TransactionCategory * binary64))
  (recommendations : list AIService.AIRecommendation)
  : result (list AIService.AIRecommendation) :=
  match items with
  | [] => Ok recommendations
  | (category, amount) :: rest =>
      if eqb total_expenses zero then Raise ZeroDivisionError
      else
        let percentage := div amount total_expenses in
        high_spending total_expenses rest
          (if gtb percentage (of_Q 0.3)
           then (recommendations
                 ++ [expense_recommendation category percentage])%list
           else recommendations)
  end.

(** The built-in [sum] over floats, from the integer 0 and from left to
    right, as CPython does up to 3.11. Later versions compensate the
    rounding errors of the additions, so [_analyze_expenses] takes the
    function as an argument. *)
Definition sum_from_left (values : list binary64) : binary64 :=
  fold_left add values zero.

(** [AIService._analyze_expenses], given the built-in [sum] *)
Definition _analyze_expenses (builtin_sum : list binary64 -> binary64)
  (transactions : list ErpBinary64.Transaction)
  : result (list AIService.AIRecommendation) :=
  let recommendations : list AIService.AIRecommendation := [] in
  let expenses :=
    List.filter (fun t => Erp.type_eqb (ErpBinary64.type t) Erp.EXPENSE)
                transactions in
  let totals := category_totals expenses in
  let total_expenses := builtin_sum (map snd totals) in
  high_spending total_expenses totals recommendations.

End AIServiceBinary64.

(** ** Terms in which the forecast is specified, in binary64 *)

Module ForecastTermsBinary64.

Import Binary64 PandasBinary64 AIServiceBinary64.

(** The monthly series of a frame: the totals per calendar month, in
    chronological order. *)
Definition monthly_amounts (df : list df_row) : list binary64 :=
  map snd
      (groupby_sum
         (map (fun r => (Datetime.to_period_M (df_date r), df_amount r)) df)).

(** The per-period growth rates of a frame, NaN for the first period. *)
Definition growth_rates (df : list df_row) : list binary64 :=
  pct_change (monthly_amounts df).

(** The last [window] values of a series. *)
Definition last_window (window : nat) (s : list binary64) : list binary64 :=
  skipn (length s - window) s.

(** The deviation of the last [window] values, NaN if one of them is. *)
Definition last_window_std (window : nat) (s : list binary64) : binary64 :=
  if existsb isnan (last_window window s) then NaN
  else std (last_window window s).

Definition seasonal_variation (amounts : list binary64) : bool :=
  (12 <=? length amounts)%nat
  && gtb (last_window_std 12 amounts) (mul (mean amounts) (of_Q 0.2)).

(** The factor list the specification describes: trend, then seasonality,
    then volatility, each present only when its condition holds. *)
Definition expected_factors (amounts : list binary64) : list string :=
  ((if gtb (mean (pct_change amounts)) (of_Q 0.1)
    then ["Strong upward trend in revenue"]
    else if ltb (mean (pct_change amounts)) (of_Q (-0.1))
         then ["Declining revenue trend"]
         else [])
   ++ (if seasonal_variation amounts
       then ["Significant seasonal variations"] else [])
   ++ (if gtb (std (pct_change amounts)) (of_Q 0.2)
       then ["High revenue volatility"] else []))%list.

(** Every amount of a frame multiplied by [c]. *)
Definition scale_frame (c : binary64) (df : list df_row) : list df_row :=
  map (fun r => mk_df_row (df_date r) (mul c (df_amount r)) (df_type r)
                          (df_category r)) df.

End ForecastTermsBinary64.

(** ** Terms in which the expense recommendation is specified, in binary64 *)

Module ExpenseTermsBinary64.

Import Binary64.

(** The expense transactions, in the order given. *)
Definition expenses_of (transactions : list ErpBinary64.Transaction)
  : list ErpBinary64.Transaction :=
  List.filter (fun t => Erp.type_eqb (ErpBinary64.type t) Erp.EXPENSE)
              transactions.

(** The total of the expenses of one category: their amounts added to 0
    one after the other, in the order given. *)
Definition category_expense (c : Erp.TransactionCategory)
  (transactions : list ErpBinary64.Transaction) : binary64 :=
  fold_left add
            (map ErpBinary64.amount
                 (List.filter
                    (fun t => Erp.category_eqb (ErpBinary64.category t) c)
                    (expenses_of transactions)))
            zero.

(** The categories of the expenses, each at its first occurrence. *)
Definition expense_categories (transactions : list ErpBinary64.Transaction)
  : list Erp.TransactionCategory :=
  ExpenseTerms.first_occurrences
    (map ErpBinary64.category (expenses_of transactions)).

(** The total of all expenses: the built-in [sum] of the totals of the
    categories, taken in order of first occurrence. *)
Definition total_expense (builtin_sum : list binary64 -> binary64)
  (transactions : list ErpBinary64.Transaction) : binary64 :=
  builtin_sum (map (fun c => category_expense c transactions)
                   (expense_categories transactions)).

(** The share of a category in the total of all expenses. *)
Definition expense_share (builtin_sum : list binary64 -> binary64)
  (transactions : list ErpBinary64.Transaction)
  (c : Erp.TransactionCategory) : binary64 :=
  div (category_expense c transactions)
      (total_expense builtin_sum transactions).

(** The categories whose share exceeds 0.3, in order of first occurrence
    among the expenses. *)
Definition high_spending_categories
  (builtin_sum : list binary64 -> binary64)
  (transactions : list ErpBinary64.Transaction)
  : list Erp.TransactionCategory :=
  List.filter
    (fun c => gtb (expense_share builtin_sum transactions c) (of_Q 0.3))
    (expense_categories transactions).

End ExpenseTermsBinary64.

(** ** Sample data, in binary64 *)

Module SamplesBinary64.

Import Binary64 AIServiceBinary64.

(** One record, hence a series of one month. *)
Definition one_month : list df_row :=
  [mk_df_row (Datetime.mk_datetime 2024 1 15 0 0 0 0) (of_Z 100)
             Erp.INCOME Erp.OTHER].

(** Three records over two months, with totals 100 and 110. *)
Definition two_months : list df_row :=
  [mk_df_row (Datetime.mk_datetime 2024 2 3 0 0 0 0) (of_Z 110)
             Erp.INCOME Erp.OTHER;
   mk_df_row (Datetime.mk_datetime 2024 1 15 0 0 0 0) (of_Z 60)
             Erp.INCOME Erp.OTHER;
   mk_df_row (Datetime.mk_datetime 2024 1 20 0 0 0 0) (of_Z 40)
             Erp.EXPENSE Erp.RENT].

(** 0.10000000000000009, the value of [110 / 100 - 1]:
    7205759403792800 / 2^56. *)
Definition growth_110_100 : binary64 :=
  SpecFloat.S754_finite false 7205759403792800 (-56).

(** 121.00000000000001, the float after 121.0: 121 + 2^-46. *)
Definition revenue_110_100 : binary64 :=
  SpecFloat.S754_finite false 8514618045497345 (-46).

(** 1210.0000000000002, the float after 1210.0: 1210 + 2^-42. *)
Definition after_1210 : binary64 :=
  SpecFloat.S754_finite false 5321636278435841 (-42).

(** Expenses of 3100 for rent, 6000 for salaries in two payments and 900
    for the rest, with one income that the analysis ignores. *)
Definition sample_transactions : list ErpBinary64.Transaction :=
  [ErpBinary64.mk_Transaction 1 (of_Z 3100) Erp.EXPENSE Erp.RENT
                              Samples.new_year;
   ErpBinary64.mk_Transaction 2 (of_Z 4000) Erp.EXPENSE Erp.SALARIES
                              Samples.new_year;
   ErpBinary64.mk_Transaction 3 (of_Z 20000) Erp.INCOME Erp.OTHER
                              Samples.new_year;
   ErpBinary64.mk_Transaction 4 (of_Z 900) Erp.EXPENSE Erp.OTHER
                              Samples.new_year;
   ErpBinary64.mk_Transaction 5 (of_Z 2000) Erp.EXPENSE Erp.SALARIES
                              Samples.sample_now].

(** One expense of amount zero. *)
Definition zero_expense : list ErpBinary64.Transaction :=
  [ErpBinary64.mk_Transaction 1 zero Erp.EXPENSE Erp.RENT
                              Samples.new_year].

End SamplesBinary64.

(** * Properties *)

(** ** Identity and permission check *)

Module AuthProps.

Import Auth.

(** C1. [check_permissions] answers true exactly when the role of the
    actor equals the required capability or the actor is a superuser; it is
    a function of the loaded actor alone, for every role and capability. *)
Theorem check_permissions_iff (user : User) (required_role : string) :
  check_permissions user required_role = true
  <-> role user = required_role \/ is_superuser user = true.
Proof.
  unfold check_permissions.
  rewrite orb_true_iff, String.eqb_eq.
  reflexivity.
Qed.

End AuthProps.

(** ** Entity store access *)

Module StoreProps.

Import Py Store Samples.

Lemma filter_head_none (p : gmap string value -> bool)
  (table : list (gmap string value)) :
  (forall o, In o table -> p o = false) ->
  head (List.filter p table) = None.
Proof.
  induction table as [|r rest IH]; intros Hnone; simpl.
  - reflexivity.
  - rewrite (Hnone r (or_introl eq_refl)).
    apply IH. intros o Ho. apply Hnone. right. exact Ho.
Qed.

Lemma filter_head_some (p : gmap string value -> bool)
  (table : list (gmap string value)) (o : gmap string value) :
  head (List.filter p table) = Some o -> In o table /\ p o = true.
Proof.
  induction table as [|r rest IH]; simpl; intros H.
  - discriminate.
  - destruct (p r) eqn:Hr; simpl in H.
    + injection H as <-. split; [left; reflexivity | exact Hr].
    + destruct (IH H) as [Hin Hp]. split; [right; exact Hin | exact Hp].
Qed.

Lemma query_unknown (table : list (gmap string value)) (k : Z) :
  (forall o, ~ (In o table /\ has_key "id" (VInt k) o = true)) ->
  query_filter_id_first table k = None.
Proof.
  intros Hnone. apply filter_head_none. intros o Ho.
  destruct (has_key "id" (VInt k) o) eqn:Hk; [|reflexivity].
  exfalso. apply (Hnone o). split; [exact Ho | exact Hk].
Qed.

Lemma find_one_unknown (collection : list (gmap string value)) (k : string) :
  (forall o, ~ (In o collection /\ has_key "_id" (VStr k) o = true)) ->
  find_one collection k = None.
Proof.
  intros Hnone. apply filter_head_none. intros o Ho.
  destruct (has_key "_id" (VStr k) o) eqn:Hk; [|reflexivity].
  exfalso. apply (Hnone o). split; [exact Ho | exact Hk].
Qed.

(** A found record is one the request resolves to. *)
Lemma handle_get_ok (rq : get_request) (current_user : Auth.User)
  (db : Session) (content_generation : list (gmap string value))
  (o : gmap string value) :
  handle_get rq current_user db content_generation = Ok o ->
  resolves rq db content_generation o.
Proof.
  destruct rq; simpl;
    unfold get_lead, get_customer, get_task, get_ticket, get_workflow,
           get_pipeline, get_proposal, get_content,
           query_filter_id_first, find_one;
    match goal with
    | |- context [head ?l] => destruct (head l) eqn:Hq
    end; intros H; try discriminate;
    injection H as <-; apply filter_head_some in Hq; exact Hq.
Qed.

(** C9. A get request whose identifier resolves to no record of its kind
    fails with the 404 error of that kind; no success value is returned. *)
Theorem get_unknown_id_not_found (rq : get_request)
  (current_user : Auth.User) (db : Session)
  (content_generation : list (gmap string value)) :
  (forall o, ~ resolves rq db content_generation o) ->
  handle_get rq current_user db content_generation
    = Raise (HTTPException 404 (not_found_detail rq))
  /\ (forall o, handle_get rq current_user db content_generation <> Ok o).
Proof.
  intros Hnone.
  assert (Hraise : handle_get rq current_user db content_generation
                   = Raise (HTTPException 404 (not_found_detail rq))).
  { destruct rq; simpl in *;
      unfold get_lead, get_customer, get_task, get_ticket, get_workflow,
             get_pipeline, get_proposal, get_content;
      first [ rewrite (query_unknown _ _ Hnone)
            | rewrite (find_one_unknown _ _ Hnone) ];
      reflexivity. }
  split; [exact Hraise|].
  intros o Ho. rewrite Hraise in Ho. discriminate.
Qed.

Lemma get_unknown_id_not_found_witness :
  handle_get (GetLead 2) sample_user sample_db []
    = Raise (HTTPException 404 "Lead not found")
  /\ (forall o, handle_get (GetLead 2) sample_user sample_db [] <> Ok o).
Proof.
  apply (get_unknown_id_not_found (GetLead 2) sample_user sample_db []).
  intros o [Hin Hkey]. simpl in Hin.
  destruct Hin as [<- | []]. vm_compute in Hkey. discriminate.
Defined.

End StoreProps.

Module UpdateProps.

Import Py Store PartialUpdateTerms Samples.

Lemma setattr_items_other (items : list (string * value)) :
  forall (o : gmap string value) (f : string),
    ~ In f (map fst items) -> setattr_items o items !! f = o !! f.
Proof.
  unfold setattr_items.
  induction items as [|[g v] items IH]; simpl; intros o f Hf.
  - reflexivity.
  - rewrite IH by tauto. unfold setattr.
    apply lookup_insert_ne. intros ->. apply Hf. left. reflexivity.
Qed.

Lemma setattr_items_set (items : list (string * value)) :
  forall (o : gmap string value) (f : string) (v : value),
    List.NoDup (map fst items) -> In (f, v) items ->
    setattr_items o items !! f = Some v.
Proof.
  induction items as [|[g w] items IH]; simpl; intros o f v Hnd Hin.
  - contradiction.
  - apply List.NoDup_cons_iff in Hnd as [Hg Hnd].
    destruct Hin as [Heq | Hin].
    + injection Heq as -> ->.
      change (setattr_items (setattr o f v) items !! f = Some v).
      rewrite setattr_items_other by exact Hg.
      apply lookup_insert_eq.
    + apply (IH (setattr o g w) f v Hnd Hin).
Qed.

Lemma commit_refresh_other (utcnow : Datetime.datetime)
  (assigned : list string) (loaded o : gmap string value) (f : string) :
  f <> "updated_at" ->
  commit_refresh utcnow assigned loaded o !! f = o !! f.
Proof.
  intros Hf. unfold commit_refresh.
  destruct (existsb _ assigned); [|reflexivity].
  unfold setattr. apply lookup_insert_ne. congruence.
Qed.

Lemma item_keys {A : Type} (conv : A -> value) (field : string)
  (x : option (option A)) :
  map fst (item conv field x)
= match x with Some _ => [field] | None => [] end.
Proof. destruct x as [[a|]|]; reflexivity. Qed.

(** The keys of a payload: declared fields, each at most once, none of
    them the primary key or a column maintained by the handler. *)
Lemma payload_keys (rq : put_request) :
  List.NoDup (map fst (payload_items rq))
  /\ ~ In "updated_at" (map fst (payload_items rq))
  /\ ~ In "score" (map fst (payload_items rq))
  /\ ~ In "id" (map fst (payload_items rq)).
Proof.
  destruct rq as [k u | k u]; simpl;
    unfold LeadUpdate_dict, TaskUpdate_dict;
    rewrite !map_app, !item_keys.
  - destruct (lu_name u), (lu_company u), (lu_phone u), (lu_status u),
      (lu_source u); simpl;
      (split; [ repeat (apply List.NoDup_cons; [simpl; intuition discriminate|]);
                apply List.NoDup_nil
              | repeat split; intuition discriminate ]).
  - destruct (tu_title u), (tu_description u), (tu_status u),
      (tu_priority u), (tu_due_date u); simpl;
      (split; [ repeat (apply List.NoDup_cons; [simpl; intuition discriminate|]);
                apply List.NoDup_nil
              | repeat split; intuition discriminate ]).
Qed.

Lemma payload_key_in (rq : put_request) (f : string) (v : value) :
  In (f, v) (payload_items rq) -> In f (map fst (payload_items rq)).
Proof. intros Hin. apply (in_map fst) in Hin. exact Hin. Qed.

(** After the commit the query for the key finds the committed row. *)
Lemma store_row_query (table : list (gmap string value)) (k : Z)
  (loaded o : gmap string value) :
  query_filter_id_first table k = Some loaded ->
  o !! "id" = loaded !! "id" ->
  query_filter_id_first (store_row table k o) k = Some o.
Proof.
  unfold query_filter_id_first. intros Hq Hid.
  assert (Hkey : has_key "id" (VInt k) o = true).
  { pose proof (StoreProps.filter_head_some _ _ _ Hq) as [_ Hk].
    unfold has_key in *. rewrite Hid. exact Hk. }
  induction table as [|r rest IH]; simpl in *.
  - discriminate.
  - destruct (has_key "id" (VInt k) r) eqn:Hr; simpl in *.
    + rewrite Hkey. reflexivity.
    + rewrite Hr. apply IH. exact Hq.
Qed.

(** The row a handler returns: the loaded row with the items of the payload
    assigned, then possibly a new score, then the commit. *)
Lemma handle_put_row
  (generate_lead_score : list (string * value) -> result Q)
  (utcnow : Datetime.datetime) (rq : put_request) (current_user : Auth.User)
  (db db' : Session) (row : gmap string value) :
  handle_put generate_lead_score utcnow rq current_user db = Ok (db', row) ->
  exists (loaded o : gmap string value) (assigned : list string),
    loaded_row rq db = Some loaded
    /\ row = commit_refresh utcnow assigned loaded o
    /\ (o = setattr_items loaded (payload_items rq)
        \/ rescores rq = true
           /\ exists score : Q,
               o = setattr (setattr_items loaded (payload_items rq))
                           "score" (VFloat score))
    /\ (o !! "id" = loaded !! "id" -> loaded_row rq db' = Some row).
Proof.
  destruct rq as [k u | k u]; simpl; intros H.
  - unfold update_lead in H.
    destruct (negb (Auth.check_permissions current_user "sales"));
      [discriminate|].
    destruct (query_filter_id_first (leads db) k) as [db_lead|] eqn:Hq;
      [|discriminate].
    destruct (existsb (dict_contains (LeadUpdate_dict u))
                      ["company"; "industry"]) eqn:Hres.
    + destruct (generate_lead_score _) as [score|e]; simpl in H;
        [|discriminate].
      injection H as <- <-.
      eexists db_lead, _, _. split; [reflexivity|].
      split; [reflexivity|]. split.
      * right. split; [exact Hres|]. exists score. reflexivity.
      * intros Hid. simpl. apply (store_row_query _ _ db_lead); [exact Hq|].
        rewrite commit_refresh_other by discriminate. exact Hid.
    + simpl in H. injection H as <- <-.
      eexists db_lead, _, _. split; [reflexivity|].
      split; [reflexivity|]. split.
      * left. reflexivity.
      * intros Hid. simpl. apply (store_row_query _ _ db_lead); [exact Hq|].
        rewrite commit_refresh_other by discriminate. exact Hid.
  - unfold update_task in H.
    destruct (negb (Auth.check_permissions current_user "manager"));
      [discriminate|].
    destruct (query_filter_id_first (tasks db) k) as [db_task|] eqn:Hq;
      [|discriminate].
    injection H as <- <-.
    eexists db_task, _, _. split; [reflexivity|].
    split; [reflexivity|]. split.
    + left. reflexivity.
    + intros Hid. simpl. apply (store_row_query _ _ db_task); [exact Hq|].
      rewrite commit_refresh_other by discriminate. exact Hid.
Qed.

Lemma existsb_ext_in {A : Type} (f g : A -> bool) (l : list A) :
  (forall x, In x l -> f x = g x) -> existsb f l = existsb g l.
Proof.
  induction l as [|x l IH]; intros H; cbn [existsb]; [reflexivity|].
  rewrite (H x (or_introl eq_refl)), IH; [reflexivity|].
  intros y Hy. apply H. right. exact Hy.
Qed.

Lemma getattr_lookup (o o' : gmap string value) (f : string) :
  o !! f = o' !! f -> getattr o f = getattr o' f.
Proof. unfold getattr. intros ->. reflexivity. Qed.

(** The row a successful update returns, step by step. *)
Lemma handle_put_steps
  (generate_lead_score : list (string * value) -> result Q)
  (utcnow : Datetime.datetime) (rq : put_request) (current_user : Auth.User)
  (db db' : Session) (row : gmap string value) :
  handle_put generate_lead_score utcnow rq current_user db = Ok (db', row) ->
  exists loaded o : gmap string value,
    loaded_row rq db = Some loaded
    /\ row = commit_refresh utcnow (assigned_columns rq) loaded o
    /\ (if rescores rq
        then exists score : Q,
               generate_lead_score
                 (scoring_input (setattr_items loaded (payload_items rq)))
               = Ok score
               /\ o = setattr (setattr_items loaded (payload_items rq))
                              "score" (VFloat score)
        else o = setattr_items loaded (payload_items rq)).
Proof.
  destruct rq as [k u | k u];
    cbn [handle_put loaded_row rescores payload_items]; unfold assigned_columns;
    cbn [rescores payload_items]; intros H.
  - unfold update_lead in H.
    destruct (negb (Auth.check_permissions current_user "sales"));
      [discriminate|].
    destruct (query_filter_id_first (leads db) k) as [db_lead|] eqn:Hq;
      [|discriminate].
    exists db_lead.
    destruct (existsb (dict_contains (LeadUpdate_dict u))
                      ["company"; "industry"]) eqn:Hres.
    + unfold scoring_input.
      destruct (generate_lead_score _) as [score|e] eqn:Hscore;
        cbv beta iota zeta delta [bind] in H; [|discriminate].
      cbn [fst snd] in H. injection H as <- <-.
      eexists. split; [reflexivity|]. split; [reflexivity|].
      exists score. split; reflexivity.
    + cbv beta iota zeta delta [bind] in H. cbn [fst snd] in H.
      injection H as <- <-.
      eexists. split; [reflexivity|]. split; reflexivity.
  - unfold update_task in H.
    destruct (negb (Auth.check_permissions current_user "manager"));
      [discriminate|].
    destruct (query_filter_id_first (tasks db) k) as [db_task|] eqn:Hq;
      [|discriminate].
    cbv zeta in H. injection H as <- <-.
    exists db_task. eexists. split; [reflexivity|]. split; [|reflexivity].
    rewrite app_nil_r. reflexivity.
Qed.




End UpdateProps.

(** ** Pandas operations *)

Module PandasProps.

Import Py Float64 Pandas.
Local Open Scope R_scope.

Lemma iloc_last_nil {A : Type} : iloc_last (@nil A) = Raise IndexError.
Proof. reflexivity. Qed.

Lemma iloc_last_snoc {A : Type} (s : list A) (x : A) :
  iloc_last (s ++ [x]) = Ok x.
Proof. unfold iloc_last. rewrite rev_unit. reflexivity. Qed.

Lemma iloc_last_cons {A : Type} (x : A) (s : list A) :
  iloc_last (x :: s) = Ok (List.last s x).
Proof.
  revert x. induction s as [|y s IH] using rev_ind; intros x.
  - reflexivity.
  - change (x :: s ++ [y]) with ((x :: s) ++ [y]).
    rewrite iloc_last_snoc, List.last_last. reflexivity.
Qed.

Lemma iloc_last_map {A B : Type} (f : A -> B) (s : list A) (x : A) :
  iloc_last s = Ok x -> iloc_last (map f s) = Ok (f x).
Proof.
  unfold iloc_last. rewrite <- map_rev.
  destruct (rev s) as [|y r]; simpl; intros H; [discriminate|].
  injection H as ->. reflexivity.
Qed.

Lemma pct_change_from_length (s : list R) :
  forall previous, length (pct_change_from previous s) = length s.
Proof.
  induction s as [|x s IH]; simpl; intros previous.
  - reflexivity.
  - rewrite IH. reflexivity.
Qed.

Lemma pct_change_length (s : list R) : length (pct_change s) = length s.
Proof.
  destruct s as [|x s]; simpl.
  - reflexivity.
  - rewrite pct_change_from_length. reflexivity.
Qed.

Lemma rolling_std_length (window : nat) (s : list R) :
  length (rolling_std window s) = length s.
Proof. unfold rolling_std. rewrite length_map, length_seq. reflexivity. Qed.

(** The last rolling value is the deviation of the last full window. *)
Lemma rolling_std_last (window : nat) (s : list R) :
  (1 <= window <= length s)%nat ->
  iloc_last (rolling_std window s)
  = Ok (std (map Fin (skipn (length s - window) s))).
Proof.
  intros [Hw Hlen]. unfold rolling_std.
  destruct (length s) as [|n] eqn:Hn; [lia|].
  rewrite seq_S, map_app. simpl. rewrite iloc_last_snoc.
  destruct (S n <? window)%nat eqn:Hlt.
  - apply Nat.ltb_lt in Hlt. lia.
  - rewrite firstn_all2; [reflexivity|].
    rewrite length_skipn. lia.
Qed.

End PandasProps.

(** ** Forecast *)

Module ForecastProps.

Import Py Float64 Pandas AIService ForecastTerms PandasProps Samples.
Local Open Scope R_scope.

Lemma combine_columns (groups : list (Z * R)) :
  forall rates : list float64,
    length rates = length groups ->
    let frame :=
      map (fun pr => mk_monthly_row (fst (fst pr)) (snd (fst pr)) (snd pr))
          (combine groups rates) in
    map amount frame = map snd groups /\ map growth_rate frame = rates.
Proof.
  induction groups as [|[k a] groups IH]; intros [|g rates] Hlen;
    simpl in *; try discriminate; try (split; reflexivity).
  injection Hlen as Hlen. destruct (IH rates Hlen) as [Ha Hg].
  rewrite Ha, Hg. split; reflexivity.
Qed.

Lemma frame_columns (df : list df_row) :
  map amount (monthly_frame df) = monthly_amounts df
  /\ map growth_rate (monthly_frame df) = growth_rates df.
Proof.
  unfold monthly_frame, monthly_amounts, growth_rates.
  apply combine_columns. rewrite pct_change_length.
  unfold monthly_amounts. apply length_map.
Qed.

Lemma frame_amounts (df : list df_row) :
  map amount (monthly_frame df) = monthly_amounts df.
Proof. apply frame_columns. Qed.

Lemma frame_growth_rates (df : list df_row) :
  map growth_rate (monthly_frame df) = growth_rates df.
Proof. apply frame_columns. Qed.

(** [_identify_forecast_factors] never raises and computes the specified
    list from the amount column. *)
Lemma identify_forecast_factors_eq (monthly_data : list monthly_row) :
  _identify_forecast_factors monthly_data
  = Ok (expected_factors (map amount monthly_data)).
Proof.
  unfold _identify_forecast_factors, expected_factors, upward_trend,
    declining_trend, seasonal_variation, high_volatility, last_window.
  rewrite length_map.
  set (a := map amount monthly_data).
  assert (Hlen : length a = length monthly_data) by apply length_map.
  destruct (12 <=? length monthly_data)%nat eqn:H12.
  - apply Nat.leb_le in H12.
    rewrite (rolling_std_last 12 a) by lia.
    rewrite Hlen. cbv beta iota delta [Py.bind].
    generalize (gtb (std (map Fin (skipn (length monthly_data - 12) a)))
                    (mul (mean (map Fin a)) (Fin 0.2))).
    generalize (gtb (std (pct_change a)) (Fin 0.2)).
    generalize (ltb (mean (pct_change a)) (Fin (-0.1))).
    generalize (gtb (mean (pct_change a)) (Fin 0.1)).
    intros [] [] [] []; reflexivity.
  - generalize (gtb (std (pct_change a)) (Fin 0.2)).
    generalize (ltb (mean (pct_change a)) (Fin (-0.1))).
    generalize (gtb (mean (pct_change a)) (Fin 0.1)).
    intros [] [] []; reflexivity.
Qed.

(** The forecast as a function of the monthly series. *)
Lemma generate_forecast_eq (df : list df_row) :
  monthly_amounts df <> [] ->
  _generate_forecast df
  = let* a := iloc_last (monthly_amounts df) in
    let* g := iloc_last (growth_rates df) in
    Ok (mk_FinancialForecast
          (mul (Fin a) (add (Fin 1) g))
          (mul (Fin a) (Fin 0.8))
          (max0 (sub (Fin 1) (std (growth_rates df))))
          (expected_factors (monthly_amounts df))).
Proof.
  intros Hne. unfold _generate_forecast.
  destruct df as [|r0 rows]; [exfalso; apply Hne; reflexivity|].
  cbv iota. generalize (r0 :: rows). clear Hne r0 rows. intros df.
  destruct (iloc_last (monthly_frame df)) as [row|e] eqn:Hlast.
  - pose proof (iloc_last_map amount _ _ Hlast) as Ha.
    pose proof (iloc_last_map growth_rate _ _ Hlast) as Hg.
    rewrite frame_amounts in Ha. rewrite frame_growth_rates in Hg.
    rewrite Ha, Hg. cbv beta iota delta [Py.bind].
    rewrite identify_forecast_factors_eq, frame_amounts, frame_growth_rates.
    reflexivity.
  - unfold iloc_last in Hlast.
    destruct (rev (monthly_frame df)) eqn:Hrev; [|discriminate].
    injection Hlast as <-.
    apply (f_equal (@rev monthly_row)) in Hrev.
    rewrite rev_involutive in Hrev. simpl in Hrev.
    rewrite <- frame_amounts, Hrev. reflexivity.
Qed.

(** The forecast returns as soon as the frame has a row. *)
Lemma groupby_insert_not_nil (key : Z) (a : R) (groups : list (Z * R)) :
  groupby_insert key a groups <> [].
Proof.
  destruct groups as [|[k total] groups]; simpl; [discriminate|].
  destruct (key <? k)%Z; [discriminate|].
  destruct (key =? k)%Z; discriminate.
Qed.

Lemma groupby_fold_not_nil (rows : list (Z * R)) :
  forall groups : list (Z * R),
    groups <> [] ->
    fold_left (fun groups r => groupby_insert (fst r) (snd r) groups)
              rows groups <> [].
Proof.
  induction rows as [|r rows IH]; simpl; intros groups Hg.
  - exact Hg.
  - apply IH. apply groupby_insert_not_nil.
Qed.

Lemma monthly_amounts_not_nil (df : list df_row) :
  df <> [] -> monthly_amounts df <> [].
Proof.
  destruct df as [|r df]; [contradiction|]. intros _ Hnil.
  unfold monthly_amounts, groupby_sum in Hnil.
  apply map_eq_nil in Hnil. cbn [map fold_left] in Hnil.
  revert Hnil. apply groupby_fold_not_nil. apply groupby_insert_not_nil.
Qed.

Lemma forecast_returns (df : list df_row) :
  df <> [] -> exists r : FinancialForecast, _generate_forecast df = Ok r.
Proof.
  intros Hne. apply monthly_amounts_not_nil in Hne.
  rewrite generate_forecast_eq by exact Hne. unfold growth_rates.
  destruct (monthly_amounts df) as [|a s]; [contradiction|].
  rewrite iloc_last_cons. cbn [Py.bind pct_change].
  rewrite iloc_last_cons. cbn [Py.bind]. eexists. reflexivity.
Qed.

(** *** A worked example: 100, 150, 225 *)

Ltac float_case :=
  match goal with
  | |- context [Req_dec_T ?a ?b] =>
      destruct (Req_dec_T a b);
      [try (exfalso; simpl in *; lra) | try (exfalso; simpl in *; lra)]
  | |- context [Rlt_dec ?a ?b] =>
      destruct (Rlt_dec a b);
      [try (exfalso; simpl in *; lra) | try (exfalso; simpl in *; lra)]
  end.

Example three_months_rates :
  growth_rates three_months = [NaN; Fin 0.5; Fin 0.5].
Proof.
  assert (Hm : monthly_amounts three_months = [100; 150; 225]) by reflexivity.
  unfold growth_rates. rewrite Hm. cbn [pct_change pct_change_from].
  unfold div, sub. repeat float_case.
  repeat f_equal; lra.
Qed.

Example three_months_mean : mean [NaN; Fin 0.5; Fin 0.5] = Fin 0.5.
Proof.
  unfold mean. cbn [notna List.filter isnan negb length sum fold_left add INR].
  unfold div. repeat float_case. f_equal. lra.
Qed.

Example three_months_std : std [NaN; Fin 0.5; Fin 0.5] = Fin 0.
Proof.
  unfold std, var.
  cbn [notna List.filter isnan negb length sum fold_left add INR Nat.leb map].
  unfold div. repeat float_case.
  cbn [sub mul add map fold_left sum].
  match goal with |- sqrt (Fin ?x) = _ => replace x with 0 by lra end.
  unfold sqrt. float_case. rewrite sqrt_0. reflexivity.
Qed.

Example three_months_forecast :
  _generate_forecast three_months
  = Ok (mk_FinancialForecast (Fin 337.5) (Fin 180) (Fin 1)
          ["Strong upward trend in revenue"]).
Proof.
  assert (Hm : monthly_amounts three_months = [100; 150; 225]) by reflexivity.
  pose proof three_months_rates as Hr.
  rewrite generate_forecast_eq by (rewrite Hm; discriminate).
  rewrite Hr, Hm.
  unfold growth_rates in Hr. rewrite Hm in Hr.
  unfold expected_factors, upward_trend, declining_trend, seasonal_variation,
    high_volatility.
  rewrite Hr, three_months_mean, three_months_std.
  cbn [iloc_last rev app Py.bind length Nat.leb andb].
  unfold max0, gtb, ltb, add, sub, mul. repeat float_case.
  cbn [app]. repeat f_equal; lra.
Qed.

(** *** Short series *)

(** A frame has no period exactly when it has no row. *)
Lemma no_period_no_row (df : list df_row) :
  monthly_amounts df = [] <-> df = [].
Proof.
  split.
  - intros Hm. destruct df as [|r rows]; [reflexivity|].
    exfalso. apply (monthly_amounts_not_nil (r :: rows)); [discriminate|].
    exact Hm.
  - intros ->. reflexivity.
Qed.

Lemma forecast_no_period (df : list df_row) :
  monthly_amounts df = [] -> _generate_forecast df = Raise (KeyError "date").
Proof. intros Hm. apply no_period_no_row in Hm. subst df. reflexivity. Qed.

Lemma forecast_ok_periods (df : list df_row) (r : FinancialForecast) :
  _generate_forecast df = Ok r -> monthly_amounts df <> [].
Proof.
  intros H Hm. rewrite (forecast_no_period df Hm) in H. discriminate.
Qed.

Lemma forecast_one_period (df : list df_row) (a : R) :
  monthly_amounts df = [a] ->
  _generate_forecast df
  = Ok (mk_FinancialForecast NaN (Fin (a * 0.8)) (Fin 0) []).
Proof.
  intros Hm. rewrite generate_forecast_eq by (rewrite Hm; discriminate).
  unfold growth_rates. rewrite Hm. reflexivity.
Qed.

(** Through [analyze_financial_data] the outcome is the same for one record,
    and a key error for none. *)
Lemma analyze_financial_data_short :
  analyze_financial_data [] = Raise (KeyError "type")
  /\ forall t : Erp.Transaction,
       analyze_financial_data [t]
       = Ok (mk_FinancialForecast NaN (Fin (Q2R (Erp.amount t) * 0.8))
                                  (Fin 0) []).
Proof.
  split; [reflexivity|]. intros t. unfold analyze_financial_data.
  cbn [map]. apply forecast_one_period. reflexivity.
Qed.

(** *** The two-period example *)

Lemma two_months_amounts : monthly_amounts two_months = [100; 110].
Proof.
  assert (H : monthly_amounts two_months = [60 + 40; 110]) by reflexivity.
  rewrite H. f_equal. lra.
Qed.

(** *** Scaling *)

Lemma negative_sign_scale (c x : R) :
  0 < c -> negative_sign (c * x) = negative_sign x.
Proof.
  intros Hc. unfold negative_sign.
  destruct (Rlt_dec (c * x) 0), (Rlt_dec x 0); try reflexivity; exfalso; nra.
Qed.

Lemma div_scale (c x p : R) :
  0 < c -> div (Fin (c * x)) (Fin (c * p)) = div (Fin x) (Fin p).
Proof.
  intros Hc. unfold div.
  destruct (Req_dec_T (c * p) 0) as [Hcp|Hcp], (Req_dec_T p 0) as [Hp|Hp].
  - destruct (Req_dec_T (c * x) 0) as [Hcx|Hcx], (Req_dec_T x 0) as [Hx|Hx].
    + reflexivity.
    + exfalso. nra.
    + exfalso. nra.
    + rewrite negative_sign_scale by exact Hc. reflexivity.
  - exfalso. nra.
  - exfalso. nra.
  - f_equal. field. split; [exact Hp | lra].
Qed.

Lemma pct_change_from_scale (c : R) (s : list R) :
  0 < c ->
  forall previous,
    pct_change_from (c * previous) (map (Rmult c) s)
    = pct_change_from previous s.
Proof.
  intros Hc. induction s as [|x s IH]; intros previous;
    cbn [pct_change_from map].
  - reflexivity.
  - rewrite div_scale by exact Hc. rewrite IH. reflexivity.
Qed.

(** Growth rates do not depend on the unit of the amounts. *)
Lemma pct_change_scale (c : R) (s : list R) :
  0 < c -> pct_change (map (Rmult c) s) = pct_change s.
Proof.
  intros Hc. destruct s as [|x s]; cbn [pct_change map].
  - reflexivity.
  - rewrite pct_change_from_scale by exact Hc. reflexivity.
Qed.

Lemma mul_scale (c a : R) (y : float64) :
  0 < c -> mul (Fin (c * a)) y = mul (Fin c) (mul (Fin a) y).
Proof.
  intros Hc.
  assert (Hsign : negative_sign c = false).
  { unfold negative_sign. destruct (Rlt_dec c 0); [lra | reflexivity]. }
  destruct y as [|s|y]; cbn [mul].
  - reflexivity.
  - destruct (Req_dec_T (c * a) 0) as [Hca|Hca], (Req_dec_T a 0) as [Ha|Ha];
      cbn [mul].
    + reflexivity.
    + exfalso. nra.
    + exfalso. nra.
    + destruct (Req_dec_T c 0) as [H0|_]; [lra|].
      rewrite negative_sign_scale by exact Hc.
      rewrite Hsign, xorb_false_r. reflexivity.
  - f_equal. ring.
Qed.

Lemma groupby_insert_scale (c : R) (key : Z) (a : R) (groups : list (Z * R)) :
  groupby_insert key (c * a) (map (fun g => (fst g, c * snd g)) groups)
  = map (fun g => (fst g, c * snd g)) (groupby_insert key a groups).
Proof.
  induction groups as [|[k total] groups IH]; simpl.
  - reflexivity.
  - destruct (key <? k)%Z; [reflexivity|].
    destruct (key =? k)%Z; simpl.
    + f_equal. f_equal. ring.
    + rewrite IH. reflexivity.
Qed.

(** Scaling every amount of the frame scales every monthly total. *)
Lemma monthly_amounts_scale (c : R) (df : list df_row) :
  monthly_amounts (scale_frame c df) = map (Rmult c) (monthly_amounts df).
Proof.
  unfold monthly_amounts, scale_frame, groupby_sum.
  rewrite map_map. simpl.
  set (scale := fun g : Z * R => (fst g, c * snd g)).
  assert (Hfold : forall rows groups,
    fold_left (fun groups r => groupby_insert (fst r) (snd r) groups)
      (map (fun r => (Datetime.to_period_M (df_date r), c * df_amount r)) rows)
      (map scale groups)
    = map scale
        (fold_left (fun groups r => groupby_insert (fst r) (snd r) groups)
           (map (fun r => (Datetime.to_period_M (df_date r), df_amount r)) rows)
           groups)).
  { induction rows as [|r rows IH]; intros groups; simpl.
    - reflexivity.
    - unfold scale at 1. rewrite groupby_insert_scale. apply IH. }
  pose proof (Hfold df []) as H.
  change (map scale []) with (@nil (Z * R)) in H.
  rewrite H, !map_map. reflexivity.
Qed.

(** Over the reals, multiplying every monthly amount by a positive
    constant leaves the confidence score unchanged and multiplies the
    predicted revenue and the predicted expenses by that constant. *)
Lemma scale_invariant_over_reals (c : R) (df df' : list df_row) :
  0 < c ->
  (2 <= length (monthly_amounts df))%nat ->
  monthly_amounts df' = map (Rmult c) (monthly_amounts df) ->
  exists r r' : FinancialForecast,
    _generate_forecast df = Ok r
    /\ _generate_forecast df' = Ok r'
    /\ confidence_score r' = confidence_score r
    /\ predicted_revenue r' = mul (Fin c) (predicted_revenue r)
    /\ predicted_expenses r' = mul (Fin c) (predicted_expenses r).
Proof.
  intros Hc Hlen Hm.
  assert (Hne : monthly_amounts df <> [])
    by (intros E; rewrite E in Hlen; simpl in Hlen; lia).
  assert (Hne' : monthly_amounts df' <> [])
    by (rewrite Hm; intros E; apply map_eq_nil in E; contradiction).
  rewrite (generate_forecast_eq df Hne), (generate_forecast_eq df' Hne').
  unfold growth_rates. rewrite Hm.
  rewrite pct_change_scale by exact Hc.
  destruct (monthly_amounts df) as [|a0 s] eqn:Ha; [simpl in Hlen; lia|].
  rewrite (iloc_last_map (Rmult c) (a0 :: s) _ (iloc_last_cons a0 s)).
  rewrite iloc_last_cons.
  assert (Hg : exists g, iloc_last (pct_change (a0 :: s)) = Ok g)
    by (simpl pct_change; eexists; apply iloc_last_cons).
  destruct Hg as [g Hg]. rewrite Hg.
  cbv beta iota delta [Py.bind].
  eexists. eexists. split; [reflexivity|]. split; [reflexivity|].
  simpl. split; [reflexivity|]. split.
  - apply mul_scale. exact Hc.
  - apply (mul_scale c _ (Fin 0.8)). exact Hc.
Qed.

(** *** Confidence *)

(** A standard deviation is NaN, plus infinity, or a non-negative value. *)
Lemma std_cases (s : list float64) :
  std s = NaN \/ std s = Inf false \/ exists x, std s = Fin x /\ 0 <= x.
Proof.
  unfold std, sqrt. destruct (var s) as [|[|]|x].
  - left. reflexivity.
  - left. reflexivity.
  - right. left. reflexivity.
  - destruct (Rlt_dec x 0).
    + left. reflexivity.
    + right. right. exists (R_sqrt.sqrt x). split; [reflexivity|].
      apply sqrt_pos.
Qed.

Lemma max0_range (v : float64) :
  v = NaN \/ v = Inf false \/ (exists x, v = Fin x /\ 0 <= x) ->
  exists c : R,
    max0 (sub (Fin 1) v) = Fin c /\ 0 <= c <= 1
    /\ (forall x, v = Fin x -> c = Rmax 0 (1 - x)).
Proof.
  intros [-> | [-> | (x & -> & Hx)]].
  - exists 0. split; [reflexivity|]. split; [lra|]. discriminate.
  - exists 0. split; [reflexivity|]. split; [lra|]. discriminate.
  - unfold max0, sub, gtb. destruct (Rlt_dec 0 (1 - x)) as [Hpos|Hneg].
    + exists (1 - x). split; [reflexivity|]. split; [lra|].
      intros y Hy. injection Hy as <-. rewrite Rmax_right; lra.
    + exists 0. split; [reflexivity|]. split; [lra|].
      intros y Hy. injection Hy as <-. rewrite Rmax_left; lra.
Qed.



End ForecastProps.

(** ** Recommendations *)

Module RecommendationProps.

Import Py Erp AIService ExpenseTerms Samples.

Lemma category_eqb_eq (a b : TransactionCategory) :
  category_eqb a b = true <-> a = b.
Proof. destruct a, b; vm_compute; split; congruence. Qed.

Lemma category_eqb_refl (a : TransactionCategory) : category_eqb a a = true.
Proof. apply category_eqb_eq. reflexivity. Qed.

Lemma category_eqb_sym (a b : TransactionCategory) :
  category_eqb a b = category_eqb b a.
Proof. destruct a, b; reflexivity. Qed.

(** *** The dictionary of totals *)

Lemma dict_get_set (d : list (TransactionCategory * Q))
  (k c : TransactionCategory) (v default : Q) :
  dict_get (dict_set d k v) c default
  = if category_eqb k c then v else dict_get d c default.
Proof.
  unfold dict_get.
  induction d as [|[k' v'] d IH]; simpl.
  - destruct (category_eqb k c); reflexivity.
  - destruct (category_eqb k' k) eqn:Hk; simpl.
    + apply category_eqb_eq in Hk. subst k'.
      destruct (category_eqb k c); reflexivity.
    + destruct (category_eqb k' c) eqn:Hc; simpl.
      * apply category_eqb_eq in Hc. subst k'.
        rewrite category_eqb_sym, Hk. reflexivity.
      * exact IH.
Qed.

Lemma dict_set_keys (d : list (TransactionCategory * Q))
  (k : TransactionCategory) (v : Q) :
  map fst (dict_set d k v)
  = if existsb (category_eqb k) (map fst d) then map fst d
    else map fst d ++ [k].
Proof.
  induction d as [|[k' v'] d IH]; simpl.
  - reflexivity.
  - rewrite (category_eqb_sym k k').
    destruct (category_eqb k' k); simpl.
    + reflexivity.
    + rewrite IH. destruct (existsb (category_eqb k) (map fst d)); reflexivity.
Qed.

Lemma category_totals_snoc (expenses : list Transaction) (e : Transaction) :
  category_totals (expenses ++ [e])
  = dict_set (category_totals expenses) (category e)
             (dict_get (category_totals expenses) (category e) 0
              + Erp.amount e)%Q.
Proof. unfold category_totals. rewrite fold_left_app. reflexivity. Qed.

Lemma first_occurrences_snoc (l : list TransactionCategory)
  (c : TransactionCategory) :
  first_occurrences (l ++ [c])
  = if existsb (category_eqb c) l then first_occurrences l
    else first_occurrences l ++ [c].
Proof.
  induction l as [|x l IH]; simpl.
  - reflexivity.
  - rewrite IH. destruct (existsb (category_eqb c) l) eqn:Hin.
    + rewrite orb_true_r. reflexivity.
    + rewrite orb_false_r, List.filter_app. simpl.
      destruct (category_eqb c x); simpl.
      * rewrite app_nil_r. reflexivity.
      * reflexivity.
Qed.

Lemma first_occurrences_mem (l : list TransactionCategory)
  (c : TransactionCategory) :
  existsb (category_eqb c) (first_occurrences l)
  = existsb (category_eqb c) l.
Proof.
  induction l as [|x l IH]; simpl.
  - reflexivity.
  - destruct (category_eqb c x) eqn:Hcx; simpl; [reflexivity|].
    rewrite <- IH. clear IH.
    induction (first_occurrences l) as [|y r IHr]; simpl.
    + reflexivity.
    + destruct (category_eqb y x) eqn:Hyx; simpl.
      * apply category_eqb_eq in Hyx. subst y. rewrite Hcx. exact IHr.
      * rewrite IHr. reflexivity.
Qed.

(** The keys of the dictionary are the categories of the expenses, in
    order of first occurrence. *)
Lemma category_totals_keys (expenses : list Transaction) :
  map fst (category_totals expenses)
  = first_occurrences (map category expenses).
Proof.
  induction expenses as [|e expenses IH] using rev_ind.
  - reflexivity.
  - rewrite category_totals_snoc, dict_set_keys, map_app. simpl.
    rewrite first_occurrences_snoc, IH, first_occurrences_mem.
    reflexivity.
Qed.

Lemma first_occurrences_NoDup (l : list TransactionCategory) :
  List.NoDup (first_occurrences l).
Proof.
  induction l as [|c l IH]; simpl.
  - apply List.NoDup_nil.
  - apply List.NoDup_cons.
    + intros Hin. apply List.filter_In in Hin as [_ Hne].
      rewrite category_eqb_refl in Hne. discriminate.
    + apply List.NoDup_filter. exact IH.
Qed.

Lemma dict_get_item (d : list (TransactionCategory * Q))
  (c : TransactionCategory) (v default : Q) :
  List.NoDup (map fst d) -> In (c, v) d -> dict_get d c default = v.
Proof.
  unfold dict_get.
  induction d as [|[k w] d IH]; simpl; intros Hnd Hin.
  - contradiction.
  - apply List.NoDup_cons_iff in Hnd as [Hk Hnd].
    destruct Hin as [Heq | Hin].
    + injection Heq as -> ->. rewrite category_eqb_refl. reflexivity.
    + destruct (category_eqb k c) eqn:Hkc.
      * apply category_eqb_eq in Hkc. subst k. exfalso. apply Hk.
        apply (in_map fst) in Hin. exact Hin.
      * apply IH; assumption.
Qed.

Lemma fold_Qplus_acc (l : list Q) :
  forall acc : Q, (fold_left Qplus l acc == acc + fold_left Qplus l 0)%Q.
Proof.
  induction l as [|x l IH]; intros acc; simpl.
  - ring.
  - rewrite (IH (acc + x)%Q), (IH (0 + x)%Q). ring.
Qed.

Lemma sum_amounts_snoc (expenses : list Transaction) (e : Transaction) :
  sum_amounts (expenses ++ [e]) = (sum_amounts expenses + Erp.amount e)%Q.
Proof.
  unfold sum_amounts. rewrite map_app, fold_left_app. reflexivity.
Qed.

(** The entry of a category holds the total of its expenses. *)
Lemma category_totals_get (expenses : list Transaction)
  (c : TransactionCategory) :
  (dict_get (category_totals expenses) c 0
   == sum_amounts
        (List.filter (fun t => category_eqb (Erp.category t) c) expenses))%Q.
Proof.
  induction expenses as [|e expenses IH] using rev_ind.
  - reflexivity.
  - rewrite category_totals_snoc, dict_get_set, List.filter_app. simpl.
    destruct (category_eqb (Erp.category e) c) eqn:Hc.
    + rewrite sum_amounts_snoc.
      apply category_eqb_eq in Hc. subst c. rewrite IH. reflexivity.
    + rewrite app_nil_r. exact IH.
Qed.

Lemma dict_set_sum (d : list (TransactionCategory * Q))
  (k : TransactionCategory) (a : Q) :
  (fold_left Qplus (map snd (dict_set d k (dict_get d k 0 + a))) 0
   == fold_left Qplus (map snd d) 0 + a)%Q.
Proof.
  induction d as [|[k' v'] d IH].
  - cbv beta iota delta [dict_get dict_set List.find map snd fold_left].
    ring.
  - unfold dict_get in *.
    cbn [dict_set List.find fst snd].
    destruct (category_eqb k' k); cbn [map snd fold_left].
    + rewrite (fold_Qplus_acc _ (0 + (v' + a))%Q).
      rewrite (fold_Qplus_acc _ (0 + v')%Q). ring.
    + rewrite (fold_Qplus_acc _ (0 + v')%Q).
      rewrite (fold_Qplus_acc (map snd d) (0 + v')%Q).
      rewrite IH. ring.
Qed.

(** The values of the dictionary add up to the total of the expenses. *)
Lemma category_totals_sum (expenses : list Transaction) :
  (fold_left Qplus (map snd (category_totals expenses)) 0
   == sum_amounts expenses)%Q.
Proof.
  induction expenses as [|e expenses IH] using rev_ind.
  - reflexivity.
  - rewrite category_totals_snoc, dict_set_sum, IH, sum_amounts_snoc.
    reflexivity.
Qed.

Lemma category_totals_item (transactions : list Transaction)
  (c : TransactionCategory) (v : Q) :
  In (c, v) (category_totals (expenses_of transactions)) ->
  (v == category_expense c transactions)%Q.
Proof.
  intros Hin. unfold category_expense.
  rewrite <- category_totals_get.
  rewrite (dict_get_item _ c v 0%Q); [reflexivity| |exact Hin].
  rewrite category_totals_keys. apply first_occurrences_NoDup.
Qed.

(** *** The loop over the dictionary *)

Lemma high_spending_ok (total_expenses : Q)
  (items : list (TransactionCategory * Q)) :
  ~ (total_expenses == 0)%Q ->
  forall recommendations : list AIRecommendation,
    high_spending total_expenses items recommendations
    = Ok (recommendations
          ++ map (fun kv => expense_recommendation
                              (fst kv) (snd kv / total_expenses)%Q)
                 (List.filter
                    (fun kv =>
                       negb (Qle_bool (snd kv / total_expenses)%Q 0.3))
                    items)).
Proof.
  intros Hne.
  assert (Hz : Qeq_bool total_expenses 0 = false).
  { destruct (Qeq_bool total_expenses 0) eqn:H; [|reflexivity].
    apply Qeq_bool_iff in H. contradiction. }
  induction items as [|[c v] items IH]; intros recommendations; simpl.
  - rewrite app_nil_r. reflexivity.
  - rewrite Hz, IH.
    destruct (negb (Qle_bool (v / total_expenses) 0.3)); simpl.
    + rewrite <- app_assoc. reflexivity.
    + reflexivity.
Qed.

Lemma high_spending_zero (items : list (TransactionCategory * Q))
  (total_expenses : Q) (recommendations : list AIRecommendation) :
  (total_expenses == 0)%Q -> items <> [] ->
  high_spending total_expenses items recommendations
  = Raise ZeroDivisionError.
Proof.
  intros Hz Hne. destruct items as [|[c v] items]; [contradiction|].
  simpl. apply Qeq_bool_iff in Hz. rewrite Hz. reflexivity.
Qed.

Lemma flagged_items (transactions : list Transaction) (total_expenses : Q)
  (items : list (TransactionCategory * Q)) :
  (total_expenses == total_expense transactions)%Q ->
  (forall c v, In (c, v) items -> (v == category_expense c transactions)%Q) ->
  Forall2
    (fun r c => exists p : Q,
         r = expense_recommendation c p
         /\ (p == expense_share transactions c)%Q)
    (map (fun kv => expense_recommendation (fst kv)
                                           (snd kv / total_expenses)%Q)
         (List.filter
            (fun kv => negb (Qle_bool (snd kv / total_expenses)%Q 0.3))
            items))
    (List.filter
       (fun c => negb (Qle_bool (expense_share transactions c) 0.3))
       (map fst items)).
Proof.
  intros Htotal. induction items as [|[c v] items IH]; intros Hitems; simpl.
  - constructor.
  - assert (Hshare : (v / total_expenses == expense_share transactions c)%Q).
    { unfold expense_share.
      rewrite (Hitems c v (or_introl eq_refl)), Htotal. reflexivity. }
    rewrite (Qleb_comp _ _ Hshare _ _ (Qeq_refl 0.3)).
    assert (Hrest : forall c' v', In (c', v') items ->
                                  (v' == category_expense c' transactions)%Q)
      by (intros c' v' Hin; apply Hitems; right; exact Hin).
    destruct (negb (Qle_bool (expense_share transactions c) 0.3)); simpl.
    + constructor; [|apply IH; exact Hrest].
      exists (v / total_expenses)%Q. split; [reflexivity | exact Hshare].
    + apply IH. exact Hrest.
Qed.

(** With expenses whose total is zero the division raises. *)
Lemma analyze_expenses_zero_total (transactions : list Transaction) :
  expenses_of transactions <> [] ->
  (total_expense transactions == 0)%Q ->
  _analyze_expenses transactions = Raise ZeroDivisionError.
Proof.
  intros Hne Hz. unfold _analyze_expenses. fold (expenses_of transactions).
  apply high_spending_zero.
  - rewrite category_totals_sum. exact Hz.
  - intros Hnil. apply (f_equal (map fst)) in Hnil.
    rewrite category_totals_keys in Hnil.
    destruct (expenses_of transactions); [contradiction | discriminate].
Qed.

(** *** Retention and invoice follow-up on sample data *)

Example retention_fires :
  _analyze_employee_retention sample_now recent_staff
  = Ok [retention_recommendation].
Proof. vm_compute. reflexivity. Qed.

Example retention_silent :
  _analyze_employee_retention sample_now settled_staff = Ok [].
Proof. vm_compute. reflexivity. Qed.

Example invoice_followup_counts :
  _analyze_invoices sample_now mixed_invoices = Ok [invoice_recommendation 2].
Proof. vm_compute. reflexivity. Qed.

(** *** Retention over an empty staff list *)

Lemma high_spending_raises (total_expenses : Q)
  (items : list (TransactionCategory * Q)) :
  forall (recommendations : list AIRecommendation) (e : exception),
    high_spending total_expenses items recommendations = Raise e ->
    e = ZeroDivisionError.
Proof.
  induction items as [|[c v] items IH]; intros recommendations e; simpl.
  - discriminate.
  - destruct (Qeq_bool total_expenses 0).
    + intros H. injection H as <-. reflexivity.
    + apply IH.
Qed.

Lemma analyze_expenses_raises (transactions : list Transaction)
  (e : exception) :
  _analyze_expenses transactions = Raise e -> e = ZeroDivisionError.
Proof. unfold _analyze_expenses. apply high_spending_raises. Qed.

Lemma generate_recommendations_no_employee (now : Datetime.datetime)
  (transactions : list Transaction) (invoices : list Invoice) :
  generate_recommendations now transactions [] invoices
  = Raise ZeroDivisionError.
Proof.
  unfold generate_recommendations.
  destruct (_analyze_expenses transactions) as [recs|e] eqn:He; simpl.
  - reflexivity.
  - apply analyze_expenses_raises in He. subst e. reflexivity.
Qed.

(** C10. The retention analysis of an empty employee list divides by the
    number of employees and raises [ZeroDivisionError]; the recommendations
    endpoint passes an empty list for a finance manager and for an operations
    manager, and fails with that error for each of them. *)
Theorem retention_empty_list_raises :
  (forall now : Datetime.datetime,
      _analyze_employee_retention now [] = Raise ZeroDivisionError)
  /\ (forall (now : Datetime.datetime) (current_user : User) (db : Session),
        role current_user = FINANCE_MANAGER
        \/ role current_user = OPERATIONS_MANAGER ->
        ErpEndpoints.get_ai_recommendations now current_user db
        = Raise ZeroDivisionError).
Proof.
  split.
  - intros now. reflexivity.
  - intros now current_user db Hrole.
    unfold ErpEndpoints.get_ai_recommendations.
    destruct Hrole as [-> | ->]; simpl fst; simpl snd;
      apply generate_recommendations_no_employee.
Qed.

Lemma retention_empty_list_raises_witness :
  _analyze_employee_retention sample_now [] = Raise ZeroDivisionError
  /\ ErpEndpoints.get_ai_recommendations sample_now finance_manager
       sample_erp_db = Raise ZeroDivisionError
  /\ ErpEndpoints.get_ai_recommendations sample_now operations_manager
       sample_erp_db = Raise ZeroDivisionError.
Proof.
  split; [|split].
  - apply (proj1 retention_empty_list_raises).
  - apply (proj2 retention_empty_list_raises). left. reflexivity.
  - apply (proj2 retention_empty_list_raises). right. reflexivity.
Defined.

End RecommendationProps.

(** ** Outcomes and frame of the update handlers *)

Module UpdateOutcomeProps.

Import Py Store UpdateTerms Samples StoreProps UpdateProps.

(** X1. A get request for an identifier that some record of its table
    or collection has returns a record, and the record returned is one with
    this identifier: a known identifier never gives 404. *)
Theorem get_known_id_found (rq : get_request) (current_user : Auth.User)
  (db : Session) (content_generation : list (gmap string value)) :
  (exists o, resolves rq db content_generation o) ->
  exists o' : gmap string value,
    handle_get rq current_user db content_generation = Ok o'
    /\ resolves rq db content_generation o'.
Proof.
  intros [o Ho].
  destruct (handle_get rq current_user db content_generation) as [o'|e] eqn:H.
  - exists o'. split; [reflexivity|]. apply (handle_get_ok _ _ _ _ _ H).
  - exfalso.
    assert (Hfilter : forall p (table : list (gmap string value)),
               In o table -> p o = true -> head (List.filter p table) <> None).
    { intros p table Hin Hp Hnone.
      induction table as [|r rest IH]; simpl in *; [contradiction|].
      destruct (p r) eqn:Hr; simpl in Hnone; [discriminate|].
      destruct Hin as [-> | Hin]; [congruence | auto]. }
    destruct rq; simpl in *;
      unfold get_lead, get_customer, get_task, get_ticket, get_workflow,
             get_pipeline, get_proposal, get_content,
             query_filter_id_first, find_one in H;
      destruct Ho as [Hin Hk];
      match type of H with
      | context [head ?l] => destruct (head l) eqn:Hq
      end; try discriminate;
      apply (Hfilter _ _ Hin Hk); exact Hq.
Qed.

Lemma get_known_id_found_witness :
  exists o' : gmap string value,
    handle_get (GetLead 1) sample_user sample_db [] = Ok o'
    /\ resolves (GetLead 1) sample_db [] o'.
Proof.
  apply (get_known_id_found (GetLead 1) sample_user sample_db []).
  exists sample_lead. split; [left; reflexivity | vm_compute; reflexivity].
Defined.

Lemma value_eqb_refl (v : value) : value_eqb v v = true.
Proof.
  destruct v; simpl.
  - reflexivity.
  - destruct b; reflexivity.
  - apply Z.eqb_refl.
  - apply Qeq_bool_iff. reflexivity.
  - apply String.eqb_refl.
  - apply Z.eqb_refl.
Qed.

Lemma has_key_other (r : gmap string value) (k k' : Z) :
  has_key "id" (VInt k) r = true -> k' <> k ->
  has_key "id" (VInt k') r = false.
Proof.
  unfold has_key. destruct (r !! "id") as [[| | z | | |]|]; simpl;
    try discriminate.
  intros Hk Hne. apply Z.eqb_eq in Hk. subst z.
  apply Z.eqb_neq. congruence.
Qed.

Lemma has_key_lookup (key : string) (k : value)
  (o o' : gmap string value) :
  o !! key = o' !! key -> has_key key k o = has_key key k o'.
Proof. unfold has_key. intros ->. reflexivity. Qed.

Lemma store_row_length (table : list (gmap string value)) (k : Z)
  (o : gmap string value) :
  length (store_row table k o) = length table.
Proof.
  induction table as [|r rest IH]; simpl; [reflexivity|].
  destruct (has_key "id" (VInt k) r); simpl; [reflexivity|].
  rewrite IH. reflexivity.
Qed.

Lemma store_row_other (table : list (gmap string value)) (k k' : Z)
  (o : gmap string value) :
  k' <> k -> has_key "id" (VInt k') o = false ->
  query_filter_id_first (store_row table k o) k'
  = query_filter_id_first table k'.
Proof.
  intros Hne Ho. unfold query_filter_id_first.
  induction table as [|r rest IH]; simpl; [reflexivity|].
  destruct (has_key "id" (VInt k) r) eqn:Hr; simpl.
  - rewrite Ho, (has_key_other r k k' Hr Hne). reflexivity.
  - destruct (has_key "id" (VInt k') r); simpl; [reflexivity | exact IH].
Qed.

Lemma store_row_same (table : list (gmap string value)) (k : Z)
  (loaded : gmap string value) :
  query_filter_id_first table k = Some loaded ->
  store_row table k loaded = table.
Proof.
  unfold query_filter_id_first.
  induction table as [|r rest IH]; simpl; intros Hq; [reflexivity|].
  destruct (has_key "id" (VInt k) r); simpl in Hq.
  - injection Hq as ->. reflexivity.
  - rewrite (IH Hq). reflexivity.
Qed.

Lemma setattr_items_same (items : list (string * value)) :
  forall o : gmap string value,
    (forall f v, In (f, v) items -> o !! f = Some v) ->
    setattr_items o items = o.
Proof.
  unfold setattr_items.
  induction items as [|[f v] items IH]; simpl; intros o Ho; [reflexivity|].
  unfold setattr at 2. rewrite (insert_id o f v) by (apply Ho; left; reflexivity).
  apply IH. intros g w Hin. apply Ho. right. exact Hin.
Qed.

Lemma commit_refresh_same (utcnow : Datetime.datetime)
  (assigned : list string) (o : gmap string value) :
  commit_refresh utcnow assigned o o = o.
Proof.
  unfold commit_refresh.
  replace (existsb _ assigned) with false; [reflexivity|].
  symmetry. induction assigned as [|f rest IH]; simpl; [reflexivity|].
  rewrite value_eqb_refl. simpl. exact IH.
Qed.

Lemma put_store_same (rq : put_request) (db : Session)
  (loaded : gmap string value) :
  loaded_row rq db = Some loaded -> put_store rq db loaded = db.
Proof.
  destruct rq as [k u | k u], db; simpl; intros Hq;
    rewrite (store_row_same _ _ _ Hq); reflexivity.
Qed.

(** What a successful update tells: the role was held, a row was loaded,
    the row returned carries the payload and the key, and it is the row the
    store holds afterwards. *)
Lemma put_success (generate_lead_score : list (string * value) -> result Q)
  (utcnow : Datetime.datetime) (rq : put_request) (current_user : Auth.User)
  (db db' : Session) (row : gmap string value) :
  handle_put generate_lead_score utcnow rq current_user db = Ok (db', row) ->
  Auth.check_permissions current_user (put_role rq) = true
  /\ db' = put_store rq db row
  /\ exists loaded : gmap string value,
       loaded_row rq db = Some loaded
       /\ (forall f v, In (f, v) (payload_items rq) -> row !! f = Some v)
       /\ row !! "id" = loaded !! "id"
       /\ loaded_row rq db' = Some row.
Proof.
  intros H.
  assert (Hperm : Auth.check_permissions current_user (put_role rq) = true
                  /\ db' = put_store rq db row).
  { destruct rq as [k u | k u]; cbn [handle_put put_role put_store] in *.
    - unfold update_lead in H.
      destruct (Auth.check_permissions current_user "sales");
        cbn [negb] in H; [|discriminate]. split; [reflexivity|].
      destruct (query_filter_id_first (leads db) k); [|discriminate].
      destruct (existsb (dict_contains (LeadUpdate_dict u))
                        ["company"; "industry"]).
      + destruct (generate_lead_score _); cbv beta iota delta [Py.bind] in H;
          [|discriminate].
        injection H as <- <-. reflexivity.
      + cbv beta iota delta [Py.bind] in H. injection H as <- <-.
        reflexivity.
    - unfold update_task in H.
      destruct (Auth.check_permissions current_user "manager");
        cbn [negb] in H; [|discriminate]. split; [reflexivity|].
      destruct (query_filter_id_first (tasks db) k); [|discriminate].
      injection H as <- <-. reflexivity. }
  destruct Hperm as [Hperm Hdb]. split; [exact Hperm|]. split; [exact Hdb|].
  destruct (payload_keys rq) as (Hnd & Hupd & Hscore & Hid).
  destruct (handle_put_row _ _ _ _ _ _ _ H)
    as (loaded & o & assigned & Hload & -> & Ho & Hstore).
  exists loaded. split; [exact Hload|].
  assert (Hkey : o !! "id" = loaded !! "id").
  { destruct Ho as [-> | (_ & score & ->)].
    - apply setattr_items_other. exact Hid.
    - unfold setattr at 1. rewrite lookup_insert_ne by discriminate.
      apply setattr_items_other. exact Hid. }
  split; [|split].
  - intros f v Hin.
    assert (Hk : In f (map fst (payload_items rq)))
      by (apply (payload_key_in rq f v); exact Hin).
    rewrite commit_refresh_other by (intros ->; contradiction).
    destruct Ho as [-> | (_ & score & ->)].
    + apply setattr_items_set; assumption.
    + unfold setattr at 1.
      rewrite lookup_insert_ne by (intros <-; contradiction).
      apply setattr_items_set; assumption.
  - rewrite commit_refresh_other by discriminate. exact Hkey.
  - apply Hstore. exact Hkey.
Qed.

(** An update that restates what the row holds. *)
Lemma put_restating (generate_lead_score : list (string * value) -> result Q)
  (utcnow : Datetime.datetime) (rq : put_request) (current_user : Auth.User)
  (db : Session) (loaded : gmap string value) :
  Auth.check_permissions current_user (put_role rq) = true ->
  loaded_row rq db = Some loaded ->
  rescores rq = false ->
  (forall f v, In (f, v) (payload_items rq) -> loaded !! f = Some v) ->
  handle_put generate_lead_score utcnow rq current_user db = Ok (db, loaded).
Proof.
  intros Hperm Hload Hres Hsame.
  pose proof (put_store_same rq db loaded Hload) as Hstore.
  destruct rq as [k u | k u];
    cbn [handle_put put_role loaded_row rescores payload_items put_store] in *.
  - unfold update_lead. rewrite Hperm, Hload, Hres.
    cbv beta iota zeta delta [Py.bind fst snd negb].
    rewrite (setattr_items_same _ _ Hsame), commit_refresh_same.
    rewrite Hstore. reflexivity.
  - unfold update_task. rewrite Hperm, Hload.
    cbv beta iota zeta delta [negb].
    rewrite (setattr_items_same _ _ Hsame), commit_refresh_same.
    rewrite Hstore. reflexivity.
Qed.

(** X2. The role is checked before the row is looked up: without it the
    update is refused with 403 whatever the key and the payload; with it an
    unknown key gives 404; with it, a known key and no re-scoring the update
    succeeds; and an update never fails in any other way than these two or
    the error of the scoring service. *)
Theorem update_outcomes
  (generate_lead_score : list (string * value) -> result Q)
  (utcnow : Datetime.datetime) (rq : put_request) (current_user : Auth.User)
  (db : Session) :
  (Auth.check_permissions current_user (put_role rq) = false ->
   handle_put generate_lead_score utcnow rq current_user db
   = Raise (HTTPException 403 "Not enough permissions"))
  /\ (Auth.check_permissions current_user (put_role rq) = true ->
      loaded_row rq db = None ->
      handle_put generate_lead_score utcnow rq current_user db
      = Raise (HTTPException 404 (put_not_found rq)))
  /\ (Auth.check_permissions current_user (put_role rq) = true ->
      loaded_row rq db <> None ->
      rescores rq = false ->
      is_ok (handle_put generate_lead_score utcnow rq current_user db) = true)
  /\ (forall e : exception,
        handle_put generate_lead_score utcnow rq current_user db = Raise e ->
        e = HTTPException 403 "Not enough permissions"
        \/ e = HTTPException 404 (put_not_found rq)
        \/ (rescores rq = true
            /\ exists lead_data, generate_lead_score lead_data = Raise e)).
Proof.
  destruct rq as [k u | k u];
    cbn [handle_put put_role loaded_row rescores put_not_found].
  - unfold update_lead. repeat split.
    + intros ->. reflexivity.
    + intros -> ->. reflexivity.
    + intros -> Hload ->.
      destruct (query_filter_id_first (leads db) k); [reflexivity|].
      contradiction.
    + intros e.
      destruct (Auth.check_permissions current_user "sales"); cbn [negb].
      * destruct (query_filter_id_first (leads db) k).
        -- destruct (existsb (dict_contains (LeadUpdate_dict u))
                             ["company"; "industry"]).
           ++ destruct (generate_lead_score _) as [score|e'] eqn:Hgen;
                cbv beta iota delta [Py.bind]; [discriminate|].
              intros H. injection H as <-. right. right.
              split; [reflexivity|]. eexists. exact Hgen.
           ++ cbv beta iota delta [Py.bind]. discriminate.
        -- intros H. injection H as <-. right. left. reflexivity.
      * intros H. injection H as <-. left. reflexivity.
  - unfold update_task. repeat split.
    + intros ->. reflexivity.
    + intros -> ->. reflexivity.
    + intros -> Hload _.
      destruct (query_filter_id_first (tasks db) k); [reflexivity|].
      contradiction.
    + intros e.
      destruct (Auth.check_permissions current_user "manager"); cbn [negb].
      * destruct (query_filter_id_first (tasks db) k).
        -- discriminate.
        -- intros H. injection H as <-. right. left. reflexivity.
      * intros H. injection H as <-. left. reflexivity.
Qed.

Lemma update_outcomes_witness :
  handle_put sample_score sample_now (PutTask 4 sample_task_update)
             sample_user sample_db
  = Raise (HTTPException 403 "Not enough permissions")
  /\ handle_put sample_score sample_now (PutTask 9 sample_task_update)
                sample_manager sample_db
     = Raise (HTTPException 404 "Task not found")
  /\ is_ok (handle_put sample_score sample_now (PutTask 4 sample_task_update)
                       sample_manager sample_db) = true.
Proof.
  split; [|split].
  - apply (proj1 (update_outcomes sample_score sample_now
                    (PutTask 4 sample_task_update) sample_user sample_db)).
    reflexivity.
  - apply (proj1 (proj2 (update_outcomes sample_score sample_now
                           (PutTask 9 sample_task_update) sample_manager
                           sample_db))).
    + reflexivity.
    + vm_compute. reflexivity.
  - apply (proj1 (proj2 (proj2 (update_outcomes sample_score sample_now
                           (PutTask 4 sample_task_update) sample_manager
                           sample_db)))).
    + reflexivity.
    + assert (Hq : loaded_row (PutTask 4 sample_task_update) sample_db
                   = Some sample_task) by (vm_compute; reflexivity).
      rewrite Hq. discriminate.
    + reflexivity.
Defined.

(** X3. A successful update touches one row of one table: the other tables
    are the same, no row is added or removed, and every other key resolves
    to the row it resolved to before. *)
Theorem update_touches_one_row
  (generate_lead_score : list (string * value) -> result Q)
  (utcnow : Datetime.datetime) (rq : put_request) (current_user : Auth.User)
  (db db' : Session) (row : gmap string value) :
  handle_put generate_lead_score utcnow rq current_user db = Ok (db', row) ->
  customers db' = customers db
  /\ support_tickets db' = support_tickets db
  /\ workflows db' = workflows db
  /\ match rq with
     | PutLead _ _ => tasks db' = tasks db
     | PutTask _ _ => leads db' = leads db
     end
  /\ length (leads db') = length (leads db)
  /\ length (tasks db') = length (tasks db)
  /\ (forall k' : Z,
        k' <> put_key rq ->
        query_filter_id_first (leads db') k'
        = query_filter_id_first (leads db) k'
        /\ query_filter_id_first (tasks db') k'
           = query_filter_id_first (tasks db) k').
Proof.
  intros H.
  destruct (put_success _ _ _ _ _ _ _ H)
    as (_ & -> & loaded & Hload & _ & Hid & _).
  assert (Hother : forall k', k' <> put_key rq ->
                              has_key "id" (VInt k') row = false).
  { intros k' Hne.
    apply (has_key_other row (put_key rq) k'); [|exact Hne].
    rewrite (has_key_lookup "id" _ row loaded Hid).
    destruct rq as [k u | k u]; cbn [loaded_row put_key] in *;
      apply filter_head_some in Hload; apply Hload. }
  destruct rq as [k u | k u]; cbn [put_store put_key] in *; simpl;
    rewrite ?store_row_length; repeat split; try reflexivity;
    apply store_row_other; auto.
Qed.

Lemma update_touches_one_row_witness :
  customers (mk_Session [sample_lead] [] [sample_task_updated] [] [])
  = customers sample_db
  /\ support_tickets (mk_Session [sample_lead] [] [sample_task_updated] [] [])
     = support_tickets sample_db
  /\ workflows (mk_Session [sample_lead] [] [sample_task_updated] [] [])
     = workflows sample_db
  /\ leads (mk_Session [sample_lead] [] [sample_task_updated] [] [])
     = leads sample_db
  /\ length (leads (mk_Session [sample_lead] [] [sample_task_updated] [] []))
     = length (leads sample_db)
  /\ length (tasks (mk_Session [sample_lead] [] [sample_task_updated] [] []))
     = length (tasks sample_db)
  /\ (forall k' : Z,
        k' <> 4 ->
        query_filter_id_first
          (leads (mk_Session [sample_lead] [] [sample_task_updated] [] [])) k'
        = query_filter_id_first (leads sample_db) k'
        /\ query_filter_id_first
             (tasks (mk_Session [sample_lead] [] [sample_task_updated] [] []))
             k'
           = query_filter_id_first (tasks sample_db) k').
Proof.
  apply (update_touches_one_row sample_score sample_now
           (PutTask 4 sample_task_update) sample_manager sample_db
           (mk_Session [sample_lead] [] [sample_task_updated] [] [])
           sample_task_updated).
  vm_compute. reflexivity.
Defined.

(** X4. An update whose payload restates the values the row already holds
    (an empty payload in particular), and that does not ask for a new score,
    returns the row as it was, does not stamp [updated_at] and leaves the
    session as it was. *)
Theorem update_restating_is_noop
  (generate_lead_score : list (string * value) -> result Q)
  (utcnow : Datetime.datetime) (rq : put_request) (current_user : Auth.User)
  (db : Session) (loaded : gmap string value) :
  Auth.check_permissions current_user (put_role rq) = true ->
  loaded_row rq db = Some loaded ->
  rescores rq = false ->
  (forall f v, In (f, v) (payload_items rq) -> loaded !! f = Some v) ->
  handle_put generate_lead_score utcnow rq current_user db = Ok (db, loaded).
Proof. apply put_restating. Qed.

Lemma update_restating_is_noop_witness :
  handle_put sample_score sample_now
             (PutLead 1 (mk_LeadUpdate None None None (Some (Some "new")) None))
             sample_user sample_db
  = Ok (sample_db, sample_lead).
Proof.
  apply (update_restating_is_noop sample_score sample_now
           (PutLead 1 (mk_LeadUpdate None None None (Some (Some "new")) None))
           sample_user sample_db sample_lead).
  - reflexivity.
  - vm_compute. reflexivity.
  - reflexivity.
  - intros f v [Heq | []]. injection Heq as <- <-. vm_compute. reflexivity.
Defined.

(** X5. Updates that do not ask for a new score are idempotent: repeating
    a successful update on the session it produced, at any later time,
    returns the same row and the same session. *)
Theorem update_idempotent
  (generate_lead_score : list (string * value) -> result Q)
  (utcnow later : Datetime.datetime) (rq : put_request)
  (current_user : Auth.User) (db db' : Session) (row : gmap string value) :
  rescores rq = false ->
  handle_put generate_lead_score utcnow rq current_user db = Ok (db', row) ->
  handle_put generate_lead_score later rq current_user db' = Ok (db', row).
Proof.
  intros Hres H.
  destruct (put_success _ _ _ _ _ _ _ H)
    as (Hperm & _ & loaded & _ & Hset & _ & Hload').
  apply put_restating; assumption.
Qed.

Lemma update_idempotent_witness :
  handle_put sample_score new_year (PutTask 4 sample_task_update)
             sample_manager
             (mk_Session [sample_lead] [] [sample_task_updated] [] [])
  = Ok (mk_Session [sample_lead] [] [sample_task_updated] [] [],
        sample_task_updated).
Proof.
  apply (update_idempotent sample_score sample_now new_year
           (PutTask 4 sample_task_update) sample_manager sample_db).
  - reflexivity.
  - vm_compute. reflexivity.
Defined.

End UpdateOutcomeProps.

(** ** Retention, expenses and the recommendations endpoint *)

Module AnalysisProps.

Import Py Erp AIService ExpenseTerms RetentionTerms Samples.
Import RecommendationProps.

Lemma average_below (s n : Z) :
  0 < n ->
  negb (Qle_bool 365 (inject_Z s / inject_Z n)) = (s <? 365 * n).
Proof.
  intros Hn. destruct n as [|p|p]; try lia.
  unfold Qle_bool, Qdiv, Qmult, Qinv, inject_Z. simpl Qnum. simpl Qden.
  rewrite Z.ltb_antisym. f_equal.
  apply eq_true_iff_eq. rewrite !Z.leb_le. lia.
Qed.

Lemma retention_nonempty (now : Datetime.datetime)
  (employees : list Employee) :
  employees <> [] ->
  _analyze_employee_retention now employees
  = Ok (if total_tenure now employees <? 365 * Z.of_nat (length employees)
        then [retention_recommendation] else []).
Proof.
  intros Hne. unfold _analyze_employee_retention, total_tenure.
  rewrite length_map.
  destruct employees as [|emp rest]; [contradiction|].
  cbn [length Nat.eqb].
  rewrite average_below by lia.
  destruct (_ <? _); reflexivity.
Qed.

(** X6. For a staff that is not empty the retention analysis returns, and
    it recommends exactly when the tenures add up to less than 365 days per
    employee. *)
Theorem retention_fires_iff (now : Datetime.datetime)
  (employees : list Employee) :
  employees <> [] ->
  _analyze_employee_retention now employees
  = Ok (if total_tenure now employees <? 365 * Z.of_nat (length employees)
        then [retention_recommendation] else []).
Proof. apply retention_nonempty. Qed.

Lemma retention_fires_iff_witness :
  _analyze_employee_retention sample_now recent_staff
  = Ok (if total_tenure sample_now recent_staff
           <? 365 * Z.of_nat (length recent_staff)
        then [retention_recommendation] else []).
Proof.
  apply (retention_fires_iff sample_now recent_staff). discriminate.
Defined.

Lemma above_threshold (v T : Q) :
  (0 < T)%Q ->
  negb (Qle_bool (v / T) 0.3) = true <-> (0.3 * T < v)%Q.
Proof.
  intros HT. rewrite negb_true_iff.
  assert (Hv : (v / T * T == v)%Q) by (field; Lqa.lra).
  split.
  - intros H. apply Qnot_le_lt. intros Hle.
    assert (Hb : Qle_bool (v / T) 0.3 = true).
    { apply Qle_bool_iff. apply Qle_shift_div_r; [exact HT|]. exact Hle. }
    congruence.
  - intros H. destruct (Qle_bool (v / T) 0.3) eqn:Hb; [|reflexivity].
    apply Qle_bool_iff in Hb.
    assert (Hm : (v / T * T <= 0.3 * T)%Q)
      by (apply Qmult_le_compat_r; Lqa.lra).
    rewrite Hv in Hm. Lqa.lra.
Qed.

Lemma sum_values_cons (v : Q) (l : list Q) :
  (fold_left Qplus (v :: l) 0 == v + fold_left Qplus l 0)%Q.
Proof. simpl. rewrite fold_Qplus_acc. ring. Qed.

Lemma sum_values_nonneg (l : list Q) :
  Forall (fun v => 0 <= v)%Q l -> (0 <= fold_left Qplus l 0)%Q.
Proof.
  induction 1 as [|v l Hv _ IH].
  - simpl. Lqa.lra.
  - rewrite sum_values_cons. Lqa.lra.
Qed.

(** Each value above 30% of [T] takes its part of the sum. *)
Lemma large_values_bound (T : Q) (l : list Q) :
  (0 < T)%Q ->
  Forall (fun v => 0 <= v)%Q l ->
  (0.3 * T
   * inject_Z (Z.of_nat
                 (length (List.filter
                            (fun v => negb (Qle_bool (v / T) 0.3)) l)))
   <= fold_left Qplus l 0)%Q.
Proof.
  intros HT. induction 1 as [|v l Hv _ IH].
  - cbn [List.filter length fold_left].
    change (inject_Z (Z.of_nat 0)) with 0%Q. Lqa.lra.
  - rewrite sum_values_cons. cbn [List.filter].
    destruct (negb (Qle_bool (v / T) 0.3)) eqn:Hlarge.
    + apply above_threshold in Hlarge; [|exact HT].
      cbn [length]. rewrite Nat2Z.inj_succ, <- Z.add_1_r, inject_Z_plus.
      change (inject_Z 1) with 1%Q.
      set (K := inject_Z (Z.of_nat (length _))) in *.
      Lqa.nra.
    + Lqa.lra.
Qed.

Lemma large_values_count (l : list Q) :
  (0 < fold_left Qplus l 0)%Q ->
  Forall (fun v => 0 <= v)%Q l ->
  (length (List.filter
             (fun v => negb (Qle_bool (v / fold_left Qplus l 0%Q) 0.3)) l)
   <= 3)%nat.
Proof.
  intros HT Hl.
  pose proof (large_values_bound _ l HT Hl) as Hb.
  set (k := length _) in *.
  destruct (le_gt_dec k 3) as [Hk|Hk]; [exact Hk|exfalso].
  assert (HK : (4 <= inject_Z (Z.of_nat k))%Q).
  { change 4%Q with (inject_Z 4). rewrite <- Zle_Qle. lia. }
  set (T := fold_left Qplus l 0%Q) in *.
  set (K := inject_Z (Z.of_nat k)) in *.
  Lqa.nra.
Qed.

Lemma value_below_sum (l : list Q) (v : Q) :
  Forall (fun v => 0 <= v)%Q l -> In v l -> (v <= fold_left Qplus l 0)%Q.
Proof.
  induction 1 as [|w l Hw Hl IH]; intros Hin; [contradiction|].
  rewrite sum_values_cons.
  pose proof (sum_values_nonneg l Hl).
  destruct Hin as [-> | Hin]; [Lqa.lra|].
  specialize (IH Hin). Lqa.lra.
Qed.
Lemma type_eqb_eq (a b : TransactionType) : type_eqb a b = true -> a = b.
Proof. destruct a, b; simpl; congruence. Qed.

Lemma category_totals_nonneg (transactions : list Transaction) :
  (forall t, In t transactions -> type t = EXPENSE -> (0 <= Erp.amount t)%Q) ->
  Forall (fun v => 0 <= v)%Q
         (map snd (category_totals (expenses_of transactions))).
Proof.
  intros Hpos. apply List.Forall_forall. intros v Hin.
  apply in_map_iff in Hin as ([c w] & <- & Hin). simpl.
  rewrite (category_totals_item transactions c w Hin).
  unfold category_expense, sum_amounts. apply sum_values_nonneg.
  apply List.Forall_forall. intros a Ha.
  apply in_map_iff in Ha as (t & <- & Ht).
  apply List.filter_In in Ht as [Ht _].
  unfold expenses_of in Ht. apply List.filter_In in Ht as [Ht Htype].
  apply Hpos; [exact Ht | apply type_eqb_eq; exact Htype].
Qed.

Lemma filter_values (T : Q) (d : list (TransactionCategory * Q)) :
  map snd (List.filter (fun kv => negb (Qle_bool (snd kv / T) 0.3)) d)
  = List.filter (fun v => negb (Qle_bool (v / T) 0.3)) (map snd d).
Proof.
  induction d as [|[c v] d IH]; simpl; [reflexivity|].
  destruct (negb (Qle_bool (v / T) 0.3)); simpl; rewrite IH; reflexivity.
Qed.



(** *** The recommendations endpoint *)

Lemma analyze_invoices_ok (now : Datetime.datetime)
  (invoices : list Invoice) :
  exists recs : list AIRecommendation,
    _analyze_invoices now invoices = Ok recs /\ (length recs <= 1)%nat.
Proof.
  unfold _analyze_invoices.
  destruct (List.filter _ invoices); eexists; split; try reflexivity;
    simpl; lia.
Qed.

(** X8. The recommendations endpoint needs staff: with an empty employee
    table it raises [ZeroDivisionError] for every role, and a call that
    returns was made by an administrator or an HR manager over a table with
    at least one employee. *)
Theorem recommendations_need_staff (now : Datetime.datetime)
  (current_user : User) (db : Session) :
  (employees db = [] ->
   ErpEndpoints.get_ai_recommendations now current_user db
   = Raise ZeroDivisionError)
  /\ (forall recs : list AIRecommendation,
        ErpEndpoints.get_ai_recommendations now current_user db = Ok recs ->
        (role current_user = ADMIN \/ role current_user = HR_MANAGER)
        /\ employees db <> []).
Proof.
  assert (Hempty : employees db = [] ->
                   ErpEndpoints.get_ai_recommendations now current_user db
                   = Raise ZeroDivisionError).
  { intros Hnone. unfold ErpEndpoints.get_ai_recommendations.
    destruct (role current_user); cbn [fst snd]; rewrite ?Hnone;
      apply generate_recommendations_no_employee. }
  split; [exact Hempty|].
  intros recs H. split.
  - unfold ErpEndpoints.get_ai_recommendations in H.
    destruct (role current_user); cbn [fst snd] in H;
      try (left; reflexivity); try (right; reflexivity);
      rewrite generate_recommendations_no_employee in H; discriminate.
  - intros Hnone. rewrite (Hempty Hnone) in H. discriminate.
Qed.

Lemma recommendations_need_staff_witness :
  ErpEndpoints.get_ai_recommendations sample_now (mk_User 1 ADMIN true)
    (mk_Session sample_transactions [] sample_invoices)
  = Raise ZeroDivisionError.
Proof.
  apply (proj1 (recommendations_need_staff sample_now (mk_User 1 ADMIN true)
                  (mk_Session sample_transactions [] sample_invoices))).
  reflexivity.
Defined.

(** X9. With staff, an HR manager gets the retention analysis alone, at
    most one recommendation, and the call cannot fail; an administrator
    whose expense analysis returns gets its recommendations first, then the
    retention one, then the invoice one. *)
Theorem recommendations_by_role (now : Datetime.datetime)
  (current_user : User) (db : Session) :
  employees db <> [] ->
  (role current_user = HR_MANAGER ->
   ErpEndpoints.get_ai_recommendations now current_user db
   = Ok (if total_tenure now (employees db)
            <? 365 * Z.of_nat (length (employees db))
         then [retention_recommendation] else []))
  /\ (role current_user = ADMIN ->
      forall expense_recs : list AIRecommendation,
        _analyze_expenses (transactions db) = Ok expense_recs ->
        exists retention_recs invoice_recs : list AIRecommendation,
          _analyze_employee_retention now (employees db) = Ok retention_recs
          /\ _analyze_invoices now (invoices db) = Ok invoice_recs
          /\ ErpEndpoints.get_ai_recommendations now current_user db
             = Ok (expense_recs ++ retention_recs ++ invoice_recs)).
Proof.
  intros Hstaff. pose proof (retention_nonempty now _ Hstaff) as Hret.
  unfold ErpEndpoints.get_ai_recommendations. split.
  - intros ->. cbn [fst snd]. unfold generate_recommendations.
    rewrite Hret.
    change (_analyze_expenses []) with (@Ok (list AIRecommendation) []).
    change (_analyze_invoices now []) with (@Ok (list AIRecommendation) []).
    cbv beta iota delta [Py.bind]. cbn [app]. rewrite app_nil_r. reflexivity.
  - intros -> expense_recs Hexp. cbn [fst snd].
    destruct (analyze_invoices_ok now (invoices db)) as (invoice_recs & Hinv & _).
    eexists _, invoice_recs. split; [exact Hret|]. split; [exact Hinv|].
    unfold generate_recommendations. rewrite Hexp, Hret, Hinv.
    cbv beta iota delta [Py.bind]. cbn [app]. rewrite app_assoc. reflexivity.
Qed.

Lemma recommendations_by_role_witness :
  ErpEndpoints.get_ai_recommendations sample_now (mk_User 2 HR_MANAGER true)
    sample_erp_db
  = Ok (if total_tenure sample_now (employees sample_erp_db)
           <? 365 * Z.of_nat (length (employees sample_erp_db))
        then [retention_recommendation] else []).
Proof.
  apply (proj1 (recommendations_by_role sample_now (mk_User 2 HR_MANAGER true)
                  sample_erp_db ltac:(discriminate))).
  reflexivity.
Defined.

End AnalysisProps.

(** ** More on the forecast *)

Module ForecastEdgeProps.

Import Py Float64 Pandas AIService ForecastTerms PandasProps ForecastProps.
Import Samples MoreSamples.
Local Open Scope R_scope.

Lemma last_default {A : Type} (s : list A) (x d d' : A) :
  List.last (x :: s) d = List.last (x :: s) d'.
Proof.
  revert x. induction s as [|y s IH]; intros x; [reflexivity|].
  change (List.last (y :: s) d = List.last (y :: s) d'). apply IH.
Qed.

Lemma pct_change_from_app (s t : list R) :
  forall previous,
    pct_change_from previous (s ++ t)
    = pct_change_from previous s ++ pct_change_from (List.last s previous) t.
Proof.
  induction s as [|x s IH]; intros previous; cbn [app pct_change_from].
  - reflexivity.
  - rewrite IH. destruct s as [|y s]; [reflexivity|].
    change (List.last (x :: y :: s) previous)
      with (List.last (y :: s) previous).
    rewrite (last_default s y previous x). reflexivity.
Qed.

Lemma growth_of (a p : R) :
  p <> 0 -> sub (div (Fin a) (Fin p)) (Fin 1) = Fin (a / p - 1).
Proof.
  intros Hp. unfold div. destruct (Req_dec_T p 0); [contradiction|].
  reflexivity.
Qed.

(** The last growth rate of a series that ends with [p], [a]. *)
Lemma last_growth_rate (s : list R) (p a : R) :
  iloc_last (pct_change (s ++ [p; a]))
  = Ok (sub (div (Fin a) (Fin p)) (Fin 1)).
Proof.
  destruct s as [|x s]; cbn [app pct_change].
  - reflexivity.
  - rewrite pct_change_from_app. cbn [pct_change_from].
    match goal with
    | |- context [?l ++ [?u; ?v]] =>
        change (l ++ [u; v]) with (l ++ [u] ++ [v])
    end.
    rewrite app_assoc, app_comm_cons. apply iloc_last_snoc.
Qed.

Lemma last_amount (s : list R) (p a : R) : iloc_last (s ++ [p; a]) = Ok a.
Proof.
  change (s ++ [p; a]) with (s ++ [p] ++ [a]). rewrite app_assoc.
  apply iloc_last_snoc.
Qed.

(** *** Sums that meet NaN or an infinity *)

Lemma sum_from_nan (l : list float64) : fold_left add l NaN = NaN.
Proof. induction l as [|x l IH]; [reflexivity | exact IH]. Qed.

Lemma sum_with_nan (l : list float64) :
  forall acc, In NaN l -> fold_left add l acc = NaN.
Proof.
  induction l as [|x l IH]; intros acc Hin; [contradiction|].
  cbn [fold_left]. destruct Hin as [-> | Hin].
  - replace (add acc NaN) with NaN by (destruct acc; reflexivity).
    apply sum_from_nan.
  - apply IH. exact Hin.
Qed.

Lemma sum_from_inf (s : bool) (l : list float64) :
  forall acc,
    acc = NaN \/ acc = Inf s ->
    fold_left add l acc = NaN \/ fold_left add l acc = Inf s.
Proof.
  induction l as [|x l IH]; intros acc Hacc; [exact Hacc|].
  cbn [fold_left]. apply IH.
  destruct Hacc as [-> | ->]; [left; reflexivity|].
  destruct x as [|t|x]; cbn [add].
  - left. reflexivity.
  - destruct (Bool.eqb s t); [right | left]; reflexivity.
  - right. reflexivity.
Qed.

Lemma sum_with_inf (s : bool) (l : list float64) :
  forall acc,
    In (Inf s) l ->
    fold_left add l acc = NaN \/ fold_left add l acc = Inf s.
Proof.
  induction l as [|x l IH]; intros acc Hin; [contradiction|].
  cbn [fold_left]. destruct Hin as [-> | Hin].
  - apply sum_from_inf. destruct acc as [|t|y]; cbn [add].
    + left. reflexivity.
    + destruct (Bool.eqb t s) eqn:Hts; [|left; reflexivity].
      apply Bool.eqb_prop in Hts. subst t. right. reflexivity.
    + right. reflexivity.
  - apply IH. exact Hin.
Qed.

Lemma INR_count_positive (n : nat) : (1 <= n)%nat -> 0 < INR n.
Proof. intros Hn. apply lt_0_INR. lia. Qed.

(** One infinite value makes the sample deviation NaN. *)
Lemma std_with_inf (rates : list float64) (s : bool) :
  In (Inf s) rates -> std rates = NaN.
Proof.
  intros Hin. unfold std, var.
  assert (Hv : In (Inf s) (notna rates))
    by (apply List.filter_In; split; [exact Hin | reflexivity]).
  set (values := notna rates) in *.
  destruct (length values <=? 1)%nat eqn:Hcount; [reflexivity|].
  apply Nat.leb_gt in Hcount.
  assert (Havg : div (sum values) (Fin (INR (length values))) = NaN
                 \/ div (sum values) (Fin (INR (length values))) = Inf s).
  { pose proof (INR_count_positive (length values) ltac:(lia)) as Hpos.
    destruct (sum_with_inf s values (Fin 0) Hv) as [Hs | Hs];
      unfold sum; rewrite Hs; cbn [div]; [left; reflexivity|].
    right. unfold negative_sign.
    destruct (Rlt_dec (INR (length values)) 0); [lra|].
    rewrite xorb_false_r. reflexivity. }
  set (avg := div (sum values) (Fin (INR (length values)))) in *.
  assert (Hsq : In NaN (map (fun x => mul (sub avg x) (sub avg x)) values)).
  { apply in_map_iff. exists (Inf s). split; [|exact Hv].
    destruct Havg as [-> | ->]; cbn [sub]; [reflexivity|].
    rewrite Bool.eqb_reflx. reflexivity. }
  unfold sum at 1. rewrite (sum_with_nan _ (Fin 0) Hsq). reflexivity.
Qed.

Lemma zero_month_rate (s1 s2 : list R) (a : R) :
  a <> 0 ->
  In (Inf (negative_sign a)) (pct_change (s1 ++ [0; a] ++ s2)).
Proof.
  intros Ha.
  assert (Hg : sub (div (Fin a) (Fin 0)) (Fin 1) = Inf (negative_sign a)).
  { unfold div. destruct (Req_dec_T 0 0); [|contradiction].
    destruct (Req_dec_T a 0); [contradiction|]. reflexivity. }
  destruct s1 as [|x s1]; cbn [app pct_change pct_change_from].
  - rewrite Hg. right. left. reflexivity.
  - rewrite pct_change_from_app. cbn [pct_change_from]. rewrite Hg.
    right. apply in_or_app. right. right. left. reflexivity.
Qed.

(** The forecast of a series that is not empty. *)
Lemma forecast_of_series (df : list df_row) :
  monthly_amounts df <> [] ->
  exists (a : R) (g : float64),
    _generate_forecast df
    = Ok (mk_FinancialForecast
            (mul (Fin a) (add (Fin 1) g))
            (mul (Fin a) (Fin 0.8))
            (max0 (sub (Fin 1) (std (growth_rates df))))
            (expected_factors (monthly_amounts df))).
Proof.
  intros Hne. rewrite generate_forecast_eq by exact Hne.
  unfold growth_rates.
  destruct (monthly_amounts df) as [|x s]; [contradiction|].
  rewrite iloc_last_cons. cbn [Py.bind pct_change].
  rewrite iloc_last_cons. cbn [Py.bind]. eexists _, _. reflexivity.
Qed.

Lemma no_volatility_factor (amounts : list R) :
  std (pct_change amounts) = NaN ->
  ~ In "High revenue volatility" (expected_factors amounts).
Proof.
  intros Hstd. unfold expected_factors, high_volatility. rewrite Hstd.
  cbn [gtb]. rewrite app_nil_r.
  destruct (upward_trend (pct_change amounts)),
    (declining_trend (pct_change amounts)), (seasonal_variation amounts);
    simpl; intuition discriminate.
Qed.

(** X11. A month whose total is zero, followed by a month whose total is
    not, makes a growth rate infinite; the deviation of the growth rates is
    then NaN, the confidence score 0, and the volatility factor absent,
    whatever the other months. *)
Theorem zero_month_voids_confidence (df : list df_row) (s1 s2 : list R)
  (a : R) :
  monthly_amounts df = s1 ++ [0; a] ++ s2 ->
  a <> 0 ->
  exists r : FinancialForecast,
    _generate_forecast df = Ok r
    /\ confidence_score r = Fin 0
    /\ ~ In "High revenue volatility" (factors r).
Proof.
  intros Hm Ha.
  assert (Hstd : std (growth_rates df) = NaN).
  { unfold growth_rates. rewrite Hm.
    apply (std_with_inf _ (negative_sign a)). apply zero_month_rate.
    exact Ha. }
  destruct (forecast_of_series df) as (x & g & Hf).
  { rewrite Hm. destruct s1; discriminate. }
  eexists. split; [exact Hf|]. cbn [confidence_score factors].
  rewrite Hstd. split; [reflexivity|].
  apply no_volatility_factor. exact Hstd.
Qed.

Lemma zero_month_voids_confidence_witness :
  exists r : FinancialForecast,
    _generate_forecast gap_months = Ok r
    /\ confidence_score r = Fin 0
    /\ ~ In "High revenue volatility" (factors r).
Proof.
  apply (zero_month_voids_confidence gap_months [100] [] 50).
  - reflexivity.
  - lra.
Defined.

(** X12. When the total of the month before the last is zero the division
    is not guarded: the predicted revenue is plus infinity if the last total
    is not zero (of either sign) and NaN if it is zero. *)
Theorem zero_previous_month_revenue (df : list df_row) (s : list R) (a : R) :
  monthly_amounts df = s ++ [0; a] ->
  exists r : FinancialForecast,
    _generate_forecast df = Ok r
    /\ predicted_revenue r = (if Req_dec_T a 0 then NaN else Inf false).
Proof.
  intros Hm.
  rewrite generate_forecast_eq
    by (rewrite Hm; intros E; apply app_eq_nil in E; destruct E;
        discriminate).
  unfold growth_rates.
  rewrite Hm, last_amount, last_growth_rate.
  cbv beta iota delta [Py.bind].
  eexists. split; [reflexivity|]. cbn [predicted_revenue].
  unfold div. destruct (Req_dec_T 0 0); [|contradiction].
  destruct (Req_dec_T a 0) as [Ha|Ha]; [reflexivity|].
  cbn [sub add mul]. destruct (Req_dec_T a 0); [contradiction|].
  rewrite xorb_nilpotent. reflexivity.
Qed.

Lemma zero_previous_month_revenue_witness :
  exists r : FinancialForecast,
    _generate_forecast gap_months = Ok r
    /\ predicted_revenue r = (if Req_dec_T 50 0 then NaN else Inf false).
Proof.
  apply (zero_previous_month_revenue gap_months [100] 50). reflexivity.
Defined.

(** X13. With exactly two periods there is a single growth rate, its
    sample deviation is NaN, and the forecast has confidence 0 and no
    volatility factor, whatever the two totals. *)
Theorem two_periods_no_confidence (df : list df_row) (p a : R) :
  monthly_amounts df = [p; a] ->
  exists r : FinancialForecast,
    _generate_forecast df = Ok r
    /\ confidence_score r = Fin 0
    /\ ~ In "High revenue volatility" (factors r).
Proof.
  intros Hm.
  assert (Hstd : std (growth_rates df) = NaN).
  { unfold growth_rates. rewrite Hm. cbn [pct_change pct_change_from].
    unfold std, var, notna. cbn [List.filter isnan negb].
    destruct (isnan (sub (div (Fin a) (Fin p)) (Fin 1))); reflexivity. }
  destruct (forecast_of_series df) as (x & g & Hf).
  { rewrite Hm. discriminate. }
  eexists. split; [exact Hf|]. cbn [confidence_score factors].
  rewrite Hstd. split; [reflexivity|].
  apply no_volatility_factor. exact Hstd.
Qed.

Lemma two_periods_no_confidence_witness :
  exists r : FinancialForecast,
    _generate_forecast two_months = Ok r
    /\ confidence_score r = Fin 0
    /\ ~ In "High revenue volatility" (factors r).
Proof.
  apply (two_periods_no_confidence two_months 100 110).
  exact two_months_amounts.
Defined.

(** *** A flat history *)

Lemma last_repeat {A : Type} (x : A) (n : nat) : List.last (repeat x n) x = x.
Proof.
  induction n as [|n IH]; [reflexivity|].
  cbn [repeat]. destruct n; [reflexivity | exact IH].
Qed.

Lemma skipn_repeat {A : Type} (x : A) (n k : nat) :
  skipn k (repeat x n) = repeat x (n - k).
Proof.
  revert k. induction n as [|n IH]; intros [|k]; cbn [repeat skipn Nat.sub];
    try reflexivity. apply IH.
Qed.

Lemma notna_repeat (c : R) (m : nat) :
  notna (repeat (Fin c) m) = repeat (Fin c) m.
Proof.
  unfold notna. induction m as [|m IH]; [reflexivity|].
  cbn [repeat List.filter isnan negb]. rewrite IH. reflexivity.
Qed.

Lemma sum_repeat (c : R) (m : nat) :
  forall x, fold_left add (repeat (Fin c) m) (Fin x) = Fin (x + INR m * c).
Proof.
  induction m as [|m IH]; intros x.
  - cbn [repeat fold_left INR]. f_equal. ring.
  - cbn [repeat fold_left add]. rewrite IH, S_INR. f_equal. ring.
Qed.

Lemma mean_repeat (c : R) (m : nat) :
  (1 <= m)%nat -> mean (repeat (Fin c) m) = Fin c.
Proof.
  intros Hm. unfold mean. rewrite notna_repeat.
  pose proof (INR_count_positive m Hm) as Hpos.
  destruct m as [|m]; [lia|]. cbn [repeat].
  change (Fin c :: repeat (Fin c) m) with (repeat (Fin c) (S m)).
  unfold sum. rewrite sum_repeat, repeat_length. unfold div.
  destruct (Req_dec_T (INR (S m)) 0); [lra|]. f_equal. field. lra.
Qed.

Lemma std_repeat (c : R) (m : nat) :
  (2 <= m)%nat -> std (repeat (Fin c) m) = Fin 0.
Proof.
  intros Hm. unfold std, var. rewrite notna_repeat, repeat_length.
  destruct (m <=? 1)%nat eqn:Hle; [apply Nat.leb_le in Hle; lia|].
  pose proof (INR_count_positive m ltac:(lia)) as Hpos.
  assert (Hm1 : 0 < INR m - 1).
  { assert (H2 : INR 2 <= INR m) by (apply le_INR; exact Hm).
    simpl in H2. lra. }
  assert (Havg : div (sum (repeat (Fin c) m)) (Fin (INR m)) = Fin c).
  { unfold sum. rewrite sum_repeat. unfold div.
    destruct (Req_dec_T (INR m) 0); [lra|]. f_equal. field. lra. }
  rewrite Havg, map_repeat.
  replace (mul (sub (Fin c) (Fin c)) (sub (Fin c) (Fin c))) with (Fin 0)
    by (cbn [sub mul]; f_equal; ring).
  unfold sum. rewrite sum_repeat. unfold div.
  destruct (Req_dec_T (INR m - 1) 0); [lra|].
  replace ((0 + INR m * 0) / (INR m - 1)) with 0 by (field; lra).
  unfold sqrt. destruct (Rlt_dec 0 0); [lra|]. rewrite sqrt_0. reflexivity.
Qed.

Lemma pct_change_repeat (a : R) (m : nat) :
  a <> 0 -> pct_change (repeat a (S m)) = NaN :: repeat (Fin 0) m.
Proof.
  intros Ha. cbn [repeat pct_change]. f_equal.
  induction m as [|m IH]; [reflexivity|].
  cbn [repeat pct_change_from]. rewrite IH, (growth_of a a Ha).
  f_equal. f_equal. field. exact Ha.
Qed.

Lemma mean_skip_nan (l : list float64) : mean (NaN :: l) = mean l.
Proof. reflexivity. Qed.

Lemma std_skip_nan (l : list float64) : std (NaN :: l) = std l.
Proof. reflexivity. Qed.



(** *** What the forecast reads of a transaction *)

Lemma generate_forecast_ext (df df' : list df_row) :
  map (fun r => (Datetime.to_period_M (df_date r), df_amount r)) df
  = map (fun r => (Datetime.to_period_M (df_date r), df_amount r)) df' ->
  _generate_forecast df = _generate_forecast df'.
Proof.
  intros Heq.
  destruct df as [|r rows], df' as [|r' rows']; try discriminate;
    [reflexivity|].
  unfold _generate_forecast, monthly_frame. rewrite Heq. reflexivity.
Qed.

(** X15. The forecast reads the calendar month and the amount of a
    transaction and nothing else: two lists of transactions that agree on
    these, record by record, get the same outcome, so that income and
    expenses are added together and the day, the category and the type play
    no role. *)
Theorem forecast_reads_month_and_amount
  (transactions transactions' : list Erp.Transaction) :
  map (fun t => (Datetime.to_period_M (Erp.date t), Erp.amount t))
      transactions
  = map (fun t => (Datetime.to_period_M (Erp.date t), Erp.amount t))
        transactions' ->
  analyze_financial_data transactions = analyze_financial_data transactions'.
Proof.
  intros Heq. unfold analyze_financial_data.
  set (row := fun t : Erp.Transaction =>
                mk_df_row (Erp.date t) (Q2R (Erp.amount t)) (Erp.type t)
                          (Erp.category t)).
  assert (Hkeys :
    map (fun r => (Datetime.to_period_M (df_date r), df_amount r))
        (map row transactions)
    = map (fun r => (Datetime.to_period_M (df_date r), df_amount r))
          (map row transactions')).
  { rewrite !map_map. cbn [row df_date df_amount].
    apply (f_equal (map (fun pa : Z * Q => (fst pa, Q2R (snd pa))))) in Heq.
    rewrite !map_map in Heq. exact Heq. }
  rewrite (generate_forecast_ext _ _ Hkeys).
  destruct transactions as [|t ts], transactions' as [|t' ts'];
    try discriminate; reflexivity.
Qed.

Lemma forecast_reads_month_and_amount_witness :
  analyze_financial_data booked = analyze_financial_data rebooked.
Proof.
  apply (forecast_reads_month_and_amount booked rebooked). reflexivity.
Defined.

End ForecastEdgeProps.

(** ** The forecast and statistics endpoints *)

Module ErpDashboardProps.

Import Py Erp AIService ErpDashboard Samples MoreSamples.
Import ForecastProps.

Lemma analyze_financial_data_returns (transactions : list Transaction) :
  transactions <> [] ->
  exists r : FinancialForecast, analyze_financial_data transactions = Ok r.
Proof.
  intros Hne. unfold analyze_financial_data.
  destruct transactions as [|t ts]; [contradiction|].
  cbn [map]. apply forecast_returns. discriminate.
Qed.

(** X16. The forecast endpoint refuses HR and operations managers with
    403; for an administrator or a finance manager it fails with the key
    error of the empty frame when no transaction is dated within the last
    365 days, and returns a forecast as soon as one is. *)
Theorem financial_forecast_outcomes (now : Datetime.datetime)
  (current_user : User) (db : Session) :
  (role current_user = HR_MANAGER \/ role current_user = OPERATIONS_MANAGER ->
   get_financial_forecast now current_user db
   = Raise (HTTPException 403
              "Not authorized to access financial forecasts"))
  /\ (role current_user = ADMIN \/ role current_user = FINANCE_MANAGER ->
      (List.filter (fun t => since_days now 365 (date t)) (transactions db)
       = [] ->
       get_financial_forecast now current_user db = Raise (KeyError "type"))
      /\ (List.filter (fun t => since_days now 365 (date t)) (transactions db)
          <> [] ->
          exists r : FinancialForecast,
            get_financial_forecast now current_user db = Ok r)).
Proof.
  unfold get_financial_forecast. split.
  - intros [-> | ->]; reflexivity.
  - intros Hrole.
    assert (Hgate : negb (existsb (role_eqb (role current_user))
                                  [ADMIN; FINANCE_MANAGER]) = false)
      by (destruct Hrole as [-> | ->]; reflexivity).
    rewrite Hgate. split.
    + intros ->. reflexivity.
    + apply analyze_financial_data_returns.
Qed.

Lemma financial_forecast_outcomes_witness :
  get_financial_forecast sample_now operations_manager sample_erp_db
  = Raise (HTTPException 403 "Not authorized to access financial forecasts")
  /\ get_financial_forecast (Datetime.mk_datetime 2030 1 1 0 0 0 0)
       finance_manager sample_erp_db
     = Raise (KeyError "type")
  /\ exists r : FinancialForecast,
       get_financial_forecast sample_now finance_manager sample_erp_db = Ok r.
Proof.
  split; [|split].
  - apply (proj1 (financial_forecast_outcomes sample_now operations_manager
                    sample_erp_db)).
    right. reflexivity.
  - apply (proj1 (proj2 (financial_forecast_outcomes
                           (Datetime.mk_datetime 2030 1 1 0 0 0 0)
                           finance_manager sample_erp_db)
                        (or_intror eq_refl))).
    vm_compute. reflexivity.
  - apply (proj2 (proj2 (financial_forecast_outcomes sample_now
                           finance_manager sample_erp_db)
                        (or_intror eq_refl))).
    vm_compute. discriminate.
Defined.

Lemma income_or_expense (t : Transaction) :
  type_eqb (type t) INCOME || type_eqb (type t) EXPENSE = true.
Proof. destruct (type t); reflexivity. Qed.

(** X17. What the role changes in the dashboard statistics: an
    administrator and a finance manager get the same statistics; every other
    role gets a revenue and expenses of zero; and the head count, the number
    of pending invoices and the notifications are the same for every
    role. *)
Theorem dashboard_stats_by_role (end_date now : Datetime.datetime)
  (current_user other_user : User) (db : Session)
  (notification_table : list Notification) :
  let stats :=
    get_dashboard_stats end_date now current_user db notification_table in
  let other :=
    get_dashboard_stats end_date now other_user db notification_table in
  employee_count stats = employee_count other
  /\ pending_invoices stats = pending_invoices other
  /\ notifications stats = notifications other
  /\ ((role current_user = ADMIN \/ role current_user = FINANCE_MANAGER) ->
      (role other_user = ADMIN \/ role other_user = FINANCE_MANAGER) ->
      stats = other)
  /\ ((role current_user = HR_MANAGER
       \/ role current_user = OPERATIONS_MANAGER) ->
      total_revenue stats = 0%Q /\ total_expenses stats = 0%Q
      /\ (net_profit stats == 0)%Q).
Proof.
  cbv zeta. unfold get_dashboard_stats.
  cbn [employee_count pending_invoices notifications total_revenue
       total_expenses net_profit].
  repeat split; try reflexivity.
  - intros Hrole Hother.
    assert (Hsame : forall f : Transaction -> bool,
               List.filter
                 (fun t => f t && (type_eqb (type t) INCOME
                                   || type_eqb (type t) EXPENSE))
                 (transactions db)
               = List.filter f (transactions db)).
    { intros f. apply List.filter_ext. intros t.
      rewrite income_or_expense, andb_true_r. reflexivity. }
    destruct Hrole as [-> | ->], Hother as [-> | ->];
      rewrite ?Hsame; reflexivity.
  - destruct H as [-> | ->]; reflexivity.
  - destruct H as [-> | ->]; reflexivity.
  - destruct H as [-> | ->]; reflexivity.
Qed.

Lemma dashboard_stats_by_role_witness :
  get_dashboard_stats sample_now sample_now finance_manager sample_erp_db []
  = get_dashboard_stats sample_now sample_now (mk_User 1 ADMIN true)
                        sample_erp_db []
  /\ total_revenue (get_dashboard_stats sample_now sample_now
                                        operations_manager sample_erp_db [])
     = 0%Q.
Proof.
  split.
  - apply (proj1 (proj2 (proj2 (proj2
             (dashboard_stats_by_role sample_now sample_now finance_manager
                (mk_User 1 ADMIN true) sample_erp_db []))))).
    + right. reflexivity.
    + left. reflexivity.
  - apply (proj1 (proj2 (proj2 (proj2 (proj2
             (dashboard_stats_by_role sample_now sample_now
                operations_manager operations_manager sample_erp_db []))))
             (or_intror eq_refl))).
Defined.

End ErpDashboardProps.

(** ** Creating and deleting rows *)

Module StoreWriteProps.

Import Py Store StoreWrites CreateTerms Samples WriteSamples.
Import StoreProps UpdateOutcomeProps.

Lemma has_key_id (o : gmap string value) (n k : Z) :
  o !! "id" = Some (VInt n) -> has_key "id" (VInt k) o = (n =? k).
Proof. intros H. unfold has_key. rewrite H. reflexivity. Qed.

Lemma lead_row (new_id : Z) (created_at updated_at : Datetime.datetime)
  (lead : LeadCreate) (score : Q) :
  let row :=
    add_commit_refresh new_id created_at updated_at Lead_defaults
      (construct [("email", VStr (lc_email lead));
                  ("name", VStr (lc_name lead));
                  ("company", VStr (lc_company lead));
                  ("phone", optional VStr (lc_phone lead));
                  ("source", optional VStr (lc_source lead));
                  ("score", VFloat score)]) in
  row !! "id" = Some (VInt new_id)
  /\ (forall f v, In (f, v) (LeadCreate_dict lead) -> getattr row f = v)
  /\ getattr row "created_at" = VDateTime created_at
  /\ getattr row "updated_at" = VDateTime updated_at
  /\ getattr row "status" = VStr "new"
  /\ getattr row "score" = VFloat score.
Proof.
  cbv zeta. repeat split; try (vm_compute; reflexivity).
  intros f v Hin. unfold LeadCreate_dict in Hin. cbn [In] in Hin.
  repeat (destruct Hin as [Heq | Hin];
          [injection Heq as <- <-; vm_compute; reflexivity|]).
  contradiction.
Qed.

Lemma customer_row (new_id : Z) (created_at updated_at : Datetime.datetime)
  (customer : CustomerCreate) :
  let row :=
    add_commit_refresh new_id created_at updated_at Customer_defaults
      (construct (CustomerCreate_dict customer)) in
  row !! "id" = Some (VInt new_id)
  /\ (forall f v, In (f, v) (CustomerCreate_dict customer) ->
                  getattr row f = v)
  /\ getattr row "created_at" = VDateTime created_at
  /\ getattr row "updated_at" = VDateTime updated_at.
Proof.
  cbv zeta. repeat split; try (vm_compute; reflexivity).
  intros f v Hin. unfold CustomerCreate_dict in Hin. cbn [In] in Hin.
  repeat (destruct Hin as [Heq | Hin];
          [injection Heq as <- <-; vm_compute; reflexivity|]).
  contradiction.
Qed.

Lemma task_row (new_id : Z) (created_at updated_at : Datetime.datetime)
  (task : TaskCreate) (creator : Z) :
  let row :=
    add_commit_refresh new_id created_at updated_at Task_defaults
      (construct [("title", VStr (tc_title task));
                  ("description", VStr (tc_description task));
                  ("priority", VStr (tc_priority task));
                  ("due_date", optional VDateTime (tc_due_date task));
                  ("assigned_to", VInt creator)]) in
  row !! "id" = Some (VInt new_id)
  /\ (forall f v, In (f, v) (post_items (PostTask task)) ->
                  getattr row f = v)
  /\ getattr row "created_at" = VDateTime created_at
  /\ getattr row "updated_at" = VDateTime updated_at
  /\ getattr row "status" = VStr "pending"
  /\ getattr row "assigned_to" = VInt creator.
Proof.
  cbv zeta. repeat split; try (vm_compute; reflexivity).
  intros f v Hin. unfold post_items in Hin. cbn [In] in Hin.
  repeat (destruct Hin as [Heq | Hin];
          [injection Heq as <- <-; vm_compute; reflexivity|]).
  contradiction.
Qed.

(** What a successful creation did. *)
Lemma post_success
  (generate_lead_score : list (string * value) -> result Q)
  (new_id : Z) (created_at updated_at : Datetime.datetime)
  (rq : post_request) (current_user : Auth.User) (db db' : Session)
  (row : gmap string value) :
  handle_post generate_lead_score new_id created_at updated_at rq
              current_user db = Ok (db', row) ->
  Auth.check_permissions current_user (post_role rq) = true
  /\ post_ready generate_lead_score rq db = true
  /\ db' = post_store rq db row
  /\ row !! "id" = Some (VInt new_id)
  /\ (forall f v, In (f, v) (post_items rq) -> getattr row f = v)
  /\ getattr row "created_at" = VDateTime created_at
  /\ getattr row "updated_at" = VDateTime updated_at
  /\ post_fixed generate_lead_score rq current_user row.
Proof.
  destruct rq as [lead | customer | task];
    cbn [handle_post post_role post_ready post_store post_items post_fixed];
    unfold create_lead, create_customer, create_task;
    destruct (Auth.check_permissions current_user _); cbn [negb];
    try discriminate.
  - destruct (generate_lead_score (LeadCreate_dict lead)) as [score|e] eqn:Hs;
      cbv beta iota zeta delta [bind]; [|discriminate].
    intros H. injection H as <- <-.
    destruct (lead_row new_id created_at updated_at lead score)
      as (Hid & Hit & Hc & Hu & Hst & Hsc).
    repeat split; try assumption. exists score. split; [reflexivity|].
    assumption.
  - destruct (query_filter_id_first (leads db) (cc_lead_id customer));
      [|discriminate].
    intros H. injection H as <- <-.
    destruct (customer_row new_id created_at updated_at customer)
      as (Hid & Hit & Hc & Hu).
    repeat split; assumption.
  - intros H. injection H as <- <-.
    destruct (task_row new_id created_at updated_at task
                       (Auth.id current_user))
      as (Hid & Hit & Hc & Hu & Hst & Has).
    repeat split; assumption.
Qed.

(** X18. The outcomes of a creation.  A caller without the role of the
    handler gets 403, whatever the scoring service would answer and whether
    or not the lead of a customer exists.  A permitted caller gets 404 for a
    customer whose lead is missing and the error of the scoring service for
    a lead it fails to score; otherwise the row is inserted under the new
    key, with the values of the payload, both time stamps, and the columns
    the handler fills by itself: status [new] and the score of the service
    for a lead, status [pending] and the caller as assignee for a task. *)
Theorem create_outcomes
  (generate_lead_score : list (string * value) -> result Q)
  (new_id : Z) (created_at updated_at : Datetime.datetime)
  (rq : post_request) (current_user : Auth.User) (db : Session) :
  (Auth.check_permissions current_user (post_role rq) = false ->
   handle_post generate_lead_score new_id created_at updated_at rq
               current_user db
   = Raise (HTTPException 403 "Not enough permissions"))
  /\ (Auth.check_permissions current_user (post_role rq) = true ->
      (forall customer : CustomerCreate,
          rq = PostCustomer customer ->
          query_filter_id_first (leads db) (cc_lead_id customer) = None ->
          handle_post generate_lead_score new_id created_at updated_at rq
                      current_user db
          = Raise (HTTPException 404 "Lead not found"))
      /\ (forall (lead : LeadCreate) (e : exception),
             rq = PostLead lead ->
             generate_lead_score (LeadCreate_dict lead) = Raise e ->
             handle_post generate_lead_score new_id created_at updated_at rq
                         current_user db
             = Raise e)
      /\ (post_ready generate_lead_score rq db = true ->
          exists row : gmap string value,
            handle_post generate_lead_score new_id created_at updated_at rq
                        current_user db
            = Ok (post_store rq db row, row)
            /\ row !! "id" = Some (VInt new_id)
            /\ (forall f v, In (f, v) (post_items rq) -> getattr row f = v)
            /\ getattr row "created_at" = VDateTime created_at
            /\ getattr row "updated_at" = VDateTime updated_at
            /\ post_fixed generate_lead_score rq current_user row)).
Proof.
  split.
  - intros Hperm.
    destruct rq; cbn [handle_post post_role] in *;
      unfold create_lead, create_customer, create_task;
      rewrite Hperm; reflexivity.
  - intros Hperm. split; [|split].
    + intros customer -> Hnone.
      cbn [handle_post post_role] in *. unfold create_customer.
      rewrite Hperm, Hnone. reflexivity.
    + intros lead e -> Hraise.
      cbn [handle_post post_role] in *. unfold create_lead.
      rewrite Hperm, Hraise. reflexivity.
    + intros Hready.
      destruct (handle_post generate_lead_score new_id created_at updated_at
                            rq current_user db) as [[db' row]|e] eqn:H.
      * destruct (post_success _ _ _ _ _ _ _ _ _ H)
          as (_ & _ & -> & Hid & Hit & Hc & Hu & Hfix).
        exists row. repeat split; assumption.
      * exfalso.
        destruct rq as [lead | customer | task];
          cbn [handle_post post_role post_ready] in *;
          unfold create_lead, create_customer, create_task in H;
          rewrite Hperm in H; cbn [negb] in H.
        -- destruct (generate_lead_score (LeadCreate_dict lead));
             cbv beta iota zeta delta [bind] in H; discriminate.
        -- destruct (query_filter_id_first (leads db) (cc_lead_id customer));
             discriminate.
        -- discriminate.
Qed.

Lemma create_outcomes_witness :
  handle_post sample_score 5 sample_now sample_now
              (PostTask sample_task_create) sample_user sample_db
  = Raise (HTTPException 403 "Not enough permissions")
  /\ handle_post sample_score 2 sample_now sample_now
                 (PostCustomer orphan_customer_create) sample_user sample_db
     = Raise (HTTPException 404 "Lead not found")
  /\ exists row : gmap string value,
       handle_post sample_score 5 sample_now sample_now
                   (PostTask sample_task_create) sample_manager sample_db
       = Ok (post_store (PostTask sample_task_create) sample_db row, row)
       /\ row !! "id" = Some (VInt 5)
       /\ (forall f v, In (f, v) (post_items (PostTask sample_task_create)) ->
                       getattr row f = v)
       /\ getattr row "created_at" = VDateTime sample_now
       /\ getattr row "updated_at" = VDateTime sample_now
       /\ post_fixed sample_score (PostTask sample_task_create)
                     sample_manager row.
Proof.
  split; [|split].
  - apply (proj1 (create_outcomes sample_score 5 sample_now sample_now
                    (PostTask sample_task_create) sample_user sample_db)).
    reflexivity.
  - apply (proj1 (proj2 (create_outcomes sample_score 2 sample_now sample_now
                           (PostCustomer orphan_customer_create) sample_user
                           sample_db) eq_refl)
                 orphan_customer_create eq_refl).
    vm_compute. reflexivity.
  - apply (proj2 (proj2 (proj2 (create_outcomes sample_score 5 sample_now
                                  sample_now (PostTask sample_task_create)
                                  sample_manager sample_db) eq_refl))).
    reflexivity.
Defined.

Lemma query_app (table : list (gmap string value))
  (row : gmap string value) (n k : Z) :
  row !! "id" = Some (VInt n) ->
  query_filter_id_first (table ++ [row]) k
  = match query_filter_id_first table k with
    | Some r => Some r
    | None => if n =? k then Some row else None
    end.
Proof.
  intros Hid. unfold query_filter_id_first.
  rewrite List.filter_app. cbn [List.filter].
  rewrite (has_key_id _ _ _ Hid).
  destruct (List.filter (has_key "id" (VInt k)) table); [|reflexivity].
  destruct (n =? k); reflexivity.
Qed.

Lemma query_app_other (table : list (gmap string value))
  (row : gmap string value) (n k : Z) :
  row !! "id" = Some (VInt n) -> k <> n ->
  query_filter_id_first (table ++ [row]) k = query_filter_id_first table k.
Proof.
  intros Hid Hne. rewrite (query_app _ _ _ _ Hid).
  destruct (query_filter_id_first table k); [reflexivity|].
  destruct (Z.eqb_spec n k); [congruence | reflexivity].
Qed.

Lemma query_app_fresh (table : list (gmap string value))
  (row : gmap string value) (n : Z) :
  row !! "id" = Some (VInt n) -> fresh n table ->
  query_filter_id_first (table ++ [row]) n = Some row.
Proof.
  intros Hid Hfresh. rewrite (query_app _ _ _ _ Hid).
  unfold query_filter_id_first. rewrite Hfresh. cbn [head].
  rewrite Z.eqb_refl. reflexivity.
Qed.

(** X19. A created row can be read back: when the new key is one that no
    row of the table has, a get request for it on the session after the
    creation returns the row the creation returned, for any caller, and
    every other get request is answered as before the creation. *)
Theorem create_then_get
  (generate_lead_score : list (string * value) -> result Q)
  (new_id : Z) (created_at updated_at : Datetime.datetime)
  (rq : post_request) (current_user reader : Auth.User) (db db' : Session)
  (row : gmap string value)
  (content_generation : list (gmap string value)) :
  fresh new_id (post_table rq db) ->
  handle_post generate_lead_score new_id created_at updated_at rq
              current_user db = Ok (db', row) ->
  handle_get (post_get rq new_id) reader db' content_generation = Ok row
  /\ forall rq' : get_request,
       rq' <> post_get rq new_id ->
       handle_get rq' reader db' content_generation
       = handle_get rq' reader db content_generation.
Proof.
  intros Hfresh H.
  destruct (post_success _ _ _ _ _ _ _ _ _ H)
    as (_ & _ & -> & Hid & _).
  split.
  - destruct rq; cbn [post_get post_store post_table handle_get] in *;
      unfold get_lead, get_customer, get_task;
      cbn [leads customers tasks];
      rewrite (query_app_fresh _ _ _ Hid Hfresh); reflexivity.
  - intros rq' Hne.
    destruct rq; destruct rq'; cbn [post_get post_store handle_get] in *;
      unfold get_lead, get_customer, get_task, get_ticket, get_workflow;
      cbn [leads customers tasks support_tickets workflows];
      try reflexivity;
      rewrite (query_app_other _ _ _ _ Hid); try reflexivity;
      congruence.
Qed.

Lemma create_then_get_witness :
  handle_get (GetTask 5) sample_user
             (mk_Session [sample_lead] [] [sample_task; sample_task_created]
                         [] [])
             []
  = Ok sample_task_created
  /\ forall rq' : get_request,
       rq' <> GetTask 5 ->
       handle_get rq' sample_user
                  (mk_Session [sample_lead] []
                              [sample_task; sample_task_created] [] [])
                  []
       = handle_get rq' sample_user sample_db [].
Proof.
  apply (create_then_get sample_score 5 sample_now sample_now
           (PostTask sample_task_create) sample_manager sample_user
           sample_db).
  - vm_compute. reflexivity.
  - vm_compute. reflexivity.
Defined.

Lemma query_deleted (table : list (gmap string value)) (k : Z) :
  query_filter_id_first
    (List.filter (fun r => negb (has_key "id" (VInt k) r)) table) k
  = None.
Proof.
  apply filter_head_none. intros o Ho.
  apply List.filter_In in Ho. destruct Ho as [_ Ho].
  destruct (has_key "id" (VInt k) o); [discriminate | reflexivity].
Qed.

Lemma query_delete_other (table : list (gmap string value)) (k k' : Z) :
  k' <> k ->
  query_filter_id_first
    (List.filter (fun r => negb (has_key "id" (VInt k) r)) table) k'
  = query_filter_id_first table k'.
Proof.
  intros Hne. unfold query_filter_id_first.
  induction table as [|r rest IH]; cbn [List.filter]; [reflexivity|].
  destruct (has_key "id" (VInt k) r) eqn:Hk; cbn [negb List.filter].
  - rewrite (has_key_other _ _ _ Hk Hne). exact IH.
  - destruct (has_key "id" (VInt k') r); [reflexivity | exact IH].
Qed.

(** X20. The outcomes of deleting a task: 403 for a caller who is
    neither a manager nor a superuser, whether or not the task exists; 404
    for a permitted caller when no task has the key; otherwise the
    confirmation message, and a session from which every row with the key
    is gone while the other tables are as before. *)
Theorem delete_task_outcomes (task_id : Z) (current_user : Auth.User)
  (db : Session) :
  (Auth.check_permissions current_user "manager" = false ->
   delete_task task_id current_user db
   = Raise (HTTPException 403 "Not enough permissions"))
  /\ (Auth.check_permissions current_user "manager" = true ->
      (query_filter_id_first (tasks db) task_id = None ->
       delete_task task_id current_user db
       = Raise (HTTPException 404 "Task not found"))
      /\ (query_filter_id_first (tasks db) task_id <> None ->
          exists db' : Session,
            delete_task task_id current_user db
            = Ok (db', {["message" := VStr "Task deleted successfully"]})
            /\ (forall o, In o (tasks db') <->
                          In o (tasks db)
                          /\ has_key "id" (VInt task_id) o = false)
            /\ leads db' = leads db /\ customers db' = customers db
            /\ support_tickets db' = support_tickets db
            /\ workflows db' = workflows db)).
Proof.
  unfold delete_task. split.
  - intros ->. reflexivity.
  - intros ->. cbn [negb]. split.
    + intros ->. reflexivity.
    + intros Hsome.
      destruct (query_filter_id_first (tasks db) task_id); [|congruence].
      eexists. split; [reflexivity|]. cbn [leads customers tasks
                                            support_tickets workflows].
      repeat split; try reflexivity.
      * apply List.filter_In in H. apply H.
      * apply List.filter_In in H. destruct H as [_ H].
        destruct (has_key "id" (VInt task_id) o); [discriminate|reflexivity].
      * intros [Hin Hk]. apply List.filter_In. rewrite Hk.
        split; [exact Hin | reflexivity].
Qed.

Lemma delete_task_outcomes_witness :
  delete_task 4 sample_user sample_db
  = Raise (HTTPException 403 "Not enough permissions")
  /\ delete_task 5 sample_manager sample_db
     = Raise (HTTPException 404 "Task not found")
  /\ exists db' : Session,
       delete_task 4 sample_manager sample_db
       = Ok (db', {["message" := VStr "Task deleted successfully"]})
       /\ (forall o, In o (tasks db') <->
                     In o (tasks sample_db)
                     /\ has_key "id" (VInt 4) o = false)
       /\ leads db' = leads sample_db /\ customers db' = customers sample_db
       /\ support_tickets db' = support_tickets sample_db
       /\ workflows db' = workflows sample_db.
Proof.
  split; [|split].
  - apply (proj1 (delete_task_outcomes 4 sample_user sample_db)).
    reflexivity.
  - apply (proj1 (proj2 (delete_task_outcomes 5 sample_manager sample_db)
                        eq_refl)).
    vm_compute. reflexivity.
  - apply (proj2 (proj2 (delete_task_outcomes 4 sample_manager sample_db)
                        eq_refl)).
    vm_compute. discriminate.
Defined.

(** X21. After a task is deleted its key is unknown: reading it,
    updating it and deleting it again all answer 404, for any permitted
    caller, while every other task is read as before. *)
Theorem delete_then_unknown (task_id : Z) (current_user other : Auth.User)
  (utcnow : Datetime.datetime) (task_update : TaskUpdate)
  (db db' : Session) (message : gmap string value) :
  Auth.check_permissions other "manager" = true ->
  delete_task task_id current_user db = Ok (db', message) ->
  get_task task_id other db' = Raise (HTTPException 404 "Task not found")
  /\ update_task utcnow task_id task_update other db'
     = Raise (HTTPException 404 "Task not found")
  /\ delete_task task_id other db'
     = Raise (HTTPException 404 "Task not found")
  /\ forall k : Z, k <> task_id -> get_task k other db' = get_task k other db.
Proof.
  intros Hother H. unfold delete_task in H.
  destruct (Auth.check_permissions current_user "manager");
    cbn [negb] in H; [|discriminate].
  destruct (query_filter_id_first (tasks db) task_id); [|discriminate].
  injection H as <- _.
  unfold get_task, update_task, delete_task. cbn [tasks].
  rewrite Hother, query_deleted. cbn [negb].
  repeat split; try reflexivity.
  intros k Hne. rewrite (query_delete_other _ _ _ Hne). reflexivity.
Qed.

Lemma delete_then_unknown_witness :
  get_task 4 sample_manager (mk_Session [sample_lead] [] [] [] [])
  = Raise (HTTPException 404 "Task not found")
  /\ update_task sample_now 4 sample_task_update sample_manager
                 (mk_Session [sample_lead] [] [] [] [])
     = Raise (HTTPException 404 "Task not found")
  /\ delete_task 4 sample_manager (mk_Session [sample_lead] [] [] [] [])
     = Raise (HTTPException 404 "Task not found")
  /\ forall k : Z,
       k <> 4 ->
       get_task k sample_manager (mk_Session [sample_lead] [] [] [] [])
       = get_task k sample_manager sample_db.
Proof.
  apply (delete_then_unknown 4 sample_manager sample_manager sample_now
           sample_task_update sample_db
           (mk_Session [sample_lead] [] [] [] [])
           {["message" := VStr "Task deleted successfully"]}).
  - reflexivity.
  - vm_compute. reflexivity.
Defined.

Lemma filter_fresh (table : list (gmap string value)) (k : Z) :
  fresh k table ->
  List.filter (fun r => negb (has_key "id" (VInt k) r)) table = table.
Proof.
  unfold fresh. induction table as [|r rest IH]; cbn [List.filter];
    [reflexivity|].
  destruct (has_key "id" (VInt k) r); [discriminate|].
  intros H. cbn [negb]. rewrite (IH H). reflexivity.
Qed.

(** X22. Deleting a task right after its creation undoes the creation:
    when the new key is one that no task has, the session after the two
    requests is the session before them. *)
Theorem create_then_delete
  (new_id : Z) (created_at updated_at : Datetime.datetime)
  (task : TaskCreate) (current_user : Auth.User) (db db' : Session)
  (row : gmap string value) :
  fresh new_id (tasks db) ->
  create_task new_id created_at updated_at task current_user db
  = Ok (db', row) ->
  delete_task new_id current_user db'
  = Ok (db, {["message" := VStr "Task deleted successfully"]}).
Proof.
  intros Hfresh H.
  destruct (post_success (fun _ => Raise IndexError) new_id created_at
              updated_at (PostTask task) current_user db db' row H)
    as (Hperm & _ & -> & Hid & _).
  cbn [post_role post_store] in *.
  unfold delete_task. cbn [tasks leads customers support_tickets workflows].
  rewrite Hperm, (query_app_fresh _ _ _ Hid Hfresh). cbn [negb].
  rewrite List.filter_app, (filter_fresh _ _ Hfresh).
  cbn [List.filter]. rewrite (has_key_id _ _ _ Hid), Z.eqb_refl.
  cbn [negb]. rewrite app_nil_r. destruct db; reflexivity.
Qed.

Lemma create_then_delete_witness :
  delete_task 5 sample_manager
              (mk_Session [sample_lead] [] [sample_task; sample_task_created]
                          [] [])
  = Ok (sample_db, {["message" := VStr "Task deleted successfully"]}).
Proof.
  apply (create_then_delete 5 sample_now sample_now sample_task_create
           sample_manager sample_db
           (mk_Session [sample_lead] [] [sample_task; sample_task_created]
                       [] [])
           sample_task_created).
  - vm_compute. reflexivity.
  - vm_compute. reflexivity.
Defined.

End StoreWriteProps.

(** ** The session gate *)

Module AuthGateProps.

Import Py Store AuthGate Samples AuthSamples.
Import StoreProps.

Lemma email_match (u : Auth.User) (v : value) :
  value_eqb (VStr (Auth.email u)) v = true -> v = VStr (Auth.email u).
Proof.
  destruct v; cbn [value_eqb]; try discriminate.
  intros H. apply String.eqb_eq in H. rewrite H. reflexivity.
Qed.

Lemma query_email_some (users : list Auth.User) (v : value)
  (user : Auth.User) :
  query_filter_email_first users v = Some user ->
  In user users /\ v = VStr (Auth.email user).
Proof.
  unfold query_filter_email_first.
  induction users as [|r rest IH]; cbn [List.filter]; [discriminate|].
  destruct (value_eqb (VStr (Auth.email r)) v) eqn:Hr; cbn [head].
  - intros H. injection H as <-.
    split; [left; reflexivity | apply email_match; exact Hr].
  - intros H. destruct (IH H) as [Hin Hv]. split; [right|]; assumption.
Qed.

Lemma get_current_user_ok
  (jwt_decode : string -> option (gmap string value))
  (token : string) (users : list Auth.User) (user : Auth.User) :
  get_current_user jwt_decode token users = Ok user
  <-> exists payload : gmap string value,
        jwt_decode token = Some payload
        /\ payload !! "sub" = Some (VStr (Auth.email user))
        /\ query_filter_email_first users (VStr (Auth.email user))
           = Some user.
Proof.
  unfold get_current_user, getattr. split.
  - destruct (jwt_decode token) as [payload|]; [|discriminate].
    destruct (payload !! "sub") as [v|] eqn:Hsub; [|discriminate].
    simpl.
    destruct v; try discriminate;
      (destruct (query_filter_email_first users _) as [u|] eqn:Hu;
       [|discriminate]);
      destruct (query_email_some _ _ _ Hu) as [_ Hv]; try discriminate.
    intros H. injection H as <-. exists payload. rewrite <- Hv. auto.
  - intros (payload & -> & -> & Hq). simpl. rewrite Hq. reflexivity.
Qed.

Lemma get_current_user_raise
  (jwt_decode : string -> option (gmap string value))
  (token : string) (users : list Auth.User) (e : exception) :
  get_current_user jwt_decode token users = Raise e ->
  e = credentials_exception.
Proof.
  unfold get_current_user.
  destruct (jwt_decode token) as [payload|]; [|congruence].
  destruct (getattr payload "sub"); try congruence;
    destruct (query_filter_email_first users _); congruence.
Qed.

(** X23. Who passes the session gate.  The dependency of the handlers
    resolves a token to a user exactly when the token decodes, its subject
    is the email of that user, the user is the row the table holds for this
    email, and the user is active.  It fails with 401 for a token that does
    not decode or carries no subject, and every failure is this 401 or the
    400 of an inactive user. *)
Theorem session_gate_outcomes
  (jwt_decode : string -> option (gmap string value))
  (token : string) (users : list Auth.User) :
  (forall user : Auth.User,
      current_active_user jwt_decode token users = Ok user
      <-> exists payload : gmap string value,
            jwt_decode token = Some payload
            /\ payload !! "sub" = Some (VStr (Auth.email user))
            /\ query_filter_email_first users (VStr (Auth.email user))
               = Some user
            /\ Auth.is_active user = true)
  /\ (jwt_decode token = None \/
      (exists payload : gmap string value,
          jwt_decode token = Some payload /\ payload !! "sub" = None) ->
      current_active_user jwt_decode token users = Raise credentials_exception)
  /\ (forall e : exception,
         current_active_user jwt_decode token users = Raise e ->
         e = credentials_exception \/ e = HTTPException 400 "Inactive user").
Proof.
  unfold current_active_user.
  split; [|split].
  - intros user. split.
    + destruct (get_current_user jwt_decode token users) as [u|e] eqn:Hu;
        cbv beta iota delta [bind]; [|discriminate].
      unfold get_current_active_user.
      destruct (Auth.is_active u) eqn:Hact; cbn [negb]; [|discriminate].
      intros H. injection H as <-.
      apply get_current_user_ok in Hu.
      destruct Hu as (payload & Hdec & Hsub & Hq).
      exists payload. auto.
    + intros (payload & Hdec & Hsub & Hq & Hact).
      assert (Hu : get_current_user jwt_decode token users = Ok user)
        by (apply get_current_user_ok; exists payload; auto).
      rewrite Hu. cbv beta iota delta [bind].
      unfold get_current_active_user. rewrite Hact. reflexivity.
  - unfold get_current_user, getattr.
    intros [-> | (payload & -> & ->)]; reflexivity.
  - intros e.
    destruct (get_current_user jwt_decode token users) as [u|e'] eqn:Hu;
      cbv beta iota delta [bind].
    + unfold get_current_active_user.
      destruct (Auth.is_active u); cbn [negb]; [discriminate|].
      intros H. injection H as <-. right. reflexivity.
    + intros H. injection H as <-. left.
      apply (get_current_user_raise _ _ _ _ Hu).
Qed.

Lemma session_gate_outcomes_witness :
  current_active_user sample_decode "token-ana" sample_users = Ok sample_user
  /\ current_active_user sample_decode "token-anonymous" sample_users
     = Raise credentials_exception.
Proof.
  split.
  - apply (proj1 (session_gate_outcomes sample_decode "token-ana"
                    sample_users)).
    exists {["sub" := VStr "ana@example.com"]}.
    repeat split; reflexivity.
  - apply (proj1 (proj2 (session_gate_outcomes sample_decode
                           "token-anonymous" sample_users))).
    right. exists ∅. split; reflexivity.
Defined.

Lemma query_email_map (f : Auth.User -> Auth.User) (users : list Auth.User)
  (v : value) :
  (forall u, Auth.email (f u) = Auth.email u) ->
  query_filter_email_first (map f users) v
  = option_map f (query_filter_email_first users v).
Proof.
  intros Hf. unfold query_filter_email_first.
  induction users as [|r rest IH]; cbn [map List.filter]; [reflexivity|].
  rewrite Hf.
  destruct (value_eqb (VStr (Auth.email r)) v); [reflexivity | exact IH].
Qed.

Lemma query_email_unique (users : list Auth.User) (user : Auth.User) :
  In user users -> List.NoDup (map Auth.email users) ->
  query_filter_email_first users (VStr (Auth.email user)) = Some user.
Proof.
  unfold query_filter_email_first.
  induction users as [|r rest IH]; cbn [map List.filter]; [contradiction|].
  intros Hin Hnd. apply List.NoDup_cons_iff in Hnd. destruct Hnd as [Hr Hnd].
  destruct Hin as [-> | Hin].
  - cbn [value_eqb]. rewrite String.eqb_refl. reflexivity.
  - cbn [value_eqb].
    destruct (String.eqb_spec (Auth.email r) (Auth.email user)) as [He|He].
    + exfalso. apply Hr. rewrite He. apply List.in_map. exact Hin.
    + apply IH; assumption.
Qed.

Lemma commit_is_active_email (user u : Auth.User) :
  Auth.email (if Auth.id u =? Auth.id user
              then set_is_active u (Auth.is_active user) else u)
  = Auth.email u.
Proof. destruct (Auth.id u =? Auth.id user); reflexivity. Qed.

Lemma unique_id (users : list Auth.User) (u v : Auth.User) :
  List.NoDup (map Auth.id users) -> In u users -> In v users ->
  Auth.id u = Auth.id v -> u = v.
Proof.
  induction users as [|r rest IH]; cbn [map]; [contradiction|].
  intros Hnd Hu Hv Hid. apply List.NoDup_cons_iff in Hnd.
  destruct Hnd as [Hr Hnd].
  destruct Hu as [-> | Hu], Hv as [-> | Hv].
  - reflexivity.
  - exfalso. apply Hr. rewrite Hid. apply List.in_map. exact Hv.
  - exfalso. apply Hr. rewrite <- Hid. apply List.in_map. exact Hu.
  - apply IH; assumption.
Qed.

Lemma get_current_user_map
  (jwt_decode : string -> option (gmap string value))
  (token : string) (users : list Auth.User) (f : Auth.User -> Auth.User) :
  (forall u, Auth.email (f u) = Auth.email u) ->
  get_current_user jwt_decode token (map f users)
  = match get_current_user jwt_decode token users with
    | Ok u => Ok (f u)
    | Raise e => Raise e
    end.
Proof.
  intros Hf. unfold get_current_user.
  destruct (jwt_decode token) as [payload|]; [|reflexivity].
  destruct (getattr payload "sub"); try reflexivity;
    rewrite (query_email_map _ _ _ Hf);
    destruct (query_filter_email_first users _); reflexivity.
Qed.

Lemma gate_after_commit
  (jwt_decode : string -> option (gmap string value))
  (token : string) (payload : gmap string value)
  (users : list Auth.User) (user : Auth.User) (b : bool) :
  In user users -> List.NoDup (map Auth.email users) ->
  jwt_decode token = Some payload ->
  payload !! "sub" = Some (VStr (Auth.email user)) ->
  get_current_user jwt_decode token
                   (commit_is_active users (set_is_active user b))
  = Ok (set_is_active user b).
Proof.
  intros Hin Hnd Hdec Hsub.
  assert (Hu : get_current_user jwt_decode token users = Ok user).
  { apply get_current_user_ok. exists payload.
    split; [exact Hdec|]. split; [exact Hsub|].
    apply query_email_unique; assumption. }
  unfold commit_is_active.
  rewrite get_current_user_map by (intros u; apply commit_is_active_email).
  rewrite Hu. cbn [set_is_active Auth.id Auth.is_active].
  rewrite Z.eqb_refl. reflexivity.
Qed.

Lemma gate_other_after_commit
  (jwt_decode : string -> option (gmap string value))
  (token : string) (payload : gmap string value)
  (users : list Auth.User) (user : Auth.User) (b : bool) :
  In user users -> List.NoDup (map Auth.id users) ->
  jwt_decode token = Some payload ->
  payload !! "sub" <> Some (VStr (Auth.email user)) ->
  get_current_user jwt_decode token
                   (commit_is_active users (set_is_active user b))
  = get_current_user jwt_decode token users.
Proof.
  intros Hin Hid Hdec Hsub.
  unfold commit_is_active.
  rewrite get_current_user_map by (intros u; apply commit_is_active_email).
  destruct (get_current_user jwt_decode token users) as [u|e] eqn:Hu;
    [|reflexivity].
  apply get_current_user_ok in Hu.
  destruct Hu as (payload' & Hdec' & Hsub' & Hq).
  rewrite Hdec in Hdec'. injection Hdec' as <-.
  destruct (query_email_some _ _ _ Hq) as [Hu_in _].
  cbn [set_is_active Auth.id].
  destruct (Z.eqb_spec (Auth.id u) (Auth.id user)) as [He|He];
    [|reflexivity].
  exfalso. apply Hsub.
  rewrite <- (unique_id _ _ _ Hid Hu_in Hin He). exact Hsub'.
Qed.

(** X24. Deactivation locks a user out and activation lets the user in
    again.  For a user of the table, whose emails and keys are unique, and a
    token that decodes to the email of this user: after [deactivate_user]
    the session gate answers 400, after [activate_user] it resolves the
    token to the user, now active; a token for another email is resolved as
    before in both cases; and [check_permissions] answers for the
    deactivated user as it did before. *)
Theorem deactivation_locks_out
  (jwt_decode : string -> option (gmap string value))
  (token : string) (payload : gmap string value)
  (users : list Auth.User) (user : Auth.User) :
  In user users ->
  List.NoDup (map Auth.email users) ->
  List.NoDup (map Auth.id users) ->
  jwt_decode token = Some payload ->
  payload !! "sub" = Some (VStr (Auth.email user)) ->
  current_active_user jwt_decode token (fst (deactivate_user user users))
  = Raise (HTTPException 400 "Inactive user")
  /\ current_active_user jwt_decode token (fst (activate_user user users))
     = Ok (snd (activate_user user users))
  /\ Auth.is_active (snd (activate_user user users)) = true
  /\ (forall (token' : string) (payload' : gmap string value),
         jwt_decode token' = Some payload' ->
         payload' !! "sub" <> Some (VStr (Auth.email user)) ->
         current_active_user jwt_decode token'
                             (fst (deactivate_user user users))
         = current_active_user jwt_decode token' users
         /\ current_active_user jwt_decode token'
                                (fst (activate_user user users))
            = current_active_user jwt_decode token' users)
  /\ (forall required_role : string,
         Auth.check_permissions (snd (deactivate_user user users))
                                required_role
         = Auth.check_permissions user required_role).
Proof.
  intros Hin Hnd Hid Hdec Hsub.
  unfold deactivate_user, activate_user. cbn [fst snd].
  unfold current_active_user.
  rewrite !(gate_after_commit _ _ _ _ _ _ Hin Hnd Hdec Hsub).
  cbv beta iota delta [bind]. unfold get_current_active_user.
  cbn [set_is_active Auth.is_active negb].
  split; [reflexivity|]. split; [reflexivity|]. split; [reflexivity|].
  split; [|reflexivity].
  intros token' payload' Hdec' Hsub'.
  rewrite !(gate_other_after_commit _ _ _ _ _ _ Hin Hid Hdec' Hsub').
  split; reflexivity.
Qed.

Lemma deactivation_locks_out_witness :
  current_active_user sample_decode "token-ana"
                      (fst (deactivate_user sample_user sample_users))
  = Raise (HTTPException 400 "Inactive user")
  /\ current_active_user sample_decode "token-ana"
                         (fst (activate_user sample_user sample_users))
     = Ok (snd (activate_user sample_user sample_users))
  /\ Auth.is_active (snd (activate_user sample_user sample_users)) = true
  /\ (forall (token' : string) (payload' : gmap string value),
         sample_decode token' = Some payload' ->
         payload' !! "sub" <> Some (VStr (Auth.email sample_user)) ->
         current_active_user sample_decode token'
                             (fst (deactivate_user sample_user sample_users))
         = current_active_user sample_decode token' sample_users
         /\ current_active_user sample_decode token'
                                (fst (activate_user sample_user sample_users))
            = current_active_user sample_decode token' sample_users)
  /\ (forall required_role : string,
         Auth.check_permissions
           (snd (deactivate_user sample_user sample_users)) required_role
         = Auth.check_permissions sample_user required_role).
Proof.
  apply (deactivation_locks_out sample_decode "token-ana"
           {["sub" := VStr "ana@example.com"]} sample_users sample_user).
  - left. reflexivity.
  - repeat constructor; cbn; intuition discriminate.
  - repeat constructor; cbn; intuition discriminate.
  - reflexivity.
  - reflexivity.
Defined.

End AuthGateProps.

(** ** The workload endpoint *)

Module WorkloadProps.

Import Py Store Workload WorkloadTerms Samples.

Lemma count_three (p q r : gmap string value -> bool)
  (l : list (gmap string value)) :
  (forall t, p t = true -> q t = false /\ r t = false) ->
  (forall t, q t = true -> r t = false) ->
  (length (List.filter p l) + length (List.filter q l)
   + length (List.filter r l) <= length l)%nat.
Proof.
  intros Hp Hq. induction l as [|t rest IH]; cbn [List.filter length];
    [lia|].
  destruct (p t) eqn:Ep.
  - destruct (Hp t Ep) as [-> ->]. cbn [length]. lia.
  - destruct (q t) eqn:Eq.
    + rewrite (Hq t Eq). cbn [length]. lia.
    + destruct (r t); cbn [length]; lia.
Qed.

Lemma one_value (v : value) (a b : string) :
  String.eqb a b = false ->
  value_eqb v (VStr a) = true -> value_eqb v (VStr b) = false.
Proof.
  intros Hab. destruct v; cbn [value_eqb]; try discriminate.
  intros H. apply String.eqb_eq in H. subst s. exact Hab.
Qed.

Lemma count_where_three (field a b c : string)
  (l : list (gmap string value)) :
  String.eqb a b = false -> String.eqb a c = false ->
  String.eqb b c = false ->
  (count_where field a l + count_where field b l + count_where field c l
   <= length l)%nat.
Proof.
  intros Hab Hac Hbc. unfold count_where. apply count_three.
  - intros t Ht. split; [apply (one_value _ a b) | apply (one_value _ a c)];
      assumption.
  - intros t Ht. apply (one_value _ b c); assumption.
Qed.

Lemma count_tasks_filter (p : gmap string value -> bool)
  (table : list (gmap string value)) :
  length (List.filter p table) = count_tasks p table.
Proof.
  induction table as [|t rest IH]; cbn [List.filter count_tasks length].
  - reflexivity.
  - destruct (p t); cbn [length]; rewrite IH; reflexivity.
Qed.

Lemma filter_filter_and (p q : gmap string value -> bool)
  (table : list (gmap string value)) :
  List.filter q (List.filter p table)
  = List.filter (fun t => p t && q t) table.
Proof.
  induction table as [|t rest IH]; cbn [List.filter].
  - reflexivity.
  - destruct (p t); cbn [List.filter andb].
    + destruct (q t); rewrite IH; reflexivity.
    + exact IH.
Qed.

Lemma count_where_owned (current_user : Auth.User) (field v : string)
  (table : list (gmap string value)) :
  count_where field v
    (List.filter (has_key "assigned_to" (VInt (Auth.id current_user))) table)
  = count_tasks (owned_with current_user field v) table.
Proof.
  unfold count_where. rewrite filter_filter_and, count_tasks_filter.
  reflexivity.
Qed.

(** X25. The workload sent to the text-generation service counts the
    caller's own tasks only: its total is the number of stored tasks that
    are assigned to the caller, and each count by priority or by status is
    the number of stored tasks that are assigned to the caller and have
    that priority or that status. So the counts by priority and the counts
    by status each add up to at most the total, the total is at most the
    number of tasks stored, and the workload is the same for two sessions
    that hold the same tasks for the caller.  A caller who is neither a
    manager nor a superuser gets 403 and the service is not consulted. *)
Theorem workload_counts_own_tasks {A : Type}
  (generate_workflow_actions : workload_data -> result A)
  (current_user : Auth.User) (db : Session) :
  let w := collect_workload current_user db in
  let number field v :=
    count_tasks (owned_with current_user field v) (tasks db) in
  user_id w = Auth.id current_user
  /\ total_tasks w = count_tasks (owned current_user) (tasks db)
  /\ by_priority w
     = mk_tasks_by_priority (number "priority" "high")
                            (number "priority" "medium")
                            (number "priority" "low")
  /\ by_status w
     = mk_tasks_by_status (number "status" "pending")
                          (number "status" "in_progress")
                          (number "status" "completed")
  /\ (high (by_priority w) + medium (by_priority w) + low (by_priority w)
      <= total_tasks w)%nat
  /\ (pending (by_status w) + in_progress (by_status w)
      + completed (by_status w) <= total_tasks w)%nat
  /\ (total_tasks w <= length (tasks db))%nat
  /\ (forall db2 : Session,
         List.filter (has_key "assigned_to" (VInt (Auth.id current_user)))
                     (tasks db2)
         = List.filter (has_key "assigned_to" (VInt (Auth.id current_user)))
                       (tasks db) ->
         collect_workload current_user db2 = w)
  /\ get_workload_optimization generate_workflow_actions current_user db
     = if Auth.check_permissions current_user "manager"
       then generate_workflow_actions w
       else Raise (HTTPException 403 "Not enough permissions").
Proof.
  cbv zeta. unfold collect_workload, get_workload_optimization.
  cbn [user_id total_tasks by_priority by_status high medium low pending
       in_progress completed].
  split; [reflexivity|].
  split; [apply count_tasks_filter|].
  split; [rewrite !count_where_owned; reflexivity|].
  split; [rewrite !count_where_owned; reflexivity|].
  split; [apply count_where_three; reflexivity|].
  split; [apply count_where_three; reflexivity|].
  split; [apply List.filter_length_le|].
  split.
  - intros db2 ->. reflexivity.
  - destruct (Auth.check_permissions current_user "manager"); reflexivity.
Qed.

Lemma workload_counts_own_tasks_witness :
  collect_workload sample_manager own_db
  = collect_workload sample_manager busy_db
  /\ collect_workload sample_manager busy_db
     = mk_workload_data 8 2 (mk_tasks_by_priority 1 0 1)
                        (mk_tasks_by_status 1 0 1).
Proof.
  pose proof (workload_counts_own_tasks (A := unit) (fun _ => Ok tt)
                sample_manager busy_db) as H.
  cbv zeta in H.
  destruct H as (Hid & Htotal & Hpriority & Hstatus & _ & _ & _ & Hsame & _).
  split.
  - apply Hsame. vm_compute. reflexivity.
  - destruct (collect_workload sample_manager busy_db) as [u n p s].
    cbn [user_id total_tasks by_priority by_status] in *.
    rewrite Hid, Htotal, Hpriority, Hstatus. vm_compute. reflexivity.
Defined.

End WorkloadProps.

(** ** Forecast, in binary64 *)

Module ForecastPropsBinary64.

Import Py Binary64 PandasBinary64 AIServiceBinary64 ForecastTermsBinary64.
Import SamplesBinary64 PandasProps.

Lemma ffill_from_length (s : list binary64) :
  forall previous, length (ffill_from previous s) = length s.
Proof.
  induction s as [|x s IH]; intros previous; cbn [ffill_from length].
  - reflexivity.
  - rewrite IH. reflexivity.
Qed.

Lemma pct_change_from_length64 (s : list binary64) :
  forall previous, length (pct_change_from previous s) = length s.
Proof.
  induction s as [|x s IH]; intros previous; cbn [pct_change_from length].
  - reflexivity.
  - rewrite IH. reflexivity.
Qed.

Lemma pct_change_length64 (s : list binary64) :
  length (pct_change s) = length s.
Proof.
  unfold pct_change, ffill.
  pose proof (ffill_from_length s NaN) as Hlen.
  destruct (ffill_from NaN s) as [|x rest]; cbn [length] in *.
  - exact Hlen.
  - rewrite pct_change_from_length64. exact Hlen.
Qed.

(** The last rolling value is the deviation of the last full window. *)
Lemma rolling_std_last64 (window : nat) (s : list binary64) :
  (1 <= window <= length s)%nat ->
  Pandas.iloc_last (rolling_std window s) = Ok (last_window_std window s).
Proof.
  intros [Hw Hlen]. unfold rolling_std, last_window_std, last_window.
  destruct (length s) as [|n] eqn:Hn; [lia|].
  rewrite seq_S, map_app. cbn [map]. rewrite iloc_last_snoc.
  cbn [Nat.add].
  destruct (S n <? window)%nat eqn:Hlt.
  - apply Nat.ltb_lt in Hlt. lia.
  - rewrite firstn_all2; [reflexivity|].
    rewrite length_skipn. lia.
Qed.

Lemma combine_columns64 (groups : list (Z * binary64)) :
  forall rates : list binary64,
    length rates = length groups ->
    let frame :=
      map (fun pr => mk_monthly_row (fst (fst pr)) (snd (fst pr)) (snd pr))
          (combine groups rates) in
    map amount frame = map snd groups /\ map growth_rate frame = rates.
Proof.
  induction groups as [|[k a] groups IH]; intros [|g rates] Hlen;
    simpl in *; try discriminate; try (split; reflexivity).
  injection Hlen as Hlen. destruct (IH rates Hlen) as [Ha Hg].
  rewrite Ha, Hg. split; reflexivity.
Qed.

Lemma frame_columns64 (df : list df_row) :
  map amount (monthly_frame df) = monthly_amounts df
  /\ map growth_rate (monthly_frame df) = growth_rates df.
Proof.
  unfold monthly_frame, monthly_amounts, growth_rates.
  apply combine_columns64. rewrite pct_change_length64.
  unfold monthly_amounts. apply length_map.
Qed.

(** [_identify_forecast_factors] never raises and computes the specified
    list from the amount column. *)
Lemma identify_forecast_factors_eq64 (monthly_data : list monthly_row) :
  _identify_forecast_factors monthly_data
  = Ok (expected_factors (map amount monthly_data)).
Proof.
  unfold _identify_forecast_factors, expected_factors, seasonal_variation.
  rewrite length_map.
  set (a := map amount monthly_data).
  assert (Hlen : length a = length monthly_data) by apply length_map.
  destruct (12 <=? length monthly_data)%nat eqn:H12.
  - apply Nat.leb_le in H12.
    rewrite (rolling_std_last64 12 a) by lia.
    cbv beta iota delta [Py.bind].
    generalize (gtb (last_window_std 12 a) (mul (mean a) (of_Q 0.2))).
    generalize (gtb (std (pct_change a)) (of_Q 0.2)).
    generalize (ltb (mean (pct_change a)) (of_Q (-0.1))).
    generalize (gtb (mean (pct_change a)) (of_Q 0.1)).
    intros [] [] [] []; reflexivity.
  - generalize (gtb (std (pct_change a)) (of_Q 0.2)).
    generalize (ltb (mean (pct_change a)) (of_Q (-0.1))).
    generalize (gtb (mean (pct_change a)) (of_Q 0.1)).
    intros [] [] []; reflexivity.
Qed.

Lemma groupby_insert_not_nil64 (key : Z) (a : binary64)
  (groups : list (Z * (binary64 * binary64))) :
  groupby_insert key a groups <> [].
Proof.
  destruct groups as [|[k total] groups]; simpl; [discriminate|].
  destruct (key <? k)%Z; [discriminate|].
  destruct (key =? k)%Z; discriminate.
Qed.

Lemma groupby_fold_not_nil64 (rows : list (Z * binary64)) :
  forall groups : list (Z * (binary64 * binary64)),
    groups <> [] ->
    fold_left (fun groups r => groupby_insert (fst r) (snd r) groups)
              rows groups <> [].
Proof.
  induction rows as [|r rows IH]; simpl; intros groups Hg.
  - exact Hg.
  - apply IH. apply groupby_insert_not_nil64.
Qed.

(** A frame has no period exactly when it has no row. *)
Lemma no_period_no_row64 (df : list df_row) :
  monthly_amounts df = [] <-> df = [].
Proof.
  split.
  - destruct df as [|r df]; [reflexivity|]. intros Hnil. exfalso.
    unfold monthly_amounts, groupby_sum in Hnil.
    apply map_eq_nil in Hnil. apply map_eq_nil in Hnil.
    cbn [map fold_left] in Hnil.
    revert Hnil. apply groupby_fold_not_nil64.
    apply groupby_insert_not_nil64.
  - intros ->. reflexivity.
Qed.

(** The forecast as a function of the monthly series. *)
Lemma generate_forecast_eq64 (df : list df_row) :
  monthly_amounts df <> [] ->
  _generate_forecast df
  = let* a := Pandas.iloc_last (monthly_amounts df) in
    let* g := Pandas.iloc_last (growth_rates df) in
    Ok (mk_FinancialForecast
          (mul a (add one g))
          (mul a (of_Q 0.8))
          (max0 (sub one (std (growth_rates df))))
          (expected_factors (monthly_amounts df))).
Proof.
  intros Hne. unfold _generate_forecast.
  destruct df as [|r0 rows]; [exfalso; apply Hne; reflexivity|].
  cbv iota. generalize (r0 :: rows). clear Hne r0 rows. intros df.
  destruct (frame_columns64 df) as [Hamounts Hrates].
  destruct (Pandas.iloc_last (monthly_frame df)) as [row|e] eqn:Hlast.
  - pose proof (iloc_last_map amount _ _ Hlast) as Ha.
    pose proof (iloc_last_map growth_rate _ _ Hlast) as Hg.
    rewrite Hamounts in Ha. rewrite Hrates in Hg.
    rewrite Ha, Hg. cbv beta iota delta [Py.bind].
    rewrite identify_forecast_factors_eq64, Hamounts, Hrates.
    reflexivity.
  - unfold Pandas.iloc_last in Hlast.
    destruct (rev (monthly_frame df)) eqn:Hrev; [|discriminate].
    injection Hlast as <-.
    apply (f_equal (@rev monthly_row)) in Hrev.
    rewrite rev_involutive in Hrev. simpl in Hrev.
    rewrite <- Hamounts, Hrev. reflexivity.
Qed.

Lemma forecast_ok_periods64 (df : list df_row) (r : FinancialForecast) :
  _generate_forecast df = Ok r -> monthly_amounts df <> [].
Proof.
  intros H Hm. apply no_period_no_row64 in Hm. subst df. discriminate.
Qed.

(** *** Short series *)

Lemma mul_nan_r (a : binary64) : mul a NaN = NaN.
Proof. destruct a; reflexivity. Qed.

Lemma pct_change_one (a : binary64) : pct_change [a] = [NaN].
Proof. reflexivity. Qed.

Lemma forecast_one_period64 (df : list df_row) (a : binary64) :
  monthly_amounts df = [a] ->
  _generate_forecast df
  = Ok (mk_FinancialForecast NaN (mul a (of_Q 0.8)) zero []).
Proof.
  intros Hm. rewrite generate_forecast_eq64 by (rewrite Hm; discriminate).
  unfold growth_rates, expected_factors, seasonal_variation.
  rewrite Hm, pct_change_one.
  assert (Hadd : add one NaN = NaN) by reflexivity.
  assert (Hconf : max0 (sub one (std [NaN])) = zero)
    by (vm_compute; reflexivity).
  assert (Hup : gtb (mean [NaN]) (of_Q 0.1) = false)
    by (vm_compute; reflexivity).
  assert (Hdown : ltb (mean [NaN]) (of_Q (-0.1)) = false)
    by (vm_compute; reflexivity).
  assert (Hvol : gtb (std [NaN]) (of_Q 0.2) = false)
    by (vm_compute; reflexivity).
  rewrite Hconf, Hup, Hdown, Hvol.
  change (12 <=? length [a])%nat with false.
  cbv beta iota delta [Py.bind Pandas.iloc_last rev app andb].
  rewrite Hadd, mul_nan_r. reflexivity.
Qed.

(** C3, as the code behaves. A series of exactly one period is not
    rejected: the forecast returns a result for it, with revenue NaN,
    expenses 0.8 times the amount, confidence 0 and no factor. A series
    without period is a frame built from no record; such a frame has no
    column and the forecast fails on it with the key error of the column
    lookup, for ['date'] in [_generate_forecast] and already for ['type'] in
    [analyze_financial_data], its caller. *)
Theorem forecast_short_series (df : list df_row) :
  (forall a : binary64,
      monthly_amounts df = [a] ->
      _generate_forecast df
      = Ok (mk_FinancialForecast NaN (mul a (of_Q 0.8)) zero []))
  /\ (monthly_amounts df = [] ->
      df = []
      /\ _generate_forecast df = Raise (KeyError "date")
      /\ analyze_financial_data [] = Raise (KeyError "type")).
Proof.
  split.
  - intros a. apply forecast_one_period64.
  - intros Hm. apply no_period_no_row64 in Hm. subst df.
    split; [reflexivity|]. split; reflexivity.
Qed.

Lemma forecast_short_series_witness :
  _generate_forecast one_month
  = Ok (mk_FinancialForecast NaN (mul (of_Z 100) (of_Q 0.8)) zero [])
  /\ _generate_forecast [] = Raise (KeyError "date").
Proof.
  split.
  - refine (proj1 (forecast_short_series one_month) (of_Z 100) _).
    vm_compute. reflexivity.
  - refine (proj1 (proj2 (proj2 (forecast_short_series []) _))).
    reflexivity.
Defined.

(** C3, as stated, fails: a series of one period has fewer than two
    periods, yet the forecast returns a result for it, with predicted
    expenses 80.0. *)
Lemma forecast_one_period_returns :
  monthly_amounts one_month = [of_Z 100]
  /\ (length (monthly_amounts one_month) < 2)%nat
  /\ _generate_forecast one_month
     = Ok (mk_FinancialForecast NaN (of_Z 80) zero [])
  /\ is_ok (_generate_forecast one_month) = true.
Proof.
  split; [vm_compute; reflexivity|].
  split; [vm_compute; lia|].
  split; vm_compute; reflexivity.
Qed.

(** *** The two-period example *)

Lemma two_months_amounts64 :
  monthly_amounts two_months = [of_Z 100; of_Z 110].
Proof. vm_compute. reflexivity. Qed.

(** C4, as the program computes it. For monthly totals 100 then 110 the
    last growth rate is the float 0.10000000000000009, the result of
    [110 / 100 - 1]; the predicted revenue is 121.00000000000001, the float
    after 121.0; the predicted expenses are 88.0. These are the values 0.10
    and 121.0 of the specification up to the rounding of the operations, and
    its 88.0 exactly. The confidence score is 0 and, the growth rate being
    above the float 0.1, the upward trend is reported. *)
Theorem forecast_two_periods (df : list df_row) :
  monthly_amounts df = [of_Z 100; of_Z 110] ->
  Pandas.iloc_last (growth_rates df) = Ok growth_110_100
  /\ _generate_forecast df
     = Ok (mk_FinancialForecast revenue_110_100 (of_Z 88) zero
             ["Strong upward trend in revenue"]).
Proof.
  intros Hm.
  assert (Hg : growth_rates df = [NaN; growth_110_100])
    by (unfold growth_rates; rewrite Hm; vm_compute; reflexivity).
  split.
  - rewrite Hg. reflexivity.
  - rewrite generate_forecast_eq64 by (rewrite Hm; discriminate).
    rewrite Hg, Hm. vm_compute. reflexivity.
Qed.

Lemma forecast_two_periods_witness :
  Pandas.iloc_last (growth_rates two_months) = Ok growth_110_100
  /\ _generate_forecast two_months
     = Ok (mk_FinancialForecast revenue_110_100 (of_Z 88) zero
             ["Strong upward trend in revenue"]).
Proof.
  refine (forecast_two_periods two_months _). vm_compute. reflexivity.
Defined.

(** C4, as stated, fails: on the totals 100 and 110 the growth rate the
    program computes is not the float 0.1 but a float above it, and the
    predicted revenue is not 121.0 but the float after it. *)
Lemma two_periods_values_are_rounded :
  monthly_amounts two_months = [of_Z 100; of_Z 110]
  /\ Pandas.iloc_last (growth_rates two_months) = Ok growth_110_100
  /\ growth_110_100 <> of_Q 0.1
  /\ gtb growth_110_100 (of_Q 0.1) = true
  /\ (exists r : FinancialForecast,
         _generate_forecast two_months = Ok r
         /\ predicted_revenue r = revenue_110_100
         /\ predicted_revenue r <> of_Z 121
         /\ gtb (predicted_revenue r) (of_Z 121) = true).
Proof.
  split; [exact two_months_amounts64|].
  split; [vm_compute; reflexivity|].
  split; [vm_compute; discriminate|].
  split; [vm_compute; reflexivity|].
  eexists. split; [vm_compute; reflexivity|]. cbn [predicted_revenue].
  split; [reflexivity|]. split; [vm_compute; discriminate|].
  vm_compute. reflexivity.
Qed.

(** *** Scaling *)


(** *** Factors *)

Lemma trend_exclusive64 (m : binary64) :
  gtb m (of_Q 0.1) = true -> ltb m (of_Q (-0.1)) = false.
Proof.
  destruct m as [[]|[]| |[] mm e]; intros H;
    first [reflexivity | vm_compute in H; discriminate H].
Qed.



(** *** The last two months *)

Lemma last_cons_default (x : binary64) (l : list binary64) :
  forall d, List.last (x :: l) d = List.last l x.
Proof.
  revert x. induction l as [|y l IH]; intros x d; [reflexivity|].
  change (List.last (x :: y :: l) d) with (List.last (y :: l) d).
  change (List.last (y :: l) x) with (List.last (y :: l) x).
  rewrite (IH y d), (IH y x). reflexivity.
Qed.

Lemma ffill_from_app (s t : list binary64) :
  forall previous,
    ffill_from previous (s ++ t)
    = ffill_from previous s
      ++ ffill_from (List.last (ffill_from previous s) previous) t.
Proof.
  induction s as [|x s IH]; intros previous; cbn [app ffill_from].
  - reflexivity.
  - rewrite IH, last_cons_default. reflexivity.
Qed.

Lemma ffill_last_two (s : list binary64) (p a : binary64) :
  isnan p = false -> isnan a = false ->
  ffill (s ++ [p; a]) = ffill s ++ [p; a].
Proof.
  intros Hp Ha. unfold ffill. rewrite ffill_from_app.
  cbn [ffill_from]. rewrite Hp, Ha. reflexivity.
Qed.

Lemma pct_change_from_app64 (s t : list binary64) :
  forall previous,
    pct_change_from previous (s ++ t)
    = pct_change_from previous s ++ pct_change_from (List.last s previous) t.
Proof.
  induction s as [|x s IH]; intros previous; cbn [app pct_change_from].
  - reflexivity.
  - rewrite IH, last_cons_default. reflexivity.
Qed.

(** The last growth rate of a series that ends with [p], [a]. *)
Lemma last_growth_rate64 (s : list binary64) (p a : binary64) :
  isnan p = false -> isnan a = false ->
  Pandas.iloc_last (pct_change (s ++ [p; a])) = Ok (sub (div a p) one).
Proof.
  intros Hp Ha. unfold pct_change. rewrite (ffill_last_two s p a Hp Ha).
  destruct (ffill s) as [|x l]; cbn [app].
  - reflexivity.
  - rewrite pct_change_from_app64. cbn [pct_change_from].
    match goal with
    | |- context [?l ++ [?u; ?v]] =>
        change (l ++ [u; v]) with (l ++ [u] ++ [v])
    end.
    rewrite app_assoc, app_comm_cons. apply iloc_last_snoc.
Qed.

Lemma last_amount64 (s : list binary64) (p a : binary64) :
  Pandas.iloc_last (s ++ [p; a]) = Ok a.
Proof.
  change (s ++ [p; a]) with (s ++ [p] ++ [a]). rewrite app_assoc.
  apply iloc_last_snoc.
Qed.

(** The forecast from the last two monthly totals. *)
Lemma forecast_last_two64 (df : list df_row) (s : list binary64)
  (p a : binary64) :
  monthly_amounts df = s ++ [p; a] ->
  isnan p = false ->
  isnan a = false ->
  exists r : FinancialForecast,
    _generate_forecast df = Ok r
    /\ predicted_revenue r = mul a (add one (sub (div a p) one))
    /\ predicted_expenses r = mul a (of_Q 0.8).
Proof.
  intros Hm Hp Ha.
  rewrite generate_forecast_eq64
    by (rewrite Hm; intros E; apply app_eq_nil in E; destruct E;
        discriminate).
  unfold growth_rates.
  rewrite Hm, last_amount64, (last_growth_rate64 s p a Hp Ha).
  cbv beta iota delta [Py.bind].
  eexists. split; [reflexivity|]. split; reflexivity.
Qed.

(** X10. With at least two periods the forecast returns and extrapolates
    the last month-over-month ratio, whatever the earlier months: when the
    last two totals [p] and [a] are not NaN, the predicted revenue is
    [a * (1 + (a / p - 1))] and the predicted expenses are [a * 0.8], each
    operation being the binary64 one. *)
Theorem forecast_extrapolates_last_ratio (df : list df_row)
  (s : list binary64) (p a : binary64) :
  monthly_amounts df = s ++ [p; a] ->
  isnan p = false ->
  isnan a = false ->
  exists r : FinancialForecast,
    _generate_forecast df = Ok r
    /\ predicted_revenue r = mul a (add one (sub (div a p) one))
    /\ predicted_expenses r = mul a (of_Q 0.8).
Proof. exact (forecast_last_two64 df s p a). Qed.

Lemma forecast_extrapolates_last_ratio_witness :
  exists r : FinancialForecast,
    _generate_forecast two_months = Ok r
    /\ predicted_revenue r
       = mul (of_Z 110) (add one (sub (div (of_Z 110) (of_Z 100)) one))
    /\ predicted_expenses r = mul (of_Z 110) (of_Q 0.8).
Proof.
  refine (forecast_extrapolates_last_ratio two_months [] (of_Z 100)
            (of_Z 110) _ _ _).
  - vm_compute. reflexivity.
  - reflexivity.
  - reflexivity.
Defined.

End ForecastPropsBinary64.

(** ** Scaling the amounts *)

Module ScalingProps.

Import Py.

Lemma mul_not_nan (c x : Binary64.binary64) :
  Binary64.isnan (Binary64.mul c x) = false -> Binary64.isnan x = false.
Proof. destruct c, x; try reflexivity; intros H; exact H. Qed.



End ScalingProps.

(** ** Expense recommendations in binary64 *)

Module RecommendationPropsBinary64.

Import Py Erp Binary64 AIServiceBinary64 ExpenseTermsBinary64 SamplesBinary64.

(** *** The dictionary of totals *)

Lemma dict_get_set64 (d : list (TransactionCategory * binary64))
  (k c : TransactionCategory) (v default : binary64) :
  dict_get (dict_set d k v) c default
  = if category_eqb k c then v else dict_get d c default.
Proof.
  unfold dict_get.
  induction d as [|[k' v'] d IH]; simpl.
  - destruct (category_eqb k c); reflexivity.
  - destruct (category_eqb k' k) eqn:Hk; simpl.
    + apply RecommendationProps.category_eqb_eq in Hk. subst k'.
      destruct (category_eqb k c); reflexivity.
    + destruct (category_eqb k' c) eqn:Hc; simpl.
      * apply RecommendationProps.category_eqb_eq in Hc. subst k'.
        rewrite RecommendationProps.category_eqb_sym, Hk. reflexivity.
      * exact IH.
Qed.

Lemma dict_set_keys64 (d : list (TransactionCategory * binary64))
  (k : TransactionCategory) (v : binary64) :
  map fst (dict_set d k v)
  = if existsb (category_eqb k) (map fst d) then map fst d
    else map fst d ++ [k].
Proof.
  induction d as [|[k' v'] d IH]; simpl.
  - reflexivity.
  - rewrite (RecommendationProps.category_eqb_sym k k').
    destruct (category_eqb k' k); simpl.
    + reflexivity.
    + rewrite IH. destruct (existsb (category_eqb k) (map fst d)); reflexivity.
Qed.

Lemma category_totals_snoc64 (expenses : list ErpBinary64.Transaction)
  (e : ErpBinary64.Transaction) :
  category_totals (expenses ++ [e])
  = dict_set (category_totals expenses) (ErpBinary64.category e)
             (add (dict_get (category_totals expenses)
                            (ErpBinary64.category e) zero)
                  (ErpBinary64.amount e)).
Proof. unfold category_totals. rewrite fold_left_app. reflexivity. Qed.

(** The keys of the dictionary are the categories of the expenses, in
    order of first occurrence. *)
Lemma category_totals_keys64 (expenses : list ErpBinary64.Transaction) :
  map fst (category_totals expenses)
  = ExpenseTerms.first_occurrences (map ErpBinary64.category expenses).
Proof.
  induction expenses as [|e expenses IH] using rev_ind.
  - reflexivity.
  - rewrite category_totals_snoc64, dict_set_keys64, map_app. simpl.
    rewrite RecommendationProps.first_occurrences_snoc, IH,
      RecommendationProps.first_occurrences_mem.
    reflexivity.
Qed.

(** The entry of a category holds the total of its expenses; a category
    without expense has no entry, and the default is that total. *)
Lemma category_totals_get64 (expenses : list ErpBinary64.Transaction)
  (c : TransactionCategory) :
  dict_get (category_totals expenses) c zero
  = fold_left add
      (map ErpBinary64.amount
           (List.filter
              (fun t => category_eqb (ErpBinary64.category t) c) expenses))
      zero.
Proof.
  induction expenses as [|e expenses IH] using rev_ind.
  - reflexivity.
  - rewrite category_totals_snoc64, dict_get_set64, List.filter_app.
    cbn [List.filter].
    destruct (category_eqb (ErpBinary64.category e) c) eqn:Hc.
    + rewrite map_app, fold_left_app. cbn [map fold_left].
      apply RecommendationProps.category_eqb_eq in Hc. subst c.
      rewrite IH. reflexivity.
    + rewrite app_nil_r. exact IH.
Qed.

(** A dictionary is the list of its keys, each with its value. *)
Lemma dict_items64 (d : list (TransactionCategory * binary64))
  (default : binary64) :
  List.NoDup (map fst d) ->
  d = map (fun c => (c, dict_get d c default)) (map fst d).
Proof.
  induction d as [|[k v] d IH]; intros Hnd.
  - reflexivity.
  - apply List.NoDup_cons_iff in Hnd as [Hk Hnd].
    cbn [map fst]. f_equal.
    + unfold dict_get. cbn [List.find fst snd].
      rewrite RecommendationProps.category_eqb_refl. reflexivity.
    + rewrite (IH Hnd) at 1. apply map_ext_in. intros c Hc.
      unfold dict_get. cbn [List.find fst snd].
      destruct (category_eqb k c) eqn:Hkc; [|reflexivity].
      apply RecommendationProps.category_eqb_eq in Hkc. subst c.
      contradiction.
Qed.

(** The dictionary built by the first loop: the categories in order of
    first occurrence, each with the total of its expenses. *)
Lemma category_totals_items64 (transactions : list ErpBinary64.Transaction) :
  category_totals (expenses_of transactions)
  = map (fun c => (c, category_expense c transactions))
        (expense_categories transactions).
Proof.
  rewrite (dict_items64 (category_totals (expenses_of transactions)) zero)
    at 1.
  - rewrite category_totals_keys64. apply map_ext. intros c.
    rewrite category_totals_get64. reflexivity.
  - rewrite category_totals_keys64.
    apply RecommendationProps.first_occurrences_NoDup.
Qed.

(** *** The loop over the dictionary *)

Lemma high_spending_ok64 (total_expenses : binary64)
  (items : list (TransactionCategory * binary64)) :
  eqb total_expenses zero = false ->
  forall recommendations : list AIService.AIRecommendation,
    high_spending total_expenses items recommendations
    = Ok (recommendations
          ++ map (fun kv => expense_recommendation
                              (fst kv) (div (snd kv) total_expenses))
                 (List.filter
                    (fun kv => gtb (div (snd kv) total_expenses) (of_Q 0.3))
                    items)).
Proof.
  intros Hz.
  induction items as [|[c v] items IH]; intros recommendations;
    cbn [high_spending List.filter map fst snd].
  - rewrite app_nil_r. reflexivity.
  - rewrite Hz, IH.
    destruct (gtb (div v total_expenses) (of_Q 0.3)); cbn [map fst snd].
    + rewrite <- app_assoc. reflexivity.
    + reflexivity.
Qed.

Lemma high_spending_zero64 (items : list (TransactionCategory * binary64))
  (total_expenses : binary64)
  (recommendations : list AIService.AIRecommendation) :
  eqb total_expenses zero = true -> items <> [] ->
  high_spending total_expenses items recommendations
  = Raise ZeroDivisionError.
Proof.
  intros Hz Hne. destruct items as [|[c v] items]; [contradiction|].
  cbn [high_spending]. rewrite Hz. reflexivity.
Qed.

Lemma filter_map_items64 (f : TransactionCategory -> binary64)
  (test : binary64 -> bool) (l : list TransactionCategory) :
  List.filter (fun kv : TransactionCategory * binary64 => test (snd kv))
              (map (fun c => (c, f c)) l)
  = map (fun c => (c, f c)) (List.filter (fun c => test (f c)) l).
Proof.
  induction l as [|c l IH]; cbn [map List.filter snd].
  - reflexivity.
  - destruct (test (f c)); cbn [map]; rewrite IH; reflexivity.
Qed.

(** The total the second loop divides by. *)
Lemma analyze_expenses_total64 (builtin_sum : list binary64 -> binary64)
  (transactions : list ErpBinary64.Transaction) :
  builtin_sum (map snd (category_totals (expenses_of transactions)))
  = total_expense builtin_sum transactions.
Proof.
  rewrite category_totals_items64, map_map. reflexivity.
Qed.

(** C8. [_analyze_expenses] raises [ZeroDivisionError] when there is an
    expense and the total of the expenses is zero. Otherwise it returns one
    recommendation for each category whose share of that total exceeds 0.3,
    in order of first occurrence among the expenses, and nothing else; the
    share, the total and the comparison are the binary64 ones. With totals
    of 3100 for rent, 6000 for salaries and 900 for the rest, which add up
    to 10000, it recommends rent (0.31) and salaries (0.6) and nothing
    else. *)
Theorem analyze_expenses_flags (builtin_sum : list binary64 -> binary64) :
  (forall transactions : list ErpBinary64.Transaction,
      expenses_of transactions <> [] ->
      eqb (total_expense builtin_sum transactions) zero = true ->
      _analyze_expenses builtin_sum transactions = Raise ZeroDivisionError)
  /\ (forall transactions : list ErpBinary64.Transaction,
        expenses_of transactions = []
        \/ eqb (total_expense builtin_sum transactions) zero = false ->
        _analyze_expenses builtin_sum transactions
        = Ok (map (fun c =>
                     expense_recommendation
                       c (expense_share builtin_sum transactions c))
                  (high_spending_categories builtin_sum transactions)))
  /\ (forall transactions : list ErpBinary64.Transaction,
        category_totals (expenses_of transactions)
        = [(RENT, of_Z 3100); (SALARIES, of_Z 6000); (OTHER, of_Z 900)] ->
        builtin_sum [of_Z 3100; of_Z 6000; of_Z 900] = of_Z 10000 ->
        _analyze_expenses builtin_sum transactions
        = Ok [expense_recommendation RENT (of_Q 0.31);
              expense_recommendation SALARIES (of_Q 0.6)]).
Proof.
  split; [|split].
  - intros transactions Hne Hz.
    unfold _analyze_expenses. fold (expenses_of transactions).
    cbv zeta. rewrite analyze_expenses_total64.
    apply high_spending_zero64; [exact Hz|].
    intros Hnil. apply (f_equal (map fst)) in Hnil.
    rewrite category_totals_keys64 in Hnil.
    destruct (expenses_of transactions); [contradiction | discriminate].
  - intros transactions [Hnone | Hne].
    + unfold _analyze_expenses, high_spending_categories, expense_categories.
      fold (expenses_of transactions). rewrite Hnone. reflexivity.
    + unfold _analyze_expenses. fold (expenses_of transactions).
      cbv zeta. rewrite analyze_expenses_total64.
      rewrite (high_spending_ok64 _ _ Hne). cbn [app]. f_equal.
      rewrite category_totals_items64.
      rewrite (filter_map_items64
                 (fun c => category_expense c transactions)
                 (fun v => gtb (div v (total_expense builtin_sum
                                                     transactions))
                               (of_Q 0.3))).
      rewrite map_map. reflexivity.
  - intros transactions Hd Hsum.
    unfold _analyze_expenses. fold (expenses_of transactions).
    rewrite Hd. cbv zeta. cbn [map snd]. rewrite Hsum.
    vm_compute. reflexivity.
Qed.

Lemma analyze_expenses_flags_witness :
  _analyze_expenses sum_from_left zero_expense = Raise ZeroDivisionError
  /\ _analyze_expenses sum_from_left sample_transactions
     = Ok (map (fun c =>
                  expense_recommendation
                    c (expense_share sum_from_left sample_transactions c))
               (high_spending_categories sum_from_left sample_transactions))
  /\ _analyze_expenses sum_from_left sample_transactions
     = Ok [expense_recommendation RENT (of_Q 0.31);
           expense_recommendation SALARIES (of_Q 0.6)].
Proof.
  split; [|split].
  - refine (proj1 (analyze_expenses_flags sum_from_left) zero_expense _ _).
    + discriminate.
    + vm_compute. reflexivity.
  - refine (proj1 (proj2 (analyze_expenses_flags sum_from_left))
              sample_transactions _).
    right. vm_compute. reflexivity.
  - refine (proj2 (proj2 (analyze_expenses_flags sum_from_left))
              sample_transactions _ _).
    + vm_compute. reflexivity.
    + vm_compute. reflexivity.
Defined.

(** One expense of amount zero: its category has no share of the total,
    and the analysis raises instead of returning a list. *)
Example zero_total_raises :
  expense_categories zero_expense = [RENT]
  /\ total_expense sum_from_left zero_expense = zero
  /\ _analyze_expenses sum_from_left zero_expense = Raise ZeroDivisionError
  /\ forall recommendations : list AIService.AIRecommendation,
       _analyze_expenses sum_from_left zero_expense <> Ok recommendations.
Proof.
  split; [|split; [|split]]; try (vm_compute; reflexivity).
  intros recommendations. vm_compute. discriminate.
Qed.

End RecommendationPropsBinary64.
